(** * aiSearchEngine: the ReAct reasoning loop and its components

    A shallow embedding of the server core of the repository:

    - [server/core/frameworks/mcp/model.js]      (class [Model], the state store)
    - [server/core/frameworks/mcp/controller.js] (class [Controller])
    - [server/core/frameworks/mcp/planner.js]    (class [Planner])
    - [server/core/frameworks/react/index.js]    (class [ReActFramework])
    - [server/core/tools/index.js]               (class [ToolBox])
    - [server/core/tools/web-search.js]          (class [WebSearchTool])
    - [server/services/llm/claude-client.js]     (class [ClaudeClient])
    - [server/core/agents/general/index.js]      (class [GeneralAgent])

    JavaScript strings are embedded as [string]; a character stands for one
    code unit below 256.  Numbers that are only compared or tested for
    truthiness are rationals. *)

From Stdlib Require Import String Ascii List Bool Arith Lia ZArith QArith Lqa.
From Stdlib Require Import Sorting.Sorted Sorting.Permutation DecimalString.
Import ListNotations.

Local Open Scope string_scope.
Local Close Scope Q_scope.
Local Open Scope nat_scope.

Set Implicit Arguments.
Set Warnings "-register-all".

(* ================================================================= *)
(** ** The JavaScript runtime: values, strings, exceptions *)

Module JS.

(** A JavaScript value, as far as the program inspects one. *)
Inductive JsVal : Type :=
| Undefined
| Null
| Bool (b : bool)
| Num (x : Q)
| NaN
| Str (s : string)
| Arr (items : list JsVal)
| Obj (props : list (string * JsVal)).

(** [ToBoolean]: the falsy values are [undefined], [null], [false], [0],
    [NaN] and the empty string. *)
Definition truthy (v : JsVal) : bool :=
  match v with
  | Undefined | Null | NaN => false
  | Bool b => b
  | Num x => negb (Qeq_bool x 0)
  | Str s => negb (String.eqb s "")
  | Arr _ | Obj _ => true
  end.

(** [a || b] *)
Definition or_else (a b : JsVal) : JsVal := if truthy a then a else b.

(** The outcome of code that may throw, and of a promise once settled:
    [Ok] is a normal return or a fulfilled promise, [Throw] an exception or
    a rejected promise, with the [message] of the error. *)
Inductive Outcome (A : Type) : Type :=
| Ok (a : A)
| Throw (message : string).
Arguments Throw {A} message.

(** *** Strings *)

Definition dq : string := String (ascii_of_nat 34) "".
Definition nl : string := String (ascii_of_nat 10) "".
Definition nl_char : ascii := ascii_of_nat 10.

Definition nonempty (s : string) : bool := negb (String.eqb s "").

(** White space and line terminators (the code units below 256 of the
    class used by [String.prototype.trim] and by [\s]). *)
Definition isWhiteSpace (c : ascii) : bool :=
  let n := nat_of_ascii c in
  ((9 <=? n) && (n <=? 13)) || (n =? 32) || (n =? 160).

Fixpoint trimStart (s : string) : string :=
  match s with
  | EmptyString => EmptyString
  | String c s' => if isWhiteSpace c then trimStart s' else s
  end.

Fixpoint trimEnd (s : string) : string :=
  match s with
  | EmptyString => EmptyString
  | String c s' =>
      let t := trimEnd s' in
      if isWhiteSpace c && String.eqb t "" then EmptyString else String c t
  end.

Definition trim (s : string) : string := trimEnd (trimStart s).

(** ASCII and Latin-1 lower-casing, [String.prototype.toLowerCase]. *)
Definition lowerChar (c : ascii) : ascii :=
  let n := nat_of_ascii c in
  if ((65 <=? n) && (n <=? 90))
     || ((192 <=? n) && (n <=? 222) && negb (n =? 215))
  then ascii_of_nat (n + 32) else c.

Fixpoint toLowerCase (s : string) : string :=
  match s with
  | EmptyString => EmptyString
  | String c s' => String (lowerChar c) (toLowerCase s')
  end.

Fixpoint skipn_string (n : nat) (s : string) : string :=
  match n, s with
  | S k, String _ s' => skipn_string k s'
  | _, _ => s
  end.

Fixpoint firstn_string (n : nat) (s : string) : string :=
  match n, s with
  | S k, String c s' => String c (firstn_string k s')
  | _, _ => EmptyString
  end.

(** [dropPrefix lit s]: what follows [lit] when [s] starts with it. *)
Definition dropPrefix (lit s : string) : option string :=
  if prefix lit s then Some (skipn_string (String.length lit) s) else None.

(** The same under the [i] flag; the patterns of this program are ASCII,
    and a code unit below 256 matches an ASCII letter exactly when it is
    that letter in either case. *)
Definition eq_ci (a b : ascii) : bool :=
  let fold c :=
    let n := nat_of_ascii c in
    if (65 <=? n) && (n <=? 90) then n + 32 else n in
  fold a =? fold b.

Fixpoint prefix_ci (lit s : string) : bool :=
  match lit, s with
  | EmptyString, _ => true
  | String a lit', String b s' => eq_ci a b && prefix_ci lit' s'
  | String _ _, EmptyString => false
  end.

Definition dropPrefix_ci (lit s : string) : option string :=
  if prefix_ci lit s then Some (skipn_string (String.length lit) s) else None.

(** [includes lit s]: [s.includes(lit)] *)
Fixpoint includes (lit s : string) : bool :=
  prefix lit s ||
  match s with
  | EmptyString => false
  | String _ s' => includes lit s'
  end.

(** What follows the leftmost occurrence of [lit] in [s]. *)
Fixpoint afterFirst (lit s : string) : option string :=
  match dropPrefix lit s with
  | Some rest => Some rest
  | None =>
      match s with
      | EmptyString => None
      | String _ s' => afterFirst lit s'
      end
  end.

(** The lazy group [(.*?)] under the [s] flag, followed by the lookahead
    [(?=stop1|...|$)]: the shortest prefix of [s] after which one of
    [stops] starts or the text ends. *)
Fixpoint lazyUntil (stops : list string) (s : string) : string :=
  if existsb (fun p => prefix p s) stops then EmptyString
  else match s with
       | EmptyString => EmptyString
       | String c s' => String c (lazyUntil stops s')
       end.

(** [s.split(sep)] for a separator of one character. *)
Fixpoint split (sep : ascii) (s : string) : list string :=
  match s with
  | EmptyString => [EmptyString]
  | String c s' =>
      if Ascii.eqb c sep then EmptyString :: split sep s'
      else match split sep s' with
           | h :: t => String c h :: t
           | [] => [String c EmptyString]
           end
  end.

(** [arr.join(sep)] on strings *)
Definition join (sep : string) (l : list string) : string := String.concat sep l.

(** *** Objects used as records of properties *)

Fixpoint assoc {A : Type} (k : string) (l : list (string * A)) : option A :=
  match l with
  | [] => None
  | (k', v) :: t => if String.eqb k' k then Some v else assoc k t
  end.

(** [obj[k] = v] on own data properties: an existing key keeps its place. *)
Fixpoint assoc_set {A : Type} (k : string) (v : A) (l : list (string * A))
  : list (string * A) :=
  match l with
  | [] => [(k, v)]
  | (k', v') :: t =>
      if String.eqb k' k then (k, v) :: t else (k', v') :: assoc_set k v t
  end.

(** The members every plain object inherits from [Object.prototype]. *)
Definition Object_prototype_members : list string :=
  [ "constructor"; "__defineGetter__"; "__defineSetter__"; "hasOwnProperty";
    "__lookupGetter__"; "__lookupSetter__"; "isPrototypeOf";
    "propertyIsEnumerable"; "toString"; "valueOf"; "__proto__";
    "toLocaleString" ].

Definition inherited (k : string) : bool :=
  existsb (String.eqb k) Object_prototype_members.

End JS.
Import JS.

(* ================================================================= *)
(** ** Values in a template literal

    [`${v}`] converts [v] to a string.  The conversion throws a
    [TypeError] for an object whose own [toString] is not a function, as
    every [toString] that came in as data is; an array converts its items
    (a [join]), a plain object without a [toString] of its own inherits
    the one of [Object.prototype]. *)

Module Conversion.

Fixpoint printable (v : JsVal) : bool :=
  match v with
  | Arr items => forallb printable items
  | Obj props => negb (existsb (fun kv => String.eqb (fst kv) "toString") props)
  | _ => true
  end.

End Conversion.

(* ================================================================= *)
(** ** [JSON.parse]

    The built-in the planner applies to the parameter text.  A repeated
    key keeps its first place and takes the last value; a number is the
    double nearest to its literal. *)

Module JSON.

Local Open Scope char_scope.

Definition is_ws (c : ascii) : bool :=
  let n := nat_of_ascii c in Nat.eqb n 32 || Nat.eqb n 9 || Nat.eqb n 10 || Nat.eqb n 13.

Fixpoint skip_ws (s : string) : string :=
  match s with
  | EmptyString => EmptyString
  | String c s' => if is_ws c then skip_ws s' else s
  end.

Definition digit (c : ascii) : option nat :=
  let n := nat_of_ascii c in
  if Nat.leb 48 n && Nat.leb n 57 then Some (n - 48) else None.

Definition hex (c : ascii) : option nat :=
  let n := nat_of_ascii c in
  if Nat.leb 48 n && Nat.leb n 57 then Some (n - 48)
  else if Nat.leb 65 n && Nat.leb n 70 then Some (n - 55)
  else if Nat.leb 97 n && Nat.leb n 102 then Some (n - 87)
  else None.

(** The characters of a string literal, after its opening quote, and
    whether an escape names a code unit above 255: a string of the
    embedding does not hold one, and [?] takes its place. *)
Fixpoint chars (s : string) : option (string * bool * string) :=
  match s with
  | EmptyString => None
  | String c s' =>
      if Ascii.eqb c (ascii_of_nat 34) then Some (EmptyString, false, s')
      else if Ascii.eqb c "\" then
        match s' with
        | EmptyString => None
        | String e s'' =>
            let simple (x : ascii) :=
              option_map (fun '(t, w, r) => (String x t, w, r)) (chars s'') in
            if Ascii.eqb e (ascii_of_nat 34) then simple (ascii_of_nat 34)
            else if Ascii.eqb e "\" then simple "\"
            else if Ascii.eqb e "/" then simple "/"
            else if Ascii.eqb e "b" then simple (ascii_of_nat 8)
            else if Ascii.eqb e "f" then simple (ascii_of_nat 12)
            else if Ascii.eqb e "n" then simple (ascii_of_nat 10)
            else if Ascii.eqb e "r" then simple (ascii_of_nat 13)
            else if Ascii.eqb e "t" then simple (ascii_of_nat 9)
            else if Ascii.eqb e "u" then
              match s'' with
              | String h1 (String h2 (String h3 (String h4 r))) =>
                  match hex h1, hex h2, hex h3, hex h4 with
                  | Some a, Some b, Some c, Some d =>
                      if Nat.eqb a 0 && Nat.eqb b 0 then
                        option_map
                          (fun '(t, w, r') =>
                             (String (ascii_of_nat (16 * c + d)) t, w, r'))
                          (chars r)
                      else
                        option_map
                          (fun '(t, _, r') => (String "?" t, true, r'))
                          (chars r)
                  | _, _, _, _ => None
                  end
              | _ => None
              end
            else None
        end
      else if Nat.ltb (nat_of_ascii c) 32 then None
      else option_map (fun '(t, w, r) => (String c t, w, r)) (chars s')
  end.

(** A run of decimal digits: its value, its length and the rest. *)
Fixpoint digits (acc : N) (len : nat) (s : string) : N * nat * string :=
  match s with
  | EmptyString => (acc, len, s)
  | String c s' =>
      match digit c with
      | Some d => digits (10 * acc + N.of_nat d)%N (S len) s'
      | None => (acc, len, s)
      end
  end.

(** The number value of [n / d], for [0 <= n] and [0 < d]: the nearest
    double, ties to the even significand; [None] when that is
    [Infinity].  A double has 53 bits, and its last place is [2 ^ -1074]
    at the least. *)
Definition double (n d : Z) : option Q :=
  if (n =? 0)%Z then Some 0%Q else
  let e0 := (Z.log2 n - Z.log2 d)%Z in
  let below :=
    if (e0 <? 0)%Z then (n * 2 ^ (- e0) <? d)%Z else (n <? d * 2 ^ e0)%Z in
  let e := if below then (e0 - 1)%Z else e0 in
  if (1023 <? e)%Z then None else
  let s := Z.max (e - 52) (-1074) in
  let num := if (s <? 0)%Z then (n * 2 ^ (- s))%Z else n in
  let den := if (s <? 0)%Z then d else (d * 2 ^ s)%Z in
  let q := (num / den)%Z in
  let r := (num mod den)%Z in
  let m :=
    if (2 * r <? den)%Z then q
    else if (den <? 2 * r)%Z then (q + 1)%Z
    else if Z.even q then q else (q + 1)%Z in
  if (s =? 971)%Z && (m =? 2 ^ 53)%Z then None
  else Some (Qred (if (s <? 0)%Z then Qmake m (Z.to_pos (2 ^ (- s)))
                   else inject_Z (m * 2 ^ s))).

(** A number literal: its number value, [None] for an infinite one. *)
Definition number (s : string) : option (option Q * string) :=
  let '(neg, s1) :=
    match s with
    | String "-" r => (true, r)
    | _ => (false, s)
    end in
  let '(ip, ilen, s2) := digits 0%N 0 s1 in
  let leading_zero :=
    match s1 with String "0" _ => Nat.ltb 1 ilen | _ => false end in
  if Nat.eqb ilen 0 || leading_zero then None else
  let frac :=
    match s2 with
    | String "." r =>
        let '(fp, flen, s3) := digits 0%N 0 r in
        if Nat.eqb flen 0 then None
        else Some (Z.of_N fp, Z.of_nat flen, s3)
    | _ => Some (0%Z, 0%Z, s2)
    end in
  match frac with
  | None => None
  | Some (fp, flen, s3) =>
      let expo :=
        match s3 with
        | String e r =>
            if Ascii.eqb e "e" || Ascii.eqb e "E" then
              let '(eneg, r1) :=
                match r with
                | String "-" r' => (true, r')
                | String "+" r' => (false, r')
                | _ => (false, r)
                end in
              let '(ep, elen, s4) := digits 0%N 0 r1 in
              if Nat.eqb elen 0 then None
              else Some ((if eneg then - Z.of_N ep else Z.of_N ep)%Z, s4)
            else Some (0%Z, s3)
        | _ => Some (0%Z, s3)
        end in
      match expo with
      | None => None
      | Some (e, s4) =>
          (* the literal is [(ip * 10^flen + fp) * 10^(e - flen)] *)
          let mantissa := (Z.of_N ip * 10 ^ flen + fp)%Z in
          let scale := (e - flen)%Z in
          let magnitude :=
            if (scale <? 0)%Z then double mantissa (10 ^ (- scale))
            else double (mantissa * 10 ^ scale) 1 in
          Some (option_map (fun x => if neg then Qred (Qopp x) else x) magnitude,
                s4)
      end
  end.

(** A value and the rest of the text, and whether the value has a part
    that [JsVal] does not hold: a code unit above 255 in a string or a
    key, or an infinite number. *)
Fixpoint value (fuel : nat) (s : string) : option (JsVal * bool * string) :=
  match fuel with
  | 0 => None
  | S f =>
      match skip_ws s with
      | String "{" r =>
          match skip_ws r with
          | String "}" r' => Some (Obj [], false, r')
          | _ => members f r [] false
          end
      | String "[" r =>
          match skip_ws r with
          | String "]" r' => Some (Arr [], false, r')
          | _ => elements f r [] false
          end
      | String c r as t =>
          if Ascii.eqb c (ascii_of_nat 34) then
            option_map (fun '(str, w, r') => (Str str, w, r')) (chars r)
          else if prefix "true" t then Some (Bool true, false, skipn_string 4 t)
          else if prefix "false" t then Some (Bool false, false, skipn_string 5 t)
          else if prefix "null" t then Some (Null, false, skipn_string 4 t)
          else option_map
                 (fun '(x, r') =>
                    match x with
                    | Some x => (Num x, false, r')
                    | None => (Num 0, true, r')
                    end)
                 (number t)
      | EmptyString => None
      end
  end
with members (fuel : nat) (s : string) (acc : list (string * JsVal))
  (wide : bool) : option (JsVal * bool * string) :=
  match fuel with
  | 0 => None
  | S f =>
      match skip_ws s with
      | String q r =>
          if Ascii.eqb q (ascii_of_nat 34) then
            match chars r with
            | Some (k, wk, r1) =>
                match skip_ws r1 with
                | String ":" r2 =>
                    match value f r2 with
                    | Some (v, wv, r3) =>
                        match skip_ws r3 with
                        | String "," r4 =>
                            members f r4 (assoc_set k v acc) (wide || wk || wv)
                        | String "}" r4 =>
                            Some (Obj (assoc_set k v acc), wide || wk || wv, r4)
                        | _ => None
                        end
                    | None => None
                    end
                | _ => None
                end
            | None => None
            end
          else None
      | EmptyString => None
      end
  end
with elements (fuel : nat) (s : string) (acc : list JsVal) (wide : bool)
  : option (JsVal * bool * string) :=
  match fuel with
  | 0 => None
  | S f =>
      match value f s with
      | Some (v, wv, r) =>
          match skip_ws r with
          | String "," r' => elements f r' (acc ++ [v]) (wide || wv)
          | String "]" r' => Some (Arr (acc ++ [v]), wide || wv, r')
          | _ => None
          end
      | None => None
      end
  end.

(** What [JSON.parse(text)] does: it returns a value the embedding
    holds, it throws a [SyntaxError], or it returns a value beyond the
    embedding. *)
Inductive Parsed : Type :=
| Value (v : JsVal)
| SyntaxError
| Beyond.

(** One value, white space around it, nothing else.  Every step of
    [value] consumes a character, so the length of the text bounds the
    recursion. *)
Definition read (text : string) : Parsed :=
  match value (S (String.length text)) text with
  | Some (v, wide, r) =>
      match skip_ws r with
      | EmptyString => if wide then Beyond else Value v
      | _ => SyntaxError
      end
  | None => SyntaxError
  end.

(** [JSON.parse(text)]; [None] when it throws.  For a text whose value
    lies beyond the embedding, [beyond text] stands for that value: any
    value may. *)
Definition parse (beyond : string -> JsVal) (text : string) : option JsVal :=
  match read text with
  | Value v => Some v
  | SyntaxError => None
  | Beyond => Some (beyond text)
  end.

End JSON.

(* ================================================================= *)
(** ** Shared data: messages, evidence, actions, tool results *)

(** An entry of the conversation trace. *)
Record Message : Type := { role : string; content : string }.

(** An evidence item as the state store keeps it and the response returns
    it; [url] is its identifier. *)
Record Source : Type :=
  { title : string; url : string; source : string; snippet : string }.

(** [{ name, params }] *)
Record Action : Type := { name : string; params : JsVal }.

(** What the planner returns. [action] is [None] for [null]. *)
Record PlanResult : Type :=
  { thought : string; action : option Action; shouldFinish : bool }.

(** What a tool, and so [executeAction], returns; an absent key is [None]. *)
Record ActionResult : Type :=
  { observation : string;
    error : option string;
    result_sources : option (list Source) }.

(** An entry of [listTools()]. *)
Record ToolDesc : Type :=
  { desc_name : string; desc_description : string;
    desc_parameters : list string }.

(** [undefined] or a string, as a value. *)
Definition js_of_opt (s : option string) : JsVal :=
  match s with
  | Some x => Str x
  | None => Undefined
  end.

(** [!!s] for a string that may be [null] or [undefined]. *)
Definition truthy_opt (s : option string) : bool :=
  match s with
  | Some x => nonempty x
  | None => false
  end.

(* ================================================================= *)
(** ** [Model]: the state store (model.js)

    The agent owns one [Model]; [this.state] is reassigned to a fresh
    object by [initializeState] and [updateState] and mutated in place by
    the other methods, while callers keep references to the objects
    [getState] gave them.  The store therefore keeps every state object
    and every conversation array under the index at which it was
    allocated. *)

Module Model.

(** The fields of a state object.  [C] is what [conversation] holds: a
    reference to an array in the store, or the array's contents in the
    value a reader sees.  [query] and [finalAnswer] are [None] while
    [undefined] or [null]. *)
Record StateOf (C : Type) : Type :=
  { query : option string;
    conversation : C;
    context : JsVal;
    sources : list Source;
    iterations : nat;
    finalAnswer : option string }.

Definition Ref := nat.
Definition StateObj := StateOf Ref.
Definition State := StateOf (list Message).

(** Allocated cells, newest first: the cell allocated [r]-th is the one
    followed by [r] older cells. *)
Fixpoint deref {A : Type} (cells : list A) (r : Ref) : option A :=
  match cells with
  | [] => None
  | x :: older => if r =? length older then Some x else deref older r
  end.

Fixpoint update {A : Type} (cells : list A) (r : Ref) (f : A -> A) : list A :=
  match cells with
  | [] => []
  | x :: older =>
      if r =? length older then f x :: older else x :: update older r f
  end.

(** [this.state] is [state]; [detached] are the objects it referred to
    before, which callers may still hold. *)
Record Store : Type :=
  { state : StateObj;
    detached : list StateObj;
    arrays : list (list Message) }.

(** The reference [this.state] holds. *)
Definition this_state (m : Store) : Ref := length (detached m).

Definition read (m : Store) (r : Ref) : StateObj :=
  if r =? this_state m then state m
  else match deref (detached m) r with
       | Some o => o
       | None => state m
       end.

Definition read_array (m : Store) (r : Ref) : list Message :=
  match deref (arrays m) r with
  | Some a => a
  | None => []
  end.

(** The value a reader of the object [r] sees now. *)
Definition view (m : Store) (r : Ref) : State :=
  let o := read m r in
  {| query := query o;
     conversation := read_array m (conversation o);
     context := context o;
     sources := sources o;
     iterations := iterations o;
     finalAnswer := finalAnswer o |}.

(** [this.state = o] for a fresh object [o]. *)
Definition assign (m : Store) (o : StateObj) (arrs : list (list Message)) : Store :=
  {| state := o; detached := state m :: detached m; arrays := arrs |}.

(** [constructor()] *)
Definition new : Store :=
  {| state := {| query := None; conversation := 0; context := Obj [];
                 sources := []; iterations := 0; finalAnswer := None |};
     detached := [];
     arrays := [[]] |}.

(** [initializeState(query, context)] *)
Definition initializeState (q : string) (ctx : JsVal) (m : Store) : Store :=
  assign m
    {| query := Some q;
       conversation := length (arrays m);
       context := ctx;
       sources := [];
       iterations := 0;
       finalAnswer := None |}
    ([ {| role := "user"; content := q |} ] :: arrays m).

(** The [updates] the program passes to [updateState]: an object with an
    [iterations] key, or with a [sources] key. *)
Record Updates : Type :=
  { upd_iterations : option nat; upd_sources : option (list Source) }.

(** [arr.findIndex(p)]; [None] for [-1]. *)
Fixpoint findIndex {A : Type} (p : A -> bool) (l : list A) : option nat :=
  match l with
  | [] => None
  | x :: t => if p x then Some 0 else option_map S (findIndex p t)
  end.

(** [self.filter((x, index) => keep x index)], from position [index]. *)
Fixpoint filter_indexed {A : Type} (keep : A -> nat -> bool)
  (index : nat) (l : list A) : list A :=
  match l with
  | [] => []
  | x :: t =>
      if keep x index then x :: filter_indexed keep (S index) t
      else filter_indexed keep (S index) t
  end.

(** [self.filter((source, index, self) =>
       index === self.findIndex((s) => s.url === source.url))] *)
Definition uniqueByUrl (self : list Source) : list Source :=
  filter_indexed
    (fun src index =>
       match findIndex (fun s => String.eqb (url s) (url src)) self with
       | Some i => index =? i
       | None => false
       end)
    0 self.

(** [updateState(updates)].  The spread [{...this.state, ...updates}] has
    already put [updates.sources] into the new object when the merge
    reads [this.state.sources]. *)
Definition updateState (updates : Updates) (m : Store) : Store :=
  let old := state m in
  let spread : StateObj :=
    {| query := query old;
       conversation := conversation old;
       context := context old;
       sources := match upd_sources updates with
                  | Some l => l
                  | None => sources old
                  end;
       iterations := match upd_iterations updates with
                     | Some n => n
                     | None => iterations old
                     end;
       finalAnswer := finalAnswer old |} in
  match upd_sources updates with
  | Some l =>
      let merged := (sources spread ++ l)%list in
      assign m
        {| query := query spread;
           conversation := conversation spread;
           context := context spread;
           sources := uniqueByUrl merged;
           iterations := iterations spread;
           finalAnswer := finalAnswer spread |}
        (arrays m)
  | None => assign m spread (arrays m)
  end.

(** [this.state.conversation.push(msg)] *)
Definition push (msg : Message) (m : Store) : Store :=
  {| state := state m;
     detached := detached m;
     arrays := update (arrays m) (conversation (state m)) (fun a => (a ++ [msg])%list) |}.

(** [addObservation(observation, actionName)] *)
Definition addObservation (obs actionName : string) (m : Store) : Store :=
  push {| role := "system";
          content := "Observation from " ++ actionName ++ ": " ++ obs |} m.

(** [addReasoning(thought)] *)
Definition addReasoning (th : string) (m : Store) : Store :=
  push {| role := "system"; content := "Thinking: " ++ th |} m.

(** [setFinalAnswer(answer)] *)
Definition setFinalAnswer (ans : string) (m : Store) : Store :=
  let o := state m in
  push {| role := "assistant"; content := ans |}
    {| state := {| query := query o;
                   conversation := conversation o;
                   context := context o;
                   sources := sources o;
                   iterations := iterations o;
                   finalAnswer := Some ans |};
       detached := detached m;
       arrays := arrays m |}.

(** [getState()]: the reference, and [getSources()], [getConversation()] *)
Definition getState (m : Store) : Ref := this_state m.
Definition getSources (m : Store) : list Source := sources (state m).
Definition getConversation (m : Store) : list Message :=
  read_array m (conversation (state m)).

End Model.

(* ================================================================= *)
(** ** Calls to external services

    A call to an external service settles with a value or an error.  The
    counter threaded through [IO] is the number of requests sent to the
    completion service so far: the service is free to answer the same
    request differently each time. *)

Definition IO (A : Type) : Type := nat -> Outcome A * nat.

Definition io_ret {A : Type} (a : A) : IO A := fun n => (Ok a, n).

Definition io_bind {A B : Type} (c : IO A) (f : A -> IO B) : IO B :=
  fun n =>
    match c n with
    | (Ok a, n') => f a n'
    | (Throw e, n') => (Throw e, n')
    end.

(** [try { c } catch (error) { h error.message }] *)
Definition io_catch {A : Type} (c : IO A) (h : string -> IO A) : IO A :=
  fun n =>
    match c n with
    | (Ok a, n') => (Ok a, n')
    | (Throw e, n') => h e n'
    end.

(** A raw search result, as a source connector returns it. *)
Record SearchResult : Type :=
  { r_title : string; r_url : string; r_snippet : string;
    r_source : string; relevance : Q }.

(** A prompt, kept as the template it is built from and the values
    interpolated into it: the text itself only travels to the completion
    service. *)
Inductive Prompt : Type :=
| PlanningPrompt (state : Model.State) (tools : list ToolDesc)
| FinalAnswerPrompt (state : Model.State)
| SummaryPrompt (results : list SearchResult) (query : JsVal).

(* ================================================================= *)
(** ** [ClaudeClient] (claude-client.js) *)

Module ClaudeClient.

(** The [options] argument of [complete]; an absent key is [Undefined]. *)
Record Options : Type :=
  { model : JsVal; maxTokens : JsVal; temperature : JsVal;
    systemPrompt : JsVal }.

(** The fields the constructor copies from [config.claude]. *)
Record Client : Type :=
  { defaultModel : JsVal; defaultMaxTokens : JsVal;
    defaultTemperature : JsVal }.

(** The argument of [anthropic.messages.create]. *)
Record Request : Type :=
  { req_model : JsVal; req_max_tokens : JsVal; req_temperature : JsVal;
    req_system : JsVal; req_messages : list (string * Prompt) }.

(** What the API answers: the texts of [content] and the token usage. *)
Record Response : Type :=
  { resp_content : list string; input_tokens : nat; output_tokens : nat }.

(** What [complete] returns. *)
Record Completion : Type :=
  { text : string; promptTokens : nat; completionTokens : nat;
    totalTokens : nat }.

(** The request [complete] builds from its arguments (the three [const]
    of the [try] block and the object literal passed to [create]). *)
Definition request (this : Client) (prompt : Prompt) (options : Options)
  : Request :=
  let model := or_else (model options) (defaultModel this) in
  let maxTokens := or_else (maxTokens options) (defaultMaxTokens this) in
  let temperature := or_else (temperature options) (defaultTemperature this) in
  {| req_model := model;
     req_max_tokens := maxTokens;
     req_temperature := temperature;
     req_system :=
       or_else (systemPrompt options)
         (Str "You are a helpful assistant that provides accurate and detailed information.");
     req_messages := [("user", prompt)] |}.

Section Client.

(** [anthropic.messages.create], as the [n]-th request sent. *)
Variable create : nat -> Request -> Outcome Response.
Variable this : Client.

(** [complete(prompt, options = {})].  The log line of the [try] block
    prints [model] and [maxTokens] before the request is sent; a value
    it cannot print ends the call there, without a request. *)
Definition complete (prompt : Prompt) (options : Options) : IO Completion :=
  fun n =>
    let rethrow (message : string) : Outcome Completion :=
      Throw ("Failed to get completion from Claude: " ++ message) in
    let request := request this prompt options in
    if Conversion.printable (req_model request)
       && Conversion.printable (req_max_tokens request)
    then
      match create n request with
      | Ok response =>
          match resp_content response with
          | first :: _ =>
              (Ok {| text := first;
                     promptTokens := input_tokens response;
                     completionTokens := output_tokens response;
                     totalTokens :=
                       input_tokens response + output_tokens response |},
               S n)
          | [] =>
              (rethrow "Cannot read properties of undefined (reading 'text')",
               S n)
          end
      | Throw message => (rethrow message, S n)
      end
    else (rethrow "Cannot convert object to primitive value", n).

End Client.

(** [{ maxTokens: m, temperature: t }] *)
Definition options (m t : Q) : Options :=
  {| model := Undefined; maxTokens := Num m; temperature := Num t;
     systemPrompt := Undefined |}.

End ClaudeClient.

(* ================================================================= *)
(** ** [Planner] (planner.js) *)

Module Planner.

(** [response.match(/Thought:(.*?)(?=Action:|Final Answer:|$)/s)],
    as its first group; [None] for [null]. *)
Definition thoughtMatch (response : string) : option string :=
  option_map (lazyUntil ["Action:"; "Final Answer:"])
    (afterFirst "Thought:" response).

(** [response.match(/Action:(.*?)(?=Action Parameters:|$)/s)] *)
Definition actionMatch (response : string) : option string :=
  option_map (lazyUntil ["Action Parameters:"])
    (afterFirst "Action:" response).

(** [response.match(/Action Parameters:(.*?)(?=Final Answer:|$)/s)] *)
Definition paramsMatch (response : string) : option string :=
  option_map (lazyUntil ["Final Answer:"])
    (afterFirst "Action Parameters:" response).

(** [/Final Answer:\s*(true|false)/i] tried at the start of [s]. *)
Definition finalAnswerAt (s : string) : option string :=
  match dropPrefix_ci "Final Answer:" s with
  | Some rest =>
      let rest' := trimStart rest in
      if prefix_ci "true" rest' then Some (firstn_string 4 rest')
      else if prefix_ci "false" rest' then Some (firstn_string 5 rest')
      else None
  | None => None
  end.

(** [response.match(/Final Answer:\s*(true|false)/i)]: the group of the
    leftmost match. *)
Fixpoint finalAnswerMatch (s : string) : option string :=
  match finalAnswerAt s with
  | Some group => Some group
  | None =>
      match s with
      | EmptyString => None
      | String _ s' => finalAnswerMatch s'
      end
  end.

(** [paramsText.replace(/```json|```/g, "")]; [skip] characters of a
    match are still to be dropped. *)
Fixpoint stripFences (skip : nat) (s : string) : string :=
  match s with
  | EmptyString => EmptyString
  | String c s' =>
      match skip with
      | S k => stripFences k s'
      | 0 =>
          if prefix "```json" s then stripFences 6 s'
          else if prefix "```" s then stripFences 2 s'
          else String c (stripFences 0 s')
      end
  end.

(** [actionParams[key] = value] for a string [value]: assigning a string
    to [__proto__] leaves a plain object as it is. *)
Definition setParam (key value : string) (props : list (string * JsVal))
  : list (string * JsVal) :=
  if String.eqb key "__proto__" then props
  else assoc_set key (Str value) props.

(** The [catch] branch: the [key: value] lines of the parameter text. *)
Definition parseParamLines (group : string) : JsVal :=
  Obj
    (fold_left
       (fun actionParams line =>
          if includes ":" line then
            match map trim (split ":" line) with
            | key :: value :: _ =>
                if nonempty key && nonempty value
                then setParam key value actionParams
                else actionParams
            | _ => actionParams
            end
          else actionParams)
       (split nl_char group) []).

Section Planner.

(** [JSON.parse]; [None] when it throws. *)
Variable JSON_parse : string -> option JsVal.

(** [this.llmClient.complete] *)
Variable complete :
  Prompt -> ClaudeClient.Options -> IO ClaudeClient.Completion.

(** [parseActionResponse(response)].  The default branch reads
    [state.query], and no [state] is in scope in this method: it throws
    a [ReferenceError]. *)
Definition parseActionResponse (response : string) : Outcome PlanResult :=
  let thought :=
    match thoughtMatch response with
    | Some group => trim group
    | None => ""
    end in
  let actionName :=
    match actionMatch response with
    | Some group => trim group
    | None => ""
    end in
  let actionParams :=
    match paramsMatch response with
    | Some group =>
        let paramsText := trim group in
        let jsonContent := trim (stripFences 0 paramsText) in
        match JSON_parse jsonContent with
        | Some parsed => parsed
        | None => parseParamLines group
        end
    | None => Obj []
    end in
  let shouldFinish :=
    match finalAnswerMatch response with
    | Some group => String.eqb (toLowerCase group) "true"
    | None => false
    end in
  if negb (nonempty actionName) && negb shouldFinish then
    Throw "state is not defined"
  else
    Ok {| thought := thought;
          action :=
            if nonempty actionName
            then Some {| name := actionName; params := actionParams |}
            else None;
          shouldFinish := shouldFinish |}.

(** The [catch] branch of [planNextAction]. *)
Definition fallback (state : Model.State) (message : string) : PlanResult :=
  {| thought := "Error planning next action: " ++ message;
     action :=
       Some {| name := "search";
               params := Obj [("query", js_of_opt (Model.query state))] |};
     shouldFinish := false |}.

(** [planNextAction(state, tools)] *)
Definition planNextAction (state : Model.State) (tools : list ToolDesc)
  : IO PlanResult :=
  let prompt := PlanningPrompt state tools in
  io_catch
    (io_bind (complete prompt (ClaudeClient.options 500 (2 # 10)))
       (fun response n =>
          (parseActionResponse (ClaudeClient.text response), n)))
    (fun message => io_ret (fallback state message)).

(** [generateFinalAnswer(state)] *)
Definition generateFinalAnswer (state : Model.State) : IO string :=
  let prompt := FinalAnswerPrompt state in
  io_catch
    (io_bind (complete prompt (ClaudeClient.options 1000 (3 # 10)))
       (fun response => io_ret (ClaudeClient.text response)))
    (fun _ =>
       io_ret "I apologize, but I encountered an error while generating a response to your query. Please try asking again or rephrasing your question.").

End Planner.

End Planner.

(* ================================================================= *)
(** ** Tools: [ToolBox] (tools/index.js), [WebSearchTool] (web-search.js) *)

(** The second argument of [tool.execute]: [{ query, context }]. *)
Record ToolContext : Type := { ctx_query : option string; ctx_context : JsVal }.

(** A tool: anything with a name, a description and an [execute]. *)
Record Tool : Type :=
  { tool_name : string;
    tool_description : string;
    tool_parameters : list string;
    execute : JsVal -> ToolContext -> IO ActionResult }.

Module ToolBox.

(** [this.tools], a plain object: its own properties in insertion order.
    Tool names are ordinary property names (not [__proto__], not array
    indices). *)
Definition ToolBox := list (string * Tool).

(** [constructor()] *)
Definition new : ToolBox := [].

(** [registerTool(tool)] *)
Definition registerTool (tool : Tool) (this : ToolBox) : ToolBox :=
  assoc_set (tool_name tool) tool this.

(** What [this.tools[name]] evaluates to. *)
Inductive Lookup : Type :=
| Registered (tool : Tool)
| Inherited  (* a member of [Object.prototype]: truthy, without [execute] *)
| Absent.    (* [undefined] *)

(** [getTool(name)]: property lookup follows the prototype chain. *)
Definition getTool (name : string) (this : ToolBox) : Lookup :=
  match assoc name this with
  | Some tool => Registered tool
  | None => if inherited name then Inherited else Absent
  end.

(** [listTools()] *)
Definition listTools (this : ToolBox) : list ToolDesc :=
  map (fun '(_, tool) =>
         {| desc_name := tool_name tool;
            desc_description := tool_description tool;
            desc_parameters := tool_parameters tool |})
      this.

End ToolBox.

(** [Array.prototype.sort(compare)]: a stable sort.  [compare a b] is
    negative when [a] goes before [b]; an element is moved in front of
    the elements after it only where [compare] says so. *)
Module ArraySort.
Section Sort.
Variable A : Type.
Variable compare : A -> A -> Q.

Fixpoint insert (x : A) (sorted : list A) : list A :=
  match sorted with
  | [] => [x]
  | y :: rest =>
      if Qlt_le_dec (compare y x) 0 then y :: insert x rest
      else x :: y :: rest
  end.

Fixpoint sort (l : list A) : list A :=
  match l with
  | [] => []
  | x :: rest => insert x (sort rest)
  end.
End Sort.
End ArraySort.

Module WebSearchTool.

(** [number.toString()] for a length or an index *)
Definition show (n : nat) : string := NilEmpty.string_of_uint (Nat.to_uint n).

(** [params.query], [params.sources]: reading a property of [null] or
    [undefined] throws; no other value has or inherits these two. *)
Definition property (key : string) (v : JsVal) : Outcome JsVal :=
  match v with
  | Undefined | Null =>
      Throw ("Cannot read properties of " ++
             (match v with Null => "null" | _ => "undefined" end) ++
             " (reading '" ++ key ++ "')")
  | Obj props =>
      Ok (match assoc key props with Some x => x | None => Undefined end)
  | _ => Ok Undefined
  end.

(** [rankResults(results, query)] *)
Definition rankResults (results : list SearchResult) (query : JsVal)
  : list SearchResult :=
  ArraySort.sort (fun a b => Qminus (relevance b) (relevance a)) results.

(** [topResults.map((r, i) => `${i + 1}. ${r.title} (${r.source})`)] *)
Fixpoint titled (i : nat) (results : list SearchResult) : list string :=
  match results with
  | [] => []
  | r :: rest =>
      (show (i + 1) ++ ". " ++ r_title r ++ " (" ++ r_source r ++ ")")
        :: titled (S i) rest
  end.

Definition toSource (result : SearchResult) : Source :=
  {| title := r_title result; url := r_url result;
     source := r_source result; snippet := r_snippet result |}.

Section Tool.

(** [this.searchSource(source, query)] once settled: the connector of
    one source, which may fail on its own. *)
Variable searchSource : JsVal -> JsVal -> Outcome (list SearchResult).

(** [claudeClient.complete] *)
Variable complete :
  Prompt -> ClaudeClient.Options -> IO ClaudeClient.Completion.

(** [summarizeResults(results, query)] *)
Definition summarizeResults (results : list SearchResult) (query : JsVal)
  : IO string :=
  let prompt := SummaryPrompt results query in
  io_catch
    (io_bind (complete prompt (ClaudeClient.options 300 (2 # 10)))
       (fun response => io_ret (ClaudeClient.text response)))
    (fun _ => io_ret "Unable to generate summary due to an error.").

(** [execute(params, context)].  The log line before the [try] prints
    the query and then joins the sources: a query or a source it cannot
    print, and sources without a [join], end the call there.  The results
    a connector yields are objects, which [filter(Boolean)] keeps.
    Nothing in the [try] block throws after that line, so its [catch] is
    left out. *)
Definition execute (params : JsVal) (context : ToolContext)
  : IO ActionResult :=
  fun n =>
    match property "query" params, property "sources" params with
    | Ok params_query, Ok params_sources =>
        let query := or_else params_query (js_of_opt (ctx_query context)) in
        let sources :=
          or_else params_sources
            (Arr [Str "zoomCommunity"; Str "zoomSupport"; Str "google"]) in
        if negb (Conversion.printable query)
        then (Throw "Cannot convert object to primitive value", n)
        else
        match sources with
        | Arr sources =>
            if negb (forallb Conversion.printable sources)
            then (Throw "Cannot convert object to primitive value", n)
            else
            let searchResults :=
              map (fun source => searchSource source query) sources in
            let allResults :=
              filter (fun _ => true)
                (flat_map
                   (fun result =>
                      match result with
                      | Ok value => value
                      | Throw _ => []
                      end)
                   searchResults) in
            let sortedResults := rankResults allResults query in
            let topResults := firstn 5 sortedResults in
            io_bind
              (match topResults with
               | [] => io_ret ""
               | _ => summarizeResults topResults query
               end)
              (fun summary =>
                 io_ret
                   {| observation :=
                        "Found " ++ show (length allResults) ++
                        " results across " ++ show (length sources) ++
                        " sources. Top results:" ++ nl ++
                        join nl (titled 0 topResults) ++
                        nl ++ nl ++ "Summary: " ++ summary;
                      error := None;
                      result_sources := Some (map toSource topResults) |})
              n
        | _ => (Throw "sources.join is not a function", n)
        end
    | Throw message, _ => (Throw message, n)
    | _, Throw message => (Throw message, n)
    end.

(** [new WebSearchTool()] *)
Definition new : Tool :=
  Build_Tool "search"
    "Search for information from Zoom Community, Zoom Support, and Google"
    ["query"; "sources"]
    execute.

End Tool.

End WebSearchTool.

(* ================================================================= *)
(** ** [Controller] (controller.js) *)

Module Controller.

Section Controller.

(** [this.toolbox] *)
Variable toolbox : ToolBox.ToolBox.

(** [executeAction(action, state)]; [action] is [None] for [null].  The
    destructuring of [action] stands before the [try]. *)
Definition executeAction (action : option Action) (state : Model.State)
  : IO ActionResult :=
  match action with
  | None =>
      fun n =>
        (Throw "Cannot destructure property 'name' of 'action' as it is null.",
         n)
  | Some {| name := name; params := params |} =>
      io_catch
        (match ToolBox.getTool name toolbox with
         | ToolBox.Absent =>
             io_ret
               {| observation := "Error: Tool '" ++ name ++ "' not found";
                  error := Some "TOOL_NOT_FOUND";
                  result_sources := None |}
         | ToolBox.Inherited =>
             fun n => (Throw "tool.execute is not a function", n)
         | ToolBox.Registered tool =>
             execute tool params
               {| ctx_query := Model.query state;
                  ctx_context := Model.context state |}
         end)
        (fun message =>
           io_ret
             {| observation := "Error executing " ++ name ++ ": " ++ message;
                error := Some message;
                result_sources := None |})
  end.

End Controller.

End Controller.

(* ================================================================= *)
(** ** [ReActFramework] (react/index.js)

    The framework receives its model, controller and planner from its
    constructor.  Its methods are [async]: they run on the store until
    they [await] a call to the planner or the controller, and go on, with
    the store as it is then, once the call has settled. *)

Module ReAct.

(** The calls the framework awaits, with the state value the callee reads
    through the reference it is given. *)
Inductive Call : Type :=
| PlanNextAction (state : Model.State) (tools : list ToolDesc)
| GenerateFinalAnswer (state : Model.State)
| ExecuteAction (action : option Action) (state : Model.State).

Definition Reply (c : Call) : Type :=
  match c with
  | PlanNextAction _ _ => Outcome PlanResult
  | GenerateFinalAnswer _ => Outcome string
  | ExecuteAction _ _ => Outcome ActionResult
  end.

(** A computation after it ran as far as it can: finished, or suspended
    at an [await].  [OutOfFuel] is not a state of the program: it marks a
    loop of the embedding that was cut off, and the theorems show that it
    does not occur. *)
Inductive Step (A : Type) : Type :=
| Done (result : Outcome A) (m : Model.Store)
| Await (c : Call) (m : Model.Store)
        (resume : Reply c -> Model.Store -> Step A)
| OutOfFuel.
Arguments OutOfFuel {A}.

Definition Prog (A : Type) : Type := Model.Store -> Step A.

Definition ret {A : Type} (a : A) : Prog A := fun m => Done (Ok a) m.
Definition throw {A : Type} (message : string) : Prog A :=
  fun m => Done (Throw message) m.
Definition out_of_fuel {A : Type} : Prog A := fun _ => OutOfFuel.

Fixpoint bind_step {A B : Type} (s : Step A) (f : A -> Prog B) : Step B :=
  match s with
  | Done (Ok a) m => f a m
  | Done (Throw message) m => Done (Throw message) m
  | Await c m resume => Await c m (fun r m' => bind_step (resume r m') f)
  | OutOfFuel => OutOfFuel
  end.

Definition bind {A B : Type} (p : Prog A) (f : A -> Prog B) : Prog B :=
  fun m => bind_step (p m) f.

(** [try { ... } catch (error) { handler error.message }] *)
Fixpoint catch_step {A : Type} (s : Step A) (handler : string -> Prog A)
  : Step A :=
  match s with
  | Done (Ok a) m => Done (Ok a) m
  | Done (Throw message) m => handler message m
  | Await c m resume =>
      Await c m (fun r m' => catch_step (resume r m') handler)
  | OutOfFuel => OutOfFuel
  end.

Definition catch {A : Type} (p : Prog A) (handler : string -> Prog A) : Prog A :=
  fun m => catch_step (p m) handler.

(** A method of [this.model] that changes the store, or reads it. *)
Definition model_do (f : Model.Store -> Model.Store) : Prog unit :=
  fun m => Done (Ok tt) (f m).
Definition model_get {A : Type} (f : Model.Store -> A) : Prog A :=
  fun m => Done (Ok (f m)) m.

(** [await this.planner.planNextAction(state, tools)] and the like *)
Definition await (c : Call) : Prog (match c with
                                    | PlanNextAction _ _ => PlanResult
                                    | GenerateFinalAnswer _ => string
                                    | ExecuteAction _ _ => ActionResult
                                    end) :=
  match c with
  | PlanNextAction _ _ as c' => fun m => Await c' m (fun r m' => Done r m')
  | GenerateFinalAnswer _ as c' => fun m => Await c' m (fun r m' => Done r m')
  | ExecuteAction _ _ as c' => fun m => Await c' m (fun r m' => Done r m')
  end.

Declare Scope prog_scope.
Delimit Scope prog_scope with prog.
Notation "x <- p ;; q" := (bind p (fun x => q))
  (at level 61, p at next level, right associativity) : prog_scope.
Notation "p ;; q" := (bind p (fun _ => q))
  (at level 61, right associativity) : prog_scope.
Local Open Scope prog_scope.

(** What [process] returns; an absent key is [None]. *)
Record Response : Type :=
  { answer : string;
    sources : list Source;
    error : option string;
    debugInfo : option (nat * list Message) }.

Section Framework.

(** [config.maxIterations] and [config.debug] of the constructor, and
    [this.controller.toolbox.listTools()]. *)
Variable config_maxIterations : option nat.
Variable config_debug : bool.
Variable tools : list ToolDesc.

(** [config.maxIterations || 5] *)
Definition maxIterations : nat :=
  match config_maxIterations with
  | Some (S n) => S n
  | _ => 5
  end.

(** [config.debug || false] *)
Definition debug : bool := config_debug.

(** [this.planner.generateFinalAnswer(state)] followed by
    [this.model.setFinalAnswer(finalAnswer)] *)
Definition finish (state : Model.Ref) : Prog unit :=
  v <- model_get (fun m => Model.view m state) ;;
  finalAnswer <- await (GenerateFinalAnswer v) ;;
  model_do (Model.setFinalAnswer finalAnswer).

(** The [while] loop of [executeReActLoop]; [state] is the local
    variable, a reference to a state object. *)
Fixpoint loop (fuel : nat) (state : Model.Ref) : Prog unit :=
  s <- model_get (fun m => Model.read m state) ;;
  if (Model.iterations s <? maxIterations)
     && negb (truthy_opt (Model.finalAnswer s))
  then
    match fuel with
    | 0 => out_of_fuel
    | S fuel' =>
        model_do (Model.updateState
                    {| Model.upd_iterations := Some (Model.iterations s + 1);
                       Model.upd_sources := None |}) ;;
        state <- model_get Model.getState ;;
        v <- model_get (fun m => Model.view m state) ;;
        planResult <- await (PlanNextAction v tools) ;;
        model_do (Model.addReasoning (thought planResult)) ;;
        if shouldFinish planResult then
          finish state
        else
          v <- model_get (fun m => Model.view m state) ;;
          actionResult <- await (ExecuteAction (action planResult) v) ;;
          actionName <-
            match action planResult with
            | Some a => ret (name a)
            | None => throw "Cannot read properties of null (reading 'name')"
            end ;;
          model_do (Model.addObservation (observation actionResult) actionName) ;;
          match result_sources actionResult with
          | Some srcs =>
              model_do (Model.updateState
                          {| Model.upd_iterations := None;
                             Model.upd_sources := Some srcs |})
          | None => ret tt
          end ;;
          s <- model_get (fun m => Model.read m state) ;;
          (if (maxIterations <=? Model.iterations s)
              && negb (truthy_opt (Model.finalAnswer s))
           then finish state
           else ret tt) ;;
          state <- model_get Model.getState ;;
          loop fuel' state
    end
  else ret tt.

(** [executeReActLoop()] *)
Definition executeReActLoop (fuel : nat) : Prog unit :=
  state <- model_get Model.getState ;;
  loop fuel state.

(** [formatResponse(state)] *)
Definition formatResponse (state : Model.State) : Response :=
  let uniqueSources := Model.uniqueByUrl (Model.sources state) in
  {| answer :=
       if truthy_opt (Model.finalAnswer state)
       then match Model.finalAnswer state with Some a => a | None => "" end
       else "I was unable to generate a complete answer. Please try rephrasing your question.";
     sources := firstn 5 uniqueSources;
     error := None;
     debugInfo :=
       if debug
       then Some (Model.iterations state, Model.conversation state)
       else None |}.

(** The [catch] branch of [process]. *)
Definition errorResponse (message : string) : Response :=
  {| answer :=
       "I encountered an error while processing your query: " ++ message ++
       ". Please try again or rephrase your question.";
     sources := [];
     error := Some message;
     debugInfo := None |}.

(** The [try] block of [process]. *)
Definition attempt (fuel : nat) : Prog Response :=
  executeReActLoop fuel ;;
  state <- model_get Model.getState ;;
  v <- model_get (fun m => Model.view m state) ;;
  ret (formatResponse v).

(** [process(query, context = {})] *)
Definition process (fuel : nat) (query : string) (context : JsVal)
  : Prog Response :=
  model_do (Model.initializeState query context) ;;
  catch (attempt fuel) (fun message => ret (errorResponse message)).

End Framework.

(** *** One session run alone

    The planner and the controller are given by [components]: how each
    call settles, in a world [W] of their own. *)
Section Run.

Variable W : Type.
Variable components : forall c : Call, W -> Reply c * W.

Record Finished (A : Type) : Type :=
  { outcome : Outcome A;
    store : Model.Store;
    world : W;
    calls : list Call }.

(** No other task touches the store while this one is suspended. *)
Fixpoint run {A : Type} (s : Step A) (w : W) (trace : list Call)
  : option (Finished A) :=
  match s with
  | Done result m =>
      Some {| outcome := result; store := m; world := w; calls := trace |}
  | Await c m resume =>
      let (reply, w') := components c w in
      run (resume reply m) w' (trace ++ [c])%list
  | OutOfFuel => None
  end.

End Run.

(** *** Two sessions on one store

    A session is a call of [process] that has not started, or the step it
    has reached.  A turn lets one session run until its next [await]: it
    starts the session, or settles the call it is suspended at with the
    [reply] given. *)
Inductive Session (A : Type) : Type :=
| NotStarted (p : Prog A)
| Running (s : Step A).

Definition advance {A : Type} (session : Session A)
  (reply : forall c : Call, Reply c) (m : Model.Store)
  : Session A * Model.Store :=
  let after (s : Step A) : Session A * Model.Store :=
    (Running s,
     match s with
     | Done _ m' => m'
     | Await _ m' _ => m'
     | OutOfFuel => m
     end) in
  match session with
  | NotStarted p => after (p m)
  | Running (Await c _ resume) => after (resume (reply c) m)
  | Running s => (Running s, m)
  end.

(** [true] is a turn of the first session, [false] of the second. *)
Fixpoint interleave {A : Type}
  (turns : list (bool * (forall c : Call, Reply c)))
  (first second : Session A) (m : Model.Store)
  : Session A * Session A * Model.Store :=
  match turns with
  | [] => (first, second, m)
  | (true, reply) :: rest =>
      let (first', m') := advance first reply m in
      interleave rest first' second m'
  | (false, reply) :: rest =>
      let (second', m') := advance second reply m in
      interleave rest first second' m'
  end.

(** What a finished session returned. *)
Definition returned {A : Type} (session : Session A) : option (Outcome A) :=
  match session with
  | Running (Done result _) => Some result
  | _ => None
  end.

End ReAct.

(* ================================================================= *)
(** ** [GeneralAgent] (agents/general/index.js)

    The constructor builds one tool box, one [Model], one controller and
    one planner, and hands them to one [ReActFramework]; the request
    handler (agent.controller.js) builds one [GeneralAgent] for the whole
    process and calls its [process] for every request. *)

Module GeneralAgent.

(** The [options] argument of [process]. *)
Record Options : Type :=
  { opt_sources : JsVal; opt_files : JsVal;
    opt_context : list (string * JsVal) }.

(** [config.agents.general] *)
Definition config_maxIterations : option nat := Some 5.
Definition defaultSources : JsVal :=
  Arr [Str "zoomCommunity"; Str "zoomSupport"; Str "google"].

Section Agent.

(** The services outside the program: the completion API, the client
    configuration, the source connectors, and [DEBUG_AGENT]. *)
Variable create : nat -> ClaudeClient.Request -> Outcome ClaudeClient.Response.
Variable client : ClaudeClient.Client.
Variable searchSource : JsVal -> JsVal -> Outcome (list SearchResult).
Variable config_debug : bool.

(** What stands for the parameters [JSON.parse] returns beyond the
    embedding. *)
Variable beyond : string -> JsVal.

(** [claudeClient.complete], the one client of the process *)
Definition complete := ClaudeClient.complete create client.

(** [this.toolbox] *)
Definition toolbox : ToolBox.ToolBox :=
  ToolBox.registerTool (WebSearchTool.new searchSource complete) ToolBox.new.

(** [this.model = new Model()] *)
Definition model : Model.Store := Model.new.

(** [this.planner] and [this.controller], as the framework calls them. *)
Definition components (c : ReAct.Call) : nat -> ReAct.Reply c * nat :=
  match c with
  | ReAct.PlanNextAction state tools =>
      Planner.planNextAction (JSON.parse beyond) complete state tools
  | ReAct.GenerateFinalAnswer state =>
      Planner.generateFinalAnswer complete state
  | ReAct.ExecuteAction action state =>
      Controller.executeAction toolbox action state
  end.

(** [process(query, options = {})] *)
Definition process (fuel : nat) (query : string) (options : Options)
  : ReAct.Prog ReAct.Response :=
  let context :=
    Obj (fold_left
           (fun props '(k, v) => assoc_set k v props)
           (opt_context options)
           [("sources", or_else (opt_sources options) defaultSources);
            ("files", or_else (opt_files options) (Arr []))]) in
  ReAct.catch
    (ReAct.process config_maxIterations config_debug
       (ToolBox.listTools toolbox) fuel query context)
    (fun message =>
       ReAct.ret
         {| ReAct.answer :=
              "I encountered an error while processing your query. Please try again or rephrase your question.";
            ReAct.sources := [];
            ReAct.error := Some message;
            ReAct.debugInfo := None |}).


End Agent.

End GeneralAgent.

(* ================================================================= *)
(** ** The request handler (agent.controller.js) *)

Module AgentController.

(** [req.body], as far as the handler reads it; an absent key is
    [Undefined]. *)
Record Body : Type :=
  { query : JsVal; selectedAgents : JsVal; selectedSources : JsVal;
    files : JsVal }.

(** The body of a reply: an error with its details, or the response of
    the agent. *)
Inductive Payload : Type :=
| Failure (error : string) (details : option string)
| Answer (response : ReAct.Response).

(** [res.status(status).json(payload)] *)
Record Sent : Type := { status : nat; payload : Payload }.

Section Handler.

(** The services the one agent of the module is built on, and
    [req.user?.id]. *)
Variable create : nat -> ClaudeClient.Request -> Outcome ClaudeClient.Response.
Variable client : ClaudeClient.Client.
Variable searchSource : JsVal -> JsVal -> Outcome (list SearchResult).
Variable config_debug : bool.
Variable user_id : JsVal.

(** [exports.processQuery].  A truthy [query] that is not a string has no
    [trim] to call; the log line converts [selectedAgents || "general"]
    to a string. *)
Definition processQuery (fuel : nat) (body : Body)
  : ReAct.Prog Sent :=
  ReAct.catch
    (match query body with
     | Str text =>
         if negb (truthy (Str text)) || String.eqb (trim text) ""
         then ReAct.ret {| status := 400;
                           payload := Failure "Query is required" None |}
         else if negb (Conversion.printable
                         (or_else (selectedAgents body) (Str "general")))
         then ReAct.throw "Cannot convert object to primitive value"
         else
           ReAct.bind
             (GeneralAgent.process create client searchSource config_debug
                fuel text
                {| GeneralAgent.opt_sources := selectedSources body;
                   GeneralAgent.opt_files := files body;
                   GeneralAgent.opt_context :=
                     [("userId", or_else user_id (Str "anonymous"))] |})
             (fun response =>
                ReAct.ret {| status := 200; payload := Answer response |})
     | other =>
         if negb (truthy other)
         then ReAct.ret {| status := 400;
                           payload := Failure "Query is required" None |}
         else ReAct.throw "query.trim is not a function"
     end)
    (fun message =>
       ReAct.ret {| status := 500;
                    payload := Failure "Failed to process query"
                                 (Some message) |}).

End Handler.

End AgentController.

(* ================================================================= *)
(** ** The chat interface (ChatInterface.jsx): the updaters of its state *)

Module ChatInterface.

(** The updater of [toggleSourceSelection(sourceId)]. *)
Definition toggleSourceSelection (sourceId : string) (prev : list string)
  : list string :=
  if existsb (String.eqb sourceId) prev
  then filter (fun id => negb (String.eqb id sourceId)) prev
  else (prev ++ [sourceId])%list.

(** The updater of [removeFile(index)]. *)
Definition removeFile {File : Type} (index : nat) (prev : list File)
  : list File :=
  Model.filter_indexed (fun _ i => negb (i =? index)) 0 prev.

End ChatInterface.

(* ================================================================= *)
(** ** Concrete inputs used by the examples below *)

Module Examples.

(** The reply of the planner's robustness example, with its three line
    breaks. *)
Definition example_reply : string :=
  "Thought: X" ++ nl ++
  "Action: search" ++ nl ++
  "Action Parameters: {" ++ dq ++ "query" ++ dq ++ ":" ++ dq ++ "audio issue" ++ dq ++ "}" ++ nl ++
  "Final Answer: false".

(** A session in its first iteration. *)
Definition first_iteration : Model.State :=
  {| Model.query := Some "My audio is not working";
     Model.conversation :=
       [ {| role := "user"; content := "My audio is not working" |} ];
     Model.context := Obj [];
     Model.sources := [];
     Model.iterations := 1;
     Model.finalAnswer := None |}.

(** A completion service that answers every request with [text]. *)
Definition replying (text : string)
  : Prompt -> ClaudeClient.Options -> IO ClaudeClient.Completion :=
  fun _ _ n =>
    (Ok {| ClaudeClient.text := text; ClaudeClient.promptTokens := 10;
           ClaudeClient.completionTokens := 5; ClaudeClient.totalTokens := 15 |},
     S n).

(** A reply without an action that declines to finish. *)
Definition undecided_reply : string :=
  "Thought: I am not sure." ++ nl ++ "Final Answer: False".

(** The client as [config.claude] sets it up by default. *)
Definition client : ClaudeClient.Client :=
  {| ClaudeClient.defaultModel := Str "claude-3-opus-20240229";
     ClaudeClient.defaultMaxTokens := Num 4000;
     ClaudeClient.defaultTemperature := Num (3 # 10) |}.

(** Two evidence items with the same [url] and different contents, and a
    third with a [url] of its own. *)
Definition first_seen : Source :=
  {| title := "Audio settings"; url := "https://support.zoom.com/audio";
     source := "Zoom Support"; snippet := "first" |}.
Definition seen_again : Source :=
  {| title := "Audio settings (updated)"; url := "https://support.zoom.com/audio";
     source := "Google Search"; snippet := "second" |}.
Definition other_item : Source :=
  {| title := "Video settings"; url := "https://support.zoom.com/video";
     source := "Zoom Support"; snippet := "third" |}.

Definition merge (items : list Source) : Model.Updates :=
  {| Model.upd_iterations := None; Model.upd_sources := Some items |}.

(** Four results with the scores 0.5, 0.9, 0.9 and 0.3, in the order of
    their arrival. *)
Definition scored (label : string) (score : Q) : SearchResult :=
  {| r_title := label; r_url := "https://example.com/" ++ label;
     r_snippet := ""; r_source := "Zoom Community"; relevance := score |}.

Definition arrivals : list SearchResult :=
  [ scored "first" (5 # 10); scored "second" (9 # 10);
    scored "third" (9 # 10); scored "fourth" (3 # 10) ].

(** The deduplicated union the specification speaks of: one result for
    each [url], the first. *)
Fixpoint deduplicated (results : list SearchResult) : list SearchResult :=
  match results with
  | [] => []
  | x :: rest =>
      x :: filter (fun y => negb (String.eqb (r_url y) (r_url x)))
             (deduplicated rest)
  end.

(** Connectors of three sources: the second fails, the first and the
    third both find the same page. *)
Definition same_page : SearchResult :=
  {| r_title := "How to resolve audio problems in Zoom meetings";
     r_url := "https://community.zoom.com/t5/Meetings/Audio-Issues-Solutions/td-p/28943";
     r_snippet := "check your speaker/microphone settings";
     r_source := "Zoom Community"; relevance := 92 # 100 |}.

Definition connectors (sourceId query : JsVal) : Outcome (list SearchResult) :=
  match sourceId with
  | Str "zoomCommunity" => Ok [same_page]
  | Str "zoomSupport" => Throw "connect ETIMEDOUT"
  | _ => Ok [same_page]
  end.

Definition three_sources : JsVal :=
  Obj [("query", Str "audio issue");
       ("sources", Arr [Str "zoomCommunity"; Str "zoomSupport"; Str "google"])].

Definition tool_context : ToolContext :=
  {| ctx_query := Some "My audio is not working"; ctx_context := Obj [] |}.

(** A decision to act, and a decision to finish. *)
Definition keep_searching : PlanResult :=
  {| thought := "I need more information.";
     action := Some {| name := "search"; params := Obj [] |};
     shouldFinish := false |}.

Definition enough : PlanResult :=
  {| thought := "I have enough information.";
     action := None;
     shouldFinish := true |}.

Definition found_something : ActionResult :=
  {| observation := "Found 1 results across 3 sources.";
     error := None;
     result_sources := Some [first_seen] |}.

(** How the calls of one session settle: the planner decides [decision]
    each time, the tool finds something, the final answer is [final]. *)
Definition replies (decision : PlanResult) (final : string)
  (c : ReAct.Call) : ReAct.Reply c :=
  match c with
  | ReAct.PlanNextAction _ _ => Ok decision
  | ReAct.GenerateFinalAnswer _ => Ok final
  | ReAct.ExecuteAction _ _ => Ok found_something
  end.

(** A planner that never finishes, with a controller and a final answer
    that never fail. *)
Definition stubborn (c : ReAct.Call) (w : unit) : ReAct.Reply c * unit :=
  (replies keep_searching "Here is what I found." c, w).

(** A planner whose call is rejected. *)
Definition offline_replies (c : ReAct.Call) : ReAct.Reply c :=
  match c with
  | ReAct.PlanNextAction _ _ => Throw "planner offline"
  | ReAct.GenerateFinalAnswer _ => Ok "Here is what I found."
  | ReAct.ExecuteAction _ _ => Ok found_something
  end.

Definition offline (c : ReAct.Call) (w : unit) : ReAct.Reply c * unit :=
  (offline_replies c, w).

(** Two requests that reach the one agent of the process. *)
Definition no_options : GeneralAgent.Options :=
  {| GeneralAgent.opt_sources := Undefined;
     GeneralAgent.opt_files := Undefined;
     GeneralAgent.opt_context := [("userId", Str "anonymous")] |}.

(** A completion API that answers every request with one text. *)
Definition api (n : nat) (request : ClaudeClient.Request)
  : Outcome ClaudeClient.Response :=
  Ok {| ClaudeClient.resp_content := ["Thought: done" ++ nl ++ "Final Answer: true"];
        ClaudeClient.input_tokens := 10; ClaudeClient.output_tokens := 5 |}.

Definition audio_request : ReAct.Prog ReAct.Response :=
  GeneralAgent.process api client connectors false 5
    "My audio is not working" no_options.

Definition camera_request : ReAct.Prog ReAct.Response :=
  GeneralAgent.process api client connectors false 5
    "My camera is not working" no_options.

(** The planner of the audio session finishes at once; the planner of the
    camera session wants to search. *)
Definition audio_replies : forall c : ReAct.Call, ReAct.Reply c :=
  replies enough "Restart the audio driver.".

Definition camera_replies : forall c : ReAct.Call, ReAct.Reply c :=
  replies keep_searching "Check the camera permissions.".

(** The camera request arrives while the audio session waits for its
    planner; the audio session then runs to its end, and the camera
    session after it. *)
Definition overlapping : list (bool * (forall c : ReAct.Call, ReAct.Reply c)) :=
  [ (true, audio_replies); (false, camera_replies);
    (true, audio_replies); (true, audio_replies);
    (false, camera_replies); (false, camera_replies) ].

End Examples.

(* ================================================================= *)
(** ** Notions used to state the properties *)

Module Notions.

Import ReAct.

Section Ranking.

Variable A : Type.
Variable score : A -> Q.

(** The comparison [rankResults] sorts with. *)
Definition descending (a b : A) : Q := Qminus (score b) (score a).

(** [a] may stand before [b]. *)
Definition ranks_before (a b : A) : Prop := (score b <= score a)%Q.

Definition scored_as (s : Q) (a : A) : bool := Qeq_bool (score a) s.

End Ranking.

(** The first occurrence of every [url] not yet [seen]. *)
Fixpoint firsts (seen : list string) (l : list Source) : list Source :=
  match l with
  | [] => []
  | x :: t =>
      if existsb (String.eqb (url x)) seen
      then firsts (seen ++ [url x]) t
      else x :: firsts (seen ++ [url x]) t
  end.

Definition is_plan (c : Call) : bool :=
  match c with PlanNextAction _ _ => true | _ => false end.
Definition is_final (c : Call) : bool :=
  match c with GenerateFinalAnswer _ => true | _ => false end.

(** The number of calls to [planNextAction], to [generateFinalAnswer]. *)
Definition plans (trace : list Call) : nat := length (filter is_plan trace).
Definition finals (trace : list Call) : nat := length (filter is_final trace).

Section Components.

Variable W : Type.
Variable components : forall c : Call, W -> Reply c * W.
Variable config_maxIterations : option nat.

(** The planner and the controller return: no call is rejected, and a
    decision that does not finish names an action. *)
Definition well_behaved : Prop :=
  (forall state tls w,
      exists decision,
        fst (components (PlanNextAction state tls) w) = Ok decision
        /\ (shouldFinish decision = false -> action decision <> None))
  /\ (forall state w,
        exists text, fst (components (GenerateFinalAnswer state) w) = Ok text)
  /\ (forall a state w,
        exists result,
          fst (components (ExecuteAction (Some a) state) w) = Ok result).

(** The planner never sets [shouldFinish]. *)
Definition never_finishes : Prop :=
  forall state tls w decision,
    fst (components (PlanNextAction state tls) w) = Ok decision ->
    shouldFinish decision = false.

(** What a run of the loop from the store [m], after the calls [trace],
    has done when it ends in [fin]. *)
Definition loop_post (m : Model.Store) (trace : list Call)
  (fin : Finished W unit) : Prop :=
  let maxIter := maxIterations config_maxIterations in
  let i0 := Model.iterations (Model.state m) in
  let i := Model.iterations (Model.state (store fin)) in
  i0 <= i
  /\ (i0 <= maxIter -> i <= maxIter)
  /\ plans (calls fin) = plans trace + (i - i0)
  /\ finals (calls fin) <= finals trace + 1
  /\ (well_behaved ->
      outcome fin = Ok tt
      /\ (i0 < maxIter ->
          Model.finalAnswer (Model.state (store fin)) <> None
          /\ finals (calls fin) = finals trace + 1))
  /\ (well_behaved -> never_finishes -> i0 <= maxIter -> i = maxIter).

End Components.

End Notions.

(* ================================================================= *)
(** ** More notions and inputs for the properties below *)

Module More.

(** What the sources that answered returned, in the order of the
    sources. *)
Definition gathered
  (searchSource : JsVal -> JsVal -> Outcome (list SearchResult))
  (query : JsVal) (sources : list JsVal) : list SearchResult :=
  flat_map (fun source =>
              match searchSource source query with
              | Ok value => value
              | Throw _ => []
              end) sources.

(** The sources [execute] asks when its parameters name none. *)
Definition default_sources : list JsVal :=
  [Str "zoomCommunity"; Str "zoomSupport"; Str "google"].

(** The conversation array of the current state object exists. *)
Definition valid (m : Model.Store) : Prop :=
  Model.conversation (Model.state m) < length (Model.arrays m).

(** The value a reader of [this.state] sees. *)
Definition current (m : Model.Store) : Model.State :=
  Model.view m (Model.this_state m).

(** Two stores a reader of [this.state] cannot tell apart. *)
Definition alike (m1 m2 : Model.Store) : Prop :=
  valid m1 /\ valid m2 /\ current m1 = current m2.

(** What two runs have in common: both are cut off, or both end, with
    the same outcome after the same calls, in stores that look alike. *)
Definition same_run {W A : Type} (r1 r2 : option (ReAct.Finished W A)) : Prop :=
  match r1, r2 with
  | Some f1, Some f2 =>
      ReAct.outcome f1 = ReAct.outcome f2
      /\ ReAct.world f1 = ReAct.world f2
      /\ ReAct.calls f1 = ReAct.calls f2
      /\ alike (ReAct.store f1) (ReAct.store f2)
  | None, None => True
  | _, _ => False
  end.

(** The methods of [Model] that work on the session in progress. *)
Inductive Method : Type :=
| UpdateState (updates : Model.Updates)
| AddObservation (observation actionName : string)
| AddReasoning (thought : string)
| SetFinalAnswer (answer : string).

Definition call (c : Method) : Model.Store -> Model.Store :=
  match c with
  | UpdateState updates => Model.updateState updates
  | AddObservation observation actionName =>
      Model.addObservation observation actionName
  | AddReasoning thought => Model.addReasoning thought
  | SetFinalAnswer answer => Model.setFinalAnswer answer
  end.

(** The message a method adds to the conversation. *)
Definition said (c : Method) : list Message :=
  match c with
  | UpdateState _ => []
  | AddObservation observation actionName =>
      [ {| role := "system";
           content := "Observation from " ++ actionName ++ ": " ++ observation |} ]
  | AddReasoning thought =>
      [ {| role := "system"; content := "Thinking: " ++ thought |} ]
  | SetFinalAnswer answer => [ {| role := "assistant"; content := answer |} ]
  end.

(** The tool of the agent over example services, and a second tool. *)
Definition search_tool : Tool :=
  WebSearchTool.new Examples.connectors (Examples.replying "A summary.").

Definition echo_tool : Tool :=
  {| tool_name := "echo";
     tool_description := "Repeat the query";
     tool_parameters := ["query"];
     execute := fun _ context =>
       io_ret {| observation := match ctx_query context with
                                | Some q => q
                                | None => ""
                                end;
                 error := None;
                 result_sources := None |} |}.

(** The store an earlier session left behind. *)
Definition used_store : Model.Store :=
  Model.setFinalAnswer "Check the camera permissions."
    (Model.updateState (Examples.merge [Examples.other_item])
       (Model.initializeState "My camera is not working" (Obj []) Model.new)).


(** A completion client whose every request fails. *)
Definition failing
  : Prompt -> ClaudeClient.Options -> IO ClaudeClient.Completion :=
  fun _ _ n => (Throw "Failed to get completion from Claude: overloaded", S n).

(** Connectors that find nothing: one fails, the others are empty. *)
Definition nothing_found (sourceId query : JsVal)
  : Outcome (list SearchResult) :=
  match sourceId with
  | Str "zoomSupport" => Throw "connect ETIMEDOUT"
  | _ => Ok []
  end.

(** Connectors with seven results over two sources. *)
Definition many_found (sourceId query : JsVal)
  : Outcome (list SearchResult) :=
  match sourceId with
  | Str "zoomCommunity" =>
      Ok [ Examples.scored "a" (7 # 10); Examples.scored "b" (95 # 100);
           Examples.scored "c" (1 # 10); Examples.scored "d" (6 # 10) ]
  | Str "zoomSupport" =>
      Ok [ Examples.scored "e" (65 # 100); Examples.scored "f" (9 # 10);
           Examples.scored "g" (2 # 10) ]
  | _ => Throw "quota exceeded"
  end.

End More.

(* ================================================================= *)
(** * Properties *)

(** ** The planner's text protocol *)

Module PlannerFacts.

Lemma afterFirst_absent (lit s : string) :
  includes lit s = false -> afterFirst lit s = None.
Proof.
  induction s as [|c s IH]; cbn [includes afterFirst]; unfold dropPrefix;
    destruct (prefix lit _); cbn [orb]; intros H;
    first [discriminate | reflexivity | exact (IH H)].
Qed.

(** [JSON.parse] at the edges of the embedding: a number is rounded to
    the nearest double, so one too small is [0]; a number too large and
    an escape above [\u00ff] give a value beyond the embedding, and only
    in a text that is well formed. *)
Lemma read_at_the_edges :
  JSON.read "1e-400" = JSON.Value (Num 0)
  /\ JSON.read "0.1"
     = JSON.Value (Num (3602879701896397 # 36028797018963968))
  /\ JSON.read "9007199254740993" = JSON.Value (Num 9007199254740992)
  /\ JSON.read "1e400" = JSON.Beyond
  /\ JSON.read (dq ++ "\u0100" ++ dq) = JSON.Beyond
  /\ JSON.read (dq ++ "\u0100") = JSON.SyntaxError
  /\ JSON.read (dq ++ "\u00e9" ++ dq)
     = JSON.Value (Str (String (ascii_of_nat 233) "")).
Proof. vm_compute. repeat split. Qed.

(** Claim C6: [parseActionResponse] turns the reply
    [Thought: X / Action: search / Action Parameters: {"query":"audio issue"} /
    Final Answer: false] into the reasoning [X], the action [search] with
    the parameters [{query: "audio issue"}], and [shouldFinish = false]. *)
Theorem parseActionResponse_example (beyond : string -> JsVal) :
  Planner.parseActionResponse (JSON.parse beyond) Examples.example_reply =
  Ok {| thought := "X";
        action := Some {| name := "search";
                          params := Obj [("query", Str "audio issue")] |};
        shouldFinish := false |}.
Proof. vm_compute. reflexivity. Qed.

(** Without an action and without a finish flag, [parseActionResponse]
    itself does not return: it throws on the unbound [state]. *)
Lemma parseActionResponse_default_throws
  (JSON_parse : string -> option JsVal) (response : string) :
  includes "Action:" response = false ->
  (Planner.finalAnswerMatch response = None \/
   exists group, Planner.finalAnswerMatch response = Some group
                 /\ toLowerCase group = "false") ->
  Planner.parseActionResponse JSON_parse response = Throw "state is not defined".
Proof.
  intros Hact Hfin. unfold Planner.parseActionResponse, Planner.actionMatch.
  rewrite (afterFirst_absent _ _ Hact). simpl.
  destruct Hfin as [-> | (g & -> & Hg)]; [reflexivity |].
  rewrite Hg. reflexivity.
Qed.

(** Claim C4: when the completion service replies with a text that has no
    [Action:] segment and whose [Final Answer:] segment is absent or
    [false], [planNextAction] returns a decision with [shouldFinish =
    false] and the default action: the tool [search] on the query of the
    session. *)
Theorem planNextAction_default_action
  (JSON_parse : string -> option JsVal)
  (complete : Prompt -> ClaudeClient.Options -> IO ClaudeClient.Completion)
  (state : Model.State) (tools : list ToolDesc) (q : string)
  (n n' : nat) (reply : ClaudeClient.Completion) :
  Model.query state = Some q ->
  complete (PlanningPrompt state tools) (ClaudeClient.options 500 (2 # 10)) n
    = (Ok reply, n') ->
  includes "Action:" (ClaudeClient.text reply) = false ->
  (Planner.finalAnswerMatch (ClaudeClient.text reply) = None \/
   exists group,
     Planner.finalAnswerMatch (ClaudeClient.text reply) = Some group
     /\ toLowerCase group = "false") ->
  exists decision,
    Planner.planNextAction JSON_parse complete state tools n = (Ok decision, n')
    /\ shouldFinish decision = false
    /\ action decision =
         Some {| name := "search"; params := Obj [("query", Str q)] |}.
Proof.
  intros Hq Hreply Hact Hfin.
  exists (Planner.fallback state "state is not defined").
  unfold Planner.planNextAction, io_catch, io_bind. rewrite Hreply.
  rewrite (parseActionResponse_default_throws JSON_parse _ Hact Hfin).
  unfold io_ret, Planner.fallback. simpl. rewrite Hq. auto.
Qed.

Lemma planNextAction_default_action_witness :
  exists decision,
    Planner.planNextAction (JSON.parse (fun _ => Null))
      (Examples.replying Examples.undecided_reply)
      Examples.first_iteration [] 0 = (Ok decision, 1)
    /\ shouldFinish decision = false
    /\ action decision =
         Some {| name := "search";
                 params := Obj [("query", Str "My audio is not working")] |}.
Proof.
  eapply (@planNextAction_default_action (JSON.parse (fun _ => Null))
            (Examples.replying Examples.undecided_reply)
            Examples.first_iteration []).
  - reflexivity.
  - reflexivity.
  - vm_compute. reflexivity.
  - right. exists "False". split; vm_compute; reflexivity.
Defined.

End PlannerFacts.

(** ** The completion client *)

Module ClaudeClientFacts.

Import ClaudeClient.

(** Claim C10: [complete] replaces a falsy [model], [maxTokens] or
    [temperature] of its options by the configured default, so a caller
    asking for [0] tokens or temperature [0] sends the same request, and
    gets the same completion, as a caller who leaves them out. *)
Theorem complete_falsy_option_is_default
  (create : nat -> Request -> Outcome Response) (this : Client)
  (prompt : Prompt) (o : Options) (n : nat) :
  (truthy (model o) = false ->
   req_model (request this prompt o) = defaultModel this)
  /\ (truthy (maxTokens o) = false ->
      req_max_tokens (request this prompt o) = defaultMaxTokens this)
  /\ (truthy (temperature o) = false ->
      req_temperature (request this prompt o) = defaultTemperature this)
  /\ complete create this prompt
       {| model := model o; maxTokens := Num 0; temperature := Num 0;
          systemPrompt := systemPrompt o |} n
     = complete create this prompt
         {| model := model o; maxTokens := Undefined;
            temperature := Undefined; systemPrompt := systemPrompt o |} n.
Proof.
  unfold request, or_else; cbn [req_model req_max_tokens req_temperature].
  repeat split; try (intros ->; reflexivity).
Qed.

Lemma complete_falsy_option_is_default_witness :
  req_temperature
    (request Examples.client (FinalAnswerPrompt Examples.first_iteration)
       (options 1000 0))
  = Num (3 # 10).
Proof.
  exact (proj1 (proj2 (proj2
           (complete_falsy_option_is_default
              (fun _ _ => Throw "offline") Examples.client
              (FinalAnswerPrompt Examples.first_iteration)
              (options 1000 0) 0)))
         eq_refl).
Defined.

End ClaudeClientFacts.

(** ** The state store *)

Module DedupFacts.
Import Model.

Import Notions.

Lemma findIndex_seen (u : string) (pre suf : list Source) :
  existsb (String.eqb u) (map url pre) = true ->
  exists j, j < length pre
            /\ findIndex (fun s => String.eqb (url s) u) (pre ++ suf) = Some j.
Proof.
  induction pre as [|y pre IH]; cbn [map existsb app findIndex length];
    [discriminate |].
  rewrite (String.eqb_sym (url y) u).
  destruct (String.eqb u (url y)); cbn [orb].
  - intros _. exists 0. split; [lia | reflexivity].
  - intros H. destruct (IH H) as (j & Hj & ->). exists (S j). split; [lia | reflexivity].
Qed.

Lemma findIndex_fresh (x : Source) (pre suf : list Source) :
  existsb (String.eqb (url x)) (map url pre) = false ->
  findIndex (fun s => String.eqb (url s) (url x)) (pre ++ x :: suf)
  = Some (length pre).
Proof.
  induction pre as [|y pre IH]; cbn [map existsb app findIndex length].
  - intros _. now rewrite String.eqb_refl.
  - rewrite (String.eqb_sym (url y) (url x)).
    destruct (String.eqb (url x) (url y)); cbn [orb]; [discriminate |].
    intros H. now rewrite (IH H).
Qed.

Lemma filter_indexed_firsts (self pre suf : list Source) :
  self = (pre ++ suf)%list ->
  filter_indexed
    (fun src index =>
       match findIndex (fun s => String.eqb (url s) (url src)) self with
       | Some i => index =? i
       | None => false
       end)
    (length pre) suf
  = firsts (map url pre) suf.
Proof.
  revert pre. induction suf as [|x suf IH]; intros pre ->; [reflexivity |].
  cbn [filter_indexed firsts].
  specialize (IH (pre ++ [x])%list).
  rewrite <- app_assoc, length_app, map_app in IH. cbn [app length map] in IH.
  replace (length pre + 1) with (S (length pre)) in IH by lia.
  rewrite (IH eq_refl).
  destruct (existsb (String.eqb (url x)) (map url pre)) eqn:Hseen.
  - destruct (@findIndex_seen (url x) pre (x :: suf) Hseen) as (j & Hj & ->).
    replace (length pre =? j) with false
      by (symmetry; apply Nat.eqb_neq; lia).
    reflexivity.
  - rewrite (@findIndex_fresh x pre suf Hseen), Nat.eqb_refl. reflexivity.
Qed.

Lemma uniqueByUrl_firsts (l : list Source) : uniqueByUrl l = firsts [] l.
Proof. exact (@filter_indexed_firsts l [] l eq_refl). Qed.

Lemma firsts_fresh (seen : list string) (l : list Source) (y : Source) :
  In y (firsts seen l) -> ~ In (url y) seen.
Proof.
  revert seen. induction l as [|x l IH]; intros seen; cbn [firsts]; [tauto |].
  assert (Hrest : In y (firsts (seen ++ [url x]) l) -> ~ In (url y) seen).
  { intros H Hin. apply (IH _ H). apply in_or_app. now left. }
  destruct (existsb (String.eqb (url x)) seen) eqn:Hseen; [exact Hrest |].
  intros [<- | H]; [| exact (Hrest H)].
  intros Hin.
  assert (existsb (String.eqb (url x)) seen = true)
    by (apply existsb_exists; exists (url x); split;
        [exact Hin | apply String.eqb_refl]).
  congruence.
Qed.

Lemma firsts_NoDup (seen : list string) (l : list Source) :
  NoDup (map url (firsts seen l)).
Proof.
  revert seen. induction l as [|x l IH]; intros seen; cbn [firsts map];
    [constructor |].
  destruct (existsb (String.eqb (url x)) seen); [apply IH |].
  cbn [map]. constructor; [| apply IH].
  intros Hin. apply in_map_iff in Hin as (y & Hy & Hin).
  apply firsts_fresh in Hin. apply Hin. rewrite Hy.
  apply in_or_app. right. now left.
Qed.

(** After the filter of [updateState] and [formatResponse] no two items
    have the same [url]. *)
Lemma uniqueByUrl_NoDup (l : list Source) : NoDup (map url (uniqueByUrl l)).
Proof. rewrite uniqueByUrl_firsts. apply firsts_NoDup. Qed.

End DedupFacts.

Module ModelFacts.

Import Model.

(** A merge of evidence leaves the new items only, each [url] once. *)
Lemma updateState_sources (m : Store) (items : list Source) :
  getSources (updateState (Examples.merge items) m)
  = uniqueByUrl (items ++ items)
  /\ NoDup (map url (getSources (updateState (Examples.merge items) m))).
Proof. split; [reflexivity | apply DedupFacts.uniqueByUrl_NoDup]. Qed.

(** An update that carries no [iterations] key leaves the counter. *)
Lemma updateState_sources_iterations (m : Store) (items : list Source) :
  iterations (state (updateState (Examples.merge items) m))
  = iterations (state m).
Proof. reflexivity. Qed.

(** Claim C3, on the code: a merge that supplies an item with the [url]
    of an item already present keeps the new item's content, not the
    first-seen one, and an item whose [url] the merge does not supply is
    lost. *)
Theorem updateState_forgets_first_seen :
  let session := initializeState "My audio is not working" (Obj []) new in
  let merged_once :=
    updateState (Examples.merge [Examples.first_seen; Examples.other_item])
      session in
  let merged_twice :=
    updateState (Examples.merge [Examples.seen_again]) merged_once in
  getSources merged_once = [Examples.first_seen; Examples.other_item]
  /\ getSources merged_twice = [Examples.seen_again]
  /\ getSources merged_twice <> [Examples.first_seen; Examples.other_item].
Proof. vm_compute. repeat split. discriminate. Qed.

End ModelFacts.

(** ** The tool executor *)

Module ControllerFacts.


(** A name that is neither registered nor a member of
    [Object.prototype] is reported as not found. *)
Lemma executeAction_not_found (toolbox : ToolBox.ToolBox) (nm : string)
  (ps : JsVal) (state : Model.State) (n : nat) :
  assoc nm toolbox = None ->
  inherited nm = false ->
  Controller.executeAction toolbox (Some {| name := nm; params := ps |}) state n
  = (Ok {| observation := "Error: Tool '" ++ nm ++ "' not found";
           error := Some "TOOL_NOT_FOUND";
           result_sources := None |}, n).
Proof.
  intros Hreg Hinh. unfold Controller.executeAction, ToolBox.getTool.
  rewrite Hreg, Hinh. reflexivity.
Qed.

(** An exception of the tool becomes the result. *)
Lemma executeAction_tool_throws (toolbox : ToolBox.ToolBox) (nm : string)
  (ps : JsVal) (state : Model.State) (tool : Tool) (message : string)
  (n n' : nat) :
  assoc nm toolbox = Some tool ->
  execute tool ps {| ctx_query := Model.query state;
                     ctx_context := Model.context state |} n
    = (Throw message, n') ->
  Controller.executeAction toolbox (Some {| name := nm; params := ps |}) state n
  = (Ok {| observation := "Error executing " ++ nm ++ ": " ++ message;
           error := Some message;
           result_sources := None |}, n').
Proof.
  intros Hreg Hthrow. unfold Controller.executeAction, ToolBox.getTool, io_catch.
  rewrite Hreg, Hthrow. reflexivity.
Qed.

(** Claim C8, on the code: with the agent's tool box, the action named
    [constructor] is not a registered tool, and [executeAction] does not
    report [TOOL_NOT_FOUND] for it: the lookup finds the member every
    object inherits, calling its missing [execute] throws, and the error
    returned is that exception's message. *)
Theorem executeAction_inherited_name
  (create : nat -> ClaudeClient.Request -> Outcome ClaudeClient.Response)
  (client : ClaudeClient.Client)
  (searchSource : JsVal -> JsVal -> Outcome (list SearchResult))
  (state : Model.State) (n : nat) :
  let toolbox := GeneralAgent.toolbox create client searchSource in
  assoc "constructor" toolbox = None
  /\ Controller.executeAction toolbox
       (Some {| name := "constructor"; params := Obj [] |}) state n
     = (Ok {| observation :=
                "Error executing constructor: tool.execute is not a function";
              error := Some "tool.execute is not a function";
              result_sources := None |}, n).
Proof. split; reflexivity. Qed.

End ControllerFacts.

(** ** The retrieval tool *)

Module SortFacts.

Section Ranking.

Variable A : Type.
Variable score : A -> Q.

Local Abbreviation descending := (Notions.descending score).
Local Abbreviation ranks_before := (Notions.ranks_before score).
Local Abbreviation scored_as := (Notions.scored_as score).

Lemma insert_perm (x : A) (l : list A) :
  Permutation (x :: l) (ArraySort.insert descending x l).
Proof.
  induction l as [|y l IH]; simpl; [reflexivity |].
  destruct (Qlt_le_dec (descending y x) 0); [| reflexivity].
  rewrite perm_swap. now apply perm_skip.
Qed.

Lemma sort_perm (l : list A) : Permutation l (ArraySort.sort descending l).
Proof.
  induction l as [|x l IH]; simpl; [constructor |].
  rewrite <- insert_perm. now apply perm_skip.
Qed.

Lemma insert_sorted (x : A) (l : list A) :
  StronglySorted ranks_before l ->
  StronglySorted ranks_before (ArraySort.insert descending x l).
Proof.
  induction 1 as [|y l Hs IH Hy]; simpl.
  - repeat constructor.
  - unfold Notions.descending at 1.
    destruct (Qlt_le_dec (score x - score y) 0) as [Hlt | Hge].
    + constructor; [exact IH |].
      apply (Permutation_Forall (insert_perm x l)).
      constructor; [unfold Notions.ranks_before; lra | exact Hy].
    + constructor; [constructor; assumption |].
      constructor; [unfold Notions.ranks_before; lra |].
      eapply Forall_impl; [| exact Hy].
      unfold Notions.ranks_before. intros z Hz. lra.
Qed.

Lemma sort_sorted (l : list A) :
  StronglySorted ranks_before (ArraySort.sort descending l).
Proof.
  induction l as [|x l IH]; simpl; [constructor | now apply insert_sorted].
Qed.

(** Inserting [x] keeps it in front of every element with its score. *)
Lemma insert_stable (s : Q) (x : A) (l : list A) :
  filter (scored_as s) (ArraySort.insert descending x l)
  = filter (scored_as s) (x :: l).
Proof.
  induction l as [|y l IH]; [reflexivity |].
  cbn [ArraySort.insert]. unfold Notions.descending at 1.
  destruct (Qlt_le_dec (score x - score y) 0) as [Hlt | Hge]; [| reflexivity].
  cbn [filter] in *. rewrite IH.
  destruct (scored_as s x) eqn:Hx; [| reflexivity].
  destruct (scored_as s y) eqn:Hy; [| reflexivity].
  unfold Notions.scored_as in Hx, Hy.
  apply Qeq_bool_iff in Hx. apply Qeq_bool_iff in Hy. lra.
Qed.

Lemma sort_stable (s : Q) (l : list A) :
  filter (scored_as s) (ArraySort.sort descending l) = filter (scored_as s) l.
Proof.
  induction l as [|x l IH]; [reflexivity |].
  cbn [ArraySort.sort]. rewrite insert_stable. cbn [filter]. now rewrite IH.
Qed.

End Ranking.

End SortFacts.

Module WebSearchFacts.

Import WebSearchTool.

(** Claim C7: [rankResults] returns its results rearranged in descending
    order of relevance, and results of equal relevance stay in the order
    in which they arrived; of the scores 0.5, 0.9, 0.9, 0.3 the second
    result comes first, the third next. *)
Theorem rankResults_stable_descending (results : list SearchResult)
  (query : JsVal) :
  Permutation results (rankResults results query)
  /\ StronglySorted (fun a b => (relevance b <= relevance a)%Q)
       (rankResults results query)
  /\ (forall s : Q,
        filter (fun r => Qeq_bool (relevance r) s) (rankResults results query)
        = filter (fun r => Qeq_bool (relevance r) s) results)
  /\ map r_title (rankResults Examples.arrivals query)
     = ["second"; "third"; "first"; "fourth"].
Proof.
  repeat split.
  - apply (SortFacts.sort_perm relevance).
  - apply (SortFacts.sort_sorted relevance).
  - intros s. apply (SortFacts.sort_stable relevance).
Qed.

Lemma rankResults_perm (results : list SearchResult) (query : JsVal) :
  Permutation results (rankResults results query).
Proof. exact (SortFacts.sort_perm relevance results). Qed.

Lemma filter_all {A : Type} (l : list A) : filter (fun _ => true) l = l.
Proof. induction l as [|x l IH]; simpl; congruence. Qed.

Lemma In_firstn {A : Type} (n : nat) (l : list A) (x : A) :
  In x (firstn n l) -> In x l.
Proof.
  intros H. rewrite <- (firstn_skipn n l). apply in_or_app. now left.
Qed.

Lemma summarizeResults_returns
  (complete : Prompt -> ClaudeClient.Options -> IO ClaudeClient.Completion)
  (results : list SearchResult) (query : JsVal) (n : nat) :
  exists summary n', summarizeResults complete results query n = (Ok summary, n').
Proof.
  unfold summarizeResults, io_catch, io_bind, io_ret.
  destruct (complete _ _ n) as [[c | e] n']; eauto.
Qed.

(** Claim C2, as the code has it: with the sources A, B and C, which
    like the query are values that the log line of [execute] can print,
    when the fetch of B fails and those of A and C succeed, [execute]
    returns without an error, its evidence is the first five of the
    ranked results of A and C, hence taken from them only, and their
    number is the smaller of 5 and the number of results of A and C
    together: the tool removes no duplicates. *)
Theorem execute_isolates_failed_source
  (searchSource : JsVal -> JsVal -> Outcome (list SearchResult))
  (complete : Prompt -> ClaudeClient.Options -> IO ClaudeClient.Completion)
  (params : JsVal) (context : ToolContext) (n : nat)
  (params_query A B C : JsVal) (fromA fromC : list SearchResult)
  (failure : string) :
  let query := or_else params_query (js_of_opt (ctx_query context)) in
  property "query" params = Ok params_query ->
  property "sources" params = Ok (Arr [A; B; C]) ->
  Conversion.printable query = true ->
  forallb Conversion.printable [A; B; C] = true ->
  searchSource A query = Ok fromA ->
  searchSource B query = Throw failure ->
  searchSource C query = Ok fromC ->
  exists result n' evidence,
    execute searchSource complete params context n = (Ok result, n')
    /\ error result = None
    /\ result_sources result = Some evidence
    /\ evidence = map toSource (firstn 5 (rankResults (fromA ++ fromC) query))
    /\ (forall item, In item evidence ->
          exists r, In r (fromA ++ fromC) /\ item = toSource r)
    /\ length evidence = Nat.min 5 (length fromA + length fromC).
Proof.
  intros query Hq Hs Hquery Hsources HA HB HC.
  set (ranked := rankResults (fromA ++ fromC)%list query).
  assert (Hexec : exists summary n',
    execute searchSource complete params context n =
    (Ok {| observation :=
             "Found " ++ show (length (fromA ++ fromC)%list) ++
             " results across " ++ show 3 ++
             " sources. Top results:" ++ nl ++
             join nl (titled 0 (firstn 5 ranked)) ++
             nl ++ nl ++ "Summary: " ++ summary;
           error := None;
           result_sources := Some (map toSource (firstn 5 ranked)) |}, n')).
  { unfold execute. rewrite Hq, Hs. cbn [or_else truthy].
    fold query. rewrite Hquery, Hsources. cbn [negb map flat_map].
    rewrite HA, HB, HC.
    cbn [app]. rewrite app_nil_r, filter_all. fold ranked.
    unfold io_bind, io_ret.
    destruct (firstn 5 ranked) as [|top rest] eqn:Htop.
    - eauto.
    - destruct (summarizeResults_returns complete (top :: rest) query n)
        as (summary & n' & ->). eauto. }
  destruct Hexec as (summary & n' & Hexec).
  eexists _, n', _. split; [exact Hexec |]. cbn [error result_sources].
  repeat split.
  - intros item Hin. apply in_map_iff in Hin as (r & <- & Hr).
    exists r. split; [| reflexivity].
    apply In_firstn in Hr.
    exact (Permutation_in r (Permutation_sym (rankResults_perm _ query)) Hr).
  - rewrite length_map, length_firstn. unfold ranked.
    rewrite <- (Permutation_length (rankResults_perm _ query)).
    now rewrite length_app.
Qed.

Lemma execute_isolates_failed_source_witness :
  exists result n' evidence,
    execute Examples.connectors (Examples.replying "A summary.")
      Examples.three_sources Examples.tool_context 0 = (Ok result, n')
    /\ error result = None
    /\ result_sources result = Some evidence
    /\ evidence = map toSource
                    (firstn 5 (rankResults
                                 ([Examples.same_page] ++ [Examples.same_page])
                                 (Str "audio issue")))
    /\ (forall item, In item evidence ->
          exists r, In r ([Examples.same_page] ++ [Examples.same_page])
                    /\ item = toSource r)
    /\ length evidence = Nat.min 5 (1 + 1).
Proof.
  apply (@execute_isolates_failed_source Examples.connectors
           (Examples.replying "A summary.")
           Examples.three_sources Examples.tool_context 0
           (Str "audio issue")
           (Str "zoomCommunity") (Str "zoomSupport") (Str "google")
           [Examples.same_page] [Examples.same_page] "connect ETIMEDOUT");
    reflexivity.
Defined.

(** Claim C2, as stated, fails: when A and C both return the same page,
    the evidence holds it twice, while the deduplicated union of their
    results has one element. *)
Lemma execute_keeps_duplicates :
  exists result n' evidence,
    execute Examples.connectors (Examples.replying "A summary.")
      Examples.three_sources Examples.tool_context 0 = (Ok result, n')
    /\ result_sources result = Some evidence
    /\ length evidence = 2
    /\ Nat.min 5 (length (Examples.deduplicated
                            ([Examples.same_page] ++ [Examples.same_page]))) = 1
    /\ length evidence
       <> Nat.min 5 (length (Examples.deduplicated
                               ([Examples.same_page] ++ [Examples.same_page]))).
Proof.
  eexists _, _, _. split; [vm_compute; reflexivity |].
  split; [reflexivity |]. repeat split. vm_compute. discriminate.
Qed.

End WebSearchFacts.

(** ** The reasoning loop *)

(** Reading the store through references. *)
Module StoreFacts.
Import Model.

Lemma read_this (m : Store) : read m (this_state m) = state m.
Proof. unfold read. now rewrite Nat.eqb_refl. Qed.

Lemma this_state_updateState (u : Updates) (m : Store) :
  this_state (updateState u m) = S (this_state m).
Proof. unfold updateState. destruct (upd_sources u); reflexivity. Qed.

Lemma read_detached (u : Updates) (m : Store) :
  read (updateState u m) (this_state m) = state m.
Proof.
  unfold read. rewrite this_state_updateState.
  replace (this_state m =? S (this_state m)) with false
    by (symmetry; apply Nat.eqb_neq; lia).
  unfold updateState, this_state.
  destruct (upd_sources u); cbn [detached assign deref]; now rewrite Nat.eqb_refl.
Qed.

Lemma iterations_updateState (u : Updates) (m : Store) :
  iterations (state (updateState u m))
  = match upd_iterations u with
    | Some k => k
    | None => iterations (state m)
    end.
Proof. unfold updateState. destruct (upd_sources u); reflexivity. Qed.

Lemma finalAnswer_updateState (u : Updates) (m : Store) :
  finalAnswer (state (updateState u m)) = finalAnswer (state m).
Proof. unfold updateState. destruct (upd_sources u); reflexivity. Qed.

End StoreFacts.

Module ReActFacts.
Import ReAct Notions.

Lemma plans_snoc (trace : list Call) (c : Call) :
  plans (trace ++ [c]) = plans trace + (if is_plan c then 1 else 0).
Proof.
  unfold plans. rewrite filter_app, length_app. cbn [filter].
  now destruct (is_plan c).
Qed.

Lemma finals_snoc (trace : list Call) (c : Call) :
  finals (trace ++ [c]) = finals trace + (if is_final c then 1 else 0).
Proof.
  unfold finals. rewrite filter_app, length_app. cbn [filter].
  now destruct (is_final c).
Qed.

(** Splits a goal into its conjuncts, without introducing hypotheses. *)
Ltac conjuncts := repeat match goal with |- _ /\ _ => split end.

Section Sequential.
Variable W : Type.
Variable components : forall c : Call, W -> Reply c * W.
Variable config_maxIterations : option nat.
Variable config_debug : bool.
Variable tools : list ToolDesc.

Local Abbreviation maxIter := (maxIterations config_maxIterations).

Local Abbreviation well_behaved := (Notions.well_behaved components).
Local Abbreviation never_finishes := (Notions.never_finishes components).
Local Abbreviation loop_post :=
  (Notions.loop_post components config_maxIterations).

Lemma wb_plan (state : Model.State) (tls : list ToolDesc) (w w' : W)
  (r : Outcome PlanResult) :
  well_behaved ->
  components (PlanNextAction state tls) w = (r, w') ->
  exists decision,
    r = Ok decision
    /\ (shouldFinish decision = false -> action decision <> None).
Proof.
  intros (Hp & _ & _) Hc. destruct (Hp state tls w) as (d & Hd & Ha).
  rewrite Hc in Hd. eauto.
Qed.

Lemma wb_final (state : Model.State) (w w' : W) (r : Outcome string) :
  well_behaved ->
  components (GenerateFinalAnswer state) w = (r, w') ->
  exists text, r = Ok text.
Proof.
  intros (_ & Hf & _) Hc. destruct (Hf state w) as (t & Ht).
  rewrite Hc in Ht. eauto.
Qed.

Lemma wb_act (a : Action) (state : Model.State) (w w' : W)
  (r : Outcome ActionResult) :
  well_behaved ->
  components (ExecuteAction (Some a) state) w = (r, w') ->
  exists result, r = Ok result.
Proof.
  intros (_ & _ & Ha) Hc. destruct (Ha a state w) as (x & Hx).
  rewrite Hc in Hx. eauto.
Qed.

Lemma nf_plan (state : Model.State) (tls : list ToolDesc) (w w' : W)
  (decision : PlanResult) :
  never_finishes ->
  components (PlanNextAction state tls) w = (Ok decision, w') ->
  shouldFinish decision = false.
Proof. intros Hnf Hc. apply (Hnf state tls w). now rewrite Hc. Qed.

(** A settled call contradicts what is assumed of the components. *)
Ltac absurd_reply :=
  match goal with
  | Hwb : well_behaved,
    H : components (PlanNextAction _ _) _ = (Throw _, _) |- _ =>
      destruct (wb_plan Hwb H) as (? & ? & _); discriminate
  | Hwb : well_behaved,
    H : components (GenerateFinalAnswer _) _ = (Throw _, _) |- _ =>
      destruct (wb_final Hwb H) as (? & ?); discriminate
  | Hwb : well_behaved,
    H : components (ExecuteAction (Some _) _) _ = (Throw _, _) |- _ =>
      destruct (wb_act Hwb H) as (? & ?); discriminate
  | Hnf : never_finishes,
    H : components (PlanNextAction _ _) _ = (Ok ?d, _),
    Hsf : shouldFinish ?d = true |- _ =>
      rewrite (nf_plan Hnf H) in Hsf; discriminate
  | Hwb : well_behaved,
    H : components (PlanNextAction _ _) _ = (Ok ?d, _),
    Hsf : shouldFinish ?d = false,
    Ha : action ?d = None |- _ =>
      let E := fresh in
      destruct (wb_plan Hwb H) as (? & E & ?);
      injection E as <-; tauto
  end.

(** The postcondition at an exit of the loop. *)
Ltac leaf :=
  conjuncts; try lia;
  intros;
  try absurd_reply;
  conjuncts; try reflexivity; try discriminate; try lia;
  intros; conjuncts; try discriminate; try lia.

Lemma maxIterations_positive : 0 < maxIter.
Proof. unfold maxIterations. destruct config_maxIterations as [[|k]|]; lia. Qed.

(** Running a [try] block, and a sequence. *)
Lemma run_catch {A : Type} (s : Step A) (handler : string -> Prog A)
  (w : W) (trace : list Call) :
  run components (catch_step s handler) w trace
  = match run components s w trace with
    | Some fin =>
        match outcome fin with
        | Ok a =>
            Some {| outcome := Ok a; store := store fin;
                    world := world fin; calls := calls fin |}
        | Throw message =>
            run components (handler message (store fin)) (world fin) (calls fin)
        end
    | None => None
    end.
Proof.
  revert w trace.
  induction s as [[a | message] m | c m resume IH | ]; intros w trace;
    cbn [catch_step run outcome store world calls]; try reflexivity.
  destruct (components c w) as [reply w']. apply IH.
Qed.

Lemma run_bind {A B : Type} (s : Step A) (f : A -> Prog B) (w : W)
  (trace : list Call) :
  run components (bind_step s f) w trace
  = match run components s w trace with
    | Some fin =>
        match outcome fin with
        | Ok a => run components (f a (store fin)) (world fin) (calls fin)
        | Throw message =>
            Some {| outcome := Throw message; store := store fin;
                    world := world fin; calls := calls fin |}
        end
    | None => None
    end.
Proof.
  revert w trace.
  induction s as [[a | message] m | c m resume IH | ]; intros w trace;
    cbn [bind_step run outcome store world calls]; try reflexivity.
  destruct (components c w) as [reply w']. apply IH.
Qed.

(** The loop does nothing once the counter has reached the ceiling. *)
Lemma loop_exit (fuel : nat) (m : Model.Store) (w : W) (trace : list Call) :
  maxIter <= Model.iterations (Model.state m) ->
  run components (loop config_maxIterations tools fuel (Model.this_state m) m)
    w trace
  = Some {| outcome := Ok tt; store := m; world := w; calls := trace |}.
Proof.
  intros Hge.
  assert (Hcond : (Model.iterations (Model.state m) <? maxIter) = false)
    by (apply Nat.ltb_ge; exact Hge).
  destruct fuel; cbn [loop bind bind_step model_get];
    rewrite StoreFacts.read_this, Hcond; reflexivity.
Qed.

(** With fuel for the iterations that remain, the loop ends, and
    [loop_post] holds of its end. *)
Lemma loop_spec (fuel : nat) :
  forall (m : Model.Store) (w : W) (trace : list Call),
    maxIter <= fuel + Model.iterations (Model.state m) ->
    Model.finalAnswer (Model.state m) = None ->
    exists fin,
      run components
        (loop config_maxIterations tools fuel (Model.this_state m) m) w trace
      = Some fin
      /\ loop_post m trace fin.
Proof.
  induction fuel as [|fuel IH]; intros m w trace Hfuel Hnone.
  - rewrite loop_exit by lia. eexists. split; [reflexivity |].
    unfold Notions.loop_post; cbn [store calls outcome].
    leaf.
  - destruct (le_lt_dec maxIter (Model.iterations (Model.state m))) as [Hge | Hlt].
    { rewrite loop_exit by lia. eexists. split; [reflexivity |].
      unfold Notions.loop_post; cbn [store calls outcome]. leaf. }
    cbn [loop bind bind_step model_get model_do].
    rewrite StoreFacts.read_this, Hnone.
    replace (Model.iterations (Model.state m) <? maxIter) with true
      by (symmetry; apply Nat.ltb_lt; exact Hlt).
    cbn [andb negb truthy_opt bind bind_step model_get model_do await run].
    set (m1 := Model.updateState _ m).
    assert (Hi1 : Model.iterations (Model.state m1)
                  = Model.iterations (Model.state m) + 1)
      by (unfold m1; now rewrite StoreFacts.iterations_updateState).
    assert (Hf1 : Model.finalAnswer (Model.state m1) = None)
      by (unfold m1; now rewrite StoreFacts.finalAnswer_updateState).
    destruct (components (PlanNextAction _ tools) w) as [[d | e] w1] eqn:Hplan.
    2:{ cbn [run]. eexists. split; [reflexivity |].
        unfold Notions.loop_post; cbn [store calls outcome].
        rewrite plans_snoc, finals_snoc, Hi1. cbn [is_plan is_final].
        leaf. }
    destruct (shouldFinish d) eqn:Hsf.
    { cbn [finish bind bind_step model_get model_do await run].
      destruct (components (GenerateFinalAnswer _) w1) as [[t | e] w2] eqn:Hfinal;
        cbn [run bind_step model_do]; (eexists; split; [reflexivity |]);
        unfold Notions.loop_post; cbn [store calls outcome];
        rewrite finals_snoc, plans_snoc, plans_snoc, finals_snoc;
        cbn [is_plan is_final Model.setFinalAnswer Model.push Model.state
             Model.iterations Model.finalAnswer Model.addReasoning];
        rewrite Hi1; leaf. }
    cbn [bind bind_step model_get model_do await run].
    destruct (action d) as [a |] eqn:Hact.
    2:{ destruct (components (ExecuteAction None _) w1) as [[r | e] w2] eqn:Hact';
          cbn [run bind_step throw]; (eexists; split; [reflexivity |]);
          unfold Notions.loop_post; cbn [store calls outcome];
          rewrite ?finals_snoc, ?plans_snoc;
          cbn [is_plan is_final Model.push Model.state
               Model.iterations Model.finalAnswer Model.addReasoning];
          rewrite Hi1; leaf. }
    destruct (components (ExecuteAction (Some a) _) w1) as [[r | e] w2] eqn:Hexec.
    2:{ cbn [run bind_step throw]; (eexists; split; [reflexivity |]);
          unfold Notions.loop_post; cbn [store calls outcome];
          rewrite ?finals_snoc, ?plans_snoc;
          cbn [is_plan is_final Model.push Model.state
               Model.iterations Model.finalAnswer Model.addReasoning];
          rewrite Hi1; leaf. }
    cbn [run bind_step ret model_do model_get bind].
    set (trace2 := ((trace ++ _) ++ _)%list).
    assert (Hp2 : plans trace2 = plans trace + 1)
      by (unfold trace2; rewrite !plans_snoc; cbn [is_plan]; lia).
    assert (Hn2 : finals trace2 = finals trace)
      by (unfold trace2; rewrite !finals_snoc; cbn [is_final]; lia).
    clearbody trace2.
    set (m2 := Model.addObservation _ _ _).
    destruct (result_sources r) as [srcs |] eqn:Hsrc;
      cbn [run bind_step ret model_do model_get bind];
      [ set (m3 := Model.updateState _ m2);
        assert (Hread : Model.read m3 (Model.getState m1) = Model.state m1)
          by (exact (StoreFacts.read_detached _ m2));
        assert (Hi3 : Model.iterations (Model.state m3)
                      = Model.iterations (Model.state m) + 1)
          by (unfold m3; rewrite StoreFacts.iterations_updateState; exact Hi1);
        assert (Hf3 : Model.finalAnswer (Model.state m3) = None)
          by (unfold m3; rewrite StoreFacts.finalAnswer_updateState; exact Hf1)
      | set (m3 := m2);
        assert (Hread : Model.read m3 (Model.getState m1) = Model.state m1)
          by (exact (StoreFacts.read_this m2));
        assert (Hi3 : Model.iterations (Model.state m3)
                      = Model.iterations (Model.state m) + 1) by exact Hi1;
        assert (Hf3 : Model.finalAnswer (Model.state m3) = None) by exact Hf1 ];
      clearbody m3; rewrite Hread, Hi1, Hf1;
      cbn [negb truthy_opt andb];
      (destruct (le_lt_dec maxIter (Model.iterations (Model.state m) + 1))
        as [Hforced | Hmore];
       [ replace (maxIter <=? Model.iterations (Model.state m) + 1) with true
           by (symmetry; apply Nat.leb_le; exact Hforced)
       | replace (maxIter <=? Model.iterations (Model.state m) + 1) with false
           by (symmetry; apply Nat.leb_gt; exact Hmore) ]);
      cbn [andb finish bind bind_step model_get model_do await run ret].
    1,3: destruct (components (GenerateFinalAnswer _) w2) as [[t | e] w3] eqn:Hfinal;
      cbn [run bind bind_step model_do model_get];
      [ change (Model.getState (Model.setFinalAnswer t m3))
          with (Model.this_state (Model.setFinalAnswer t m3));
        rewrite loop_exit
          by (cbn [Model.setFinalAnswer Model.push Model.state Model.iterations];
              lia)
      | ];
      (eexists; split; [reflexivity |]);
      unfold Notions.loop_post; cbn [store calls outcome];
      rewrite ?finals_snoc, ?plans_snoc;
      cbn [is_plan is_final Model.setFinalAnswer Model.push Model.state
           Model.iterations Model.finalAnswer];
      rewrite ?Hi3, ?Hp2, ?Hn2; leaf.
    all: change (Model.getState m3) with (Model.this_state m3);
      destruct (IH m3 w2 trace2) as (fin & Hrun & Hpost); [lia | exact Hf3 |];
      exists fin; split; [exact Hrun |];
      unfold Notions.loop_post in *; rewrite Hi3, Hp2, Hn2 in Hpost;
      destruct Hpost as (P1 & P2 & P3 & P4 & P5 & P6);
      conjuncts; try lia;
      [ intros Hwb; destruct (P5 Hwb) as (Q1 & Q2); split; [exact Q1 |];
        intros _; apply Q2; lia
      | intros Hwb Hnf _; apply (P6 Hwb Hnf); lia ].
Qed.

Lemma formatResponse_answer (state : Model.State) :
  answer (formatResponse config_debug state) <> "".
Proof.
  unfold formatResponse; cbn [answer].
  destruct (Model.finalAnswer state) as [[|c a] |]; cbn; discriminate.
Qed.

Lemma errorResponse_answer (message : string) :
  answer (errorResponse message) <> "".
Proof. cbn. discriminate. Qed.

(** The [try] block of [process] on a freshly initialised store. *)
Lemma attempt_spec (fuel : nat) (query : string) (context : JsVal)
  (m : Model.Store) (w : W) :
  maxIter <= fuel ->
  let m0 := Model.initializeState query context m in
  exists fin0,
    run components (loop config_maxIterations tools fuel (Model.this_state m0) m0)
      w [] = Some fin0
    /\ loop_post m0 [] fin0
    /\ run components (attempt config_maxIterations config_debug tools fuel m0) w []
       = Some
           {| outcome :=
                match outcome fin0 with
                | Ok _ =>
                    Ok (formatResponse config_debug
                          (Model.view (store fin0)
                             (Model.this_state (store fin0))))
                | Throw message => Throw message
                end;
              store := store fin0;
              world := world fin0;
              calls := calls fin0 |}.
Proof.
  intros Hfuel m0.
  destruct (@loop_spec fuel m0 w []) as (fin0 & Hrun & Hpost);
    [cbn; lia | reflexivity |].
  exists fin0. split; [exact Hrun |]. split; [exact Hpost |].
  unfold attempt, executeReActLoop.
  cbn [bind bind_step model_get].
  change (Model.getState m0) with (Model.this_state m0).
  rewrite run_bind, Hrun.
  destruct (outcome fin0) as [[] | message]; reflexivity.
Qed.

(** What [process] does, for every planner and controller. *)
Lemma process_spec (fuel : nat) (query : string) (context : JsVal)
(m : Model.Store) (w : W) :
maxIter <= fuel ->
let m0 := Model.initializeState query context m in
exists fin0,
  run components (attempt config_maxIterations config_debug tools fuel m0) w []
  = Some
      {| outcome :=
           match outcome fin0 with
           | Ok _ =>
               Ok (formatResponse config_debug
                     (Model.view (store fin0) (Model.this_state (store fin0))))
           | Throw message => Throw message
           end;
         store := store fin0; world := world fin0; calls := calls fin0 |}
  /\ run components
       (process config_maxIterations config_debug tools fuel query context m)
       w []
     = Some
         {| outcome :=
              Ok match outcome fin0 with
                 | Ok _ =>
                     formatResponse config_debug
                       (Model.view (store fin0) (Model.this_state (store fin0)))
                 | Throw message => errorResponse message
                 end;
            store := store fin0; world := world fin0; calls := calls fin0 |}
  /\ loop_post m0 [] fin0.
Proof.
intros Hfuel m0.
destruct (@attempt_spec fuel query context m w Hfuel)
  as (fin0 & _ & Hpost & Hattempt).
exists fin0. split; [exact Hattempt |]. split; [| exact Hpost].
unfold process. cbn [bind bind_step model_do]. unfold catch.
fold m0. rewrite run_catch. fold m0 in Hattempt. rewrite Hattempt.
cbn [outcome store world calls].
destruct (outcome fin0) as [[] | message]; reflexivity.
Qed.

(** Claim C9: [process] returns normally whatever the planner and the
  controller do; when its [try] block throws, with a message, it
  returns the response whose answer explains the error with that
  message and whose sources are empty. *)
Theorem process_never_throws (fuel : nat) (query : string) (context : JsVal)
(m : Model.Store) (w : W) :
maxIter <= fuel ->
exists fin response,
  run components
    (process config_maxIterations config_debug tools fuel query context m)
    w [] = Some fin
  /\ outcome fin = Ok response
  /\ forall inner message,
       run components
         (attempt config_maxIterations config_debug tools fuel
            (Model.initializeState query context m)) w [] = Some inner ->
       outcome inner = Throw message ->
       response = errorResponse message
       /\ sources response = []
       /\ answer response =
            "I encountered an error while processing your query: " ++ message ++
            ". Please try again or rephrase your question.".
Proof.
intros Hfuel.
destruct (@process_spec fuel query context m w Hfuel)
  as (fin0 & Hattempt & Hprocess & _).
eexists _, _. split; [exact Hprocess |]. split; [reflexivity |].
intros inner message Hinner Hthrow.
rewrite Hattempt in Hinner. injection Hinner as <-.
cbn [outcome] in Hthrow.
destruct (outcome fin0) as [[] | message']; [discriminate |].
injection Hthrow as ->. repeat split.
Qed.

(** The bounds of a run of [process]. *)
Lemma process_bounds (fuel : nat) (query : string) (context : JsVal)
(m : Model.Store) (w : W) :
maxIter <= fuel ->
exists fin response,
  run components
    (process config_maxIterations config_debug tools fuel query context m)
    w [] = Some fin
  /\ outcome fin = Ok response
  /\ answer response <> ""
  /\ Model.iterations (Model.state (store fin)) <= maxIter
  /\ plans (calls fin) = Model.iterations (Model.state (store fin))
  /\ plans (calls fin) + finals (calls fin) <= maxIter + 1
  /\ (well_behaved ->
      Model.finalAnswer (Model.state (store fin)) <> None
      /\ error response = None
      /\ (never_finishes ->
          Model.iterations (Model.state (store fin)) = maxIter
          /\ plans (calls fin) = maxIter
          /\ finals (calls fin) = 1)).
Proof.
intros Hfuel.
destruct (@process_spec fuel query context m w Hfuel)
  as (fin0 & _ & Hprocess & Hpost).
eexists _, _. split; [exact Hprocess |]. split; [reflexivity |].
cbn [store calls].
unfold Notions.loop_post in Hpost.
cbn [Model.initializeState Model.assign Model.state Model.iterations] in Hpost.
destruct Hpost as (_ & P2 & P3 & P4 & P5 & P6).
pose proof maxIterations_positive as Hpos.
change (plans []) with 0 in *. change (finals []) with 0 in *.
conjuncts; try lia.
- destruct (outcome fin0) as [[] | message];
    [apply formatResponse_answer | apply errorResponse_answer].
- intros Hwb. destruct (P5 Hwb) as (Hok & Hset).
  destruct (Hset Hpos) as (Hanswer & Hfinals).
  rewrite Hok. conjuncts; [exact Hanswer | reflexivity |].
  intros Hnf. specialize (P6 Hwb Hnf). lia.
Qed.

(** Claim C1: [process] terminates for every behaviour of the planner and
  the controller.  The iteration counter ends at most at
  [maxIterations] (5 by default), every iteration calls
  [planNextAction] once, and [planNextAction] and [generateFinalAnswer]
  are called at most [maxIterations + 1] times together; the response
  has a non-empty answer.  When no call fails, the answer of the
  session is set on exit, and when moreover the planner never sets
  [shouldFinish], the loop runs exactly [maxIterations] iterations and
  then asks for the final answer once. *)
Theorem process_terminates (fuel : nat) (query : string) (context : JsVal)
(m : Model.Store) (w : W) :
maxIter <= fuel ->
exists fin response,
  run components
    (process config_maxIterations config_debug tools fuel query context m)
    w [] = Some fin
  /\ outcome fin = Ok response
  /\ answer response <> ""
  /\ Model.iterations (Model.state (store fin)) <= maxIter
  /\ plans (calls fin) = Model.iterations (Model.state (store fin))
  /\ plans (calls fin) + finals (calls fin) <= maxIter + 1
  /\ (well_behaved ->
      Model.finalAnswer (Model.state (store fin)) <> None
      /\ error response = None
      /\ (never_finishes ->
          Model.iterations (Model.state (store fin)) = maxIter
          /\ plans (calls fin) = maxIter
          /\ finals (calls fin) = 1)).
Proof. exact (@process_bounds fuel query context m w). Qed.

End Sequential.

Lemma maxIterations_default :
  maxIterations None = 5
  /\ maxIterations (Some 0) = 5
  /\ maxIterations GeneralAgent.config_maxIterations = 5.
Proof. repeat split. Qed.

End ReActFacts.

(** ** The loop: examples *)

Module LoopExamples.

Import ReAct Notions ReActFacts.

Lemma stubborn_well_behaved : well_behaved Examples.stubborn.
Proof. repeat split; intros; eexists; try split; try reflexivity; discriminate. Qed.

Lemma stubborn_never_finishes : never_finishes Examples.stubborn.
Proof. intros state tls w decision H. injection H as <-. reflexivity. Qed.

Lemma process_terminates_witness :
  exists fin response,
    run Examples.stubborn
      (process None false [] 5 "My audio is not working" (Obj []) Model.new)
      tt [] = Some fin
    /\ outcome fin = Ok response
    /\ answer response <> ""
    /\ Model.finalAnswer (Model.state (store fin)) <> None
    /\ Model.iterations (Model.state (store fin)) = 5
    /\ plans (calls fin) = 5
    /\ finals (calls fin) = 1.
Proof.
  destruct (@process_terminates unit Examples.stubborn None false [] 5
              "My audio is not working" (Obj []) Model.new tt (le_n 5))
    as (fin & response & Hrun & Hok & Hanswer & _ & _ & _ & Hwb).
  destruct (Hwb stubborn_well_behaved) as (Hset & _ & Hnf).
  destruct (Hnf stubborn_never_finishes) as (Hiter & Hplans & Hfinals).
  exists fin, response. repeat split; assumption.
Defined.

Lemma process_never_throws_witness :
  exists fin,
    run Examples.offline
      (process None false [] 5 "My audio is not working" (Obj []) Model.new)
      tt [] = Some fin
    /\ outcome fin =
       Ok {| answer :=
               "I encountered an error while processing your query: planner offline. Please try again or rephrase your question.";
             sources := [];
             error := Some "planner offline";
             debugInfo := None |}.
Proof.
  destruct (@process_never_throws unit Examples.offline None false [] 5
              "My audio is not working" (Obj []) Model.new tt (le_n 5))
    as (fin & response & Hrun & Hok & Hcatch).
  exists fin. split; [exact Hrun |]. rewrite Hok.
  destruct (Hcatch _ "planner offline" eq_refl eq_refl) as (-> & _ & _).
  reflexivity.
Defined.

End LoopExamples.

(** ** The agent *)

Module GeneralAgentFacts.

Import ReAct Notions ReActFacts.


Section Agent.

Variable create : nat -> ClaudeClient.Request -> Outcome ClaudeClient.Response.
Variable client : ClaudeClient.Client.
Variable searchSource : JsVal -> JsVal -> Outcome (list SearchResult).
Variable config_debug : bool.
Variable beyond : string -> JsVal.



End Agent.

(** Claim C5, on the code: two requests that overlap are served on the
    one state store of the agent.  Served alone, the camera request runs
    five iterations and gets its own answer; when it arrives while the
    audio session awaits its planner, it ends after one iteration and
    returns the answer written for the audio request, and the reasoning
    of the audio session stands in its trace. *)
Theorem overlapping_sessions_interfere :
  let alone :=
    run (fun c (w : unit) => (Examples.camera_replies c, w))
      (Examples.camera_request GeneralAgent.model) tt [] in
  let overlapped :=
    interleave Examples.overlapping
      (NotStarted Examples.audio_request)
      (NotStarted Examples.camera_request) GeneralAgent.model in
  option_map (fun fin => (option_map answer
                            (match outcome fin with
                             | Ok response => Some response
                             | Throw _ => None
                             end),
                          Model.iterations (Model.state (store fin)))) alone
  = Some (Some "Check the camera permissions.", 5)
  /\ option_map (fun result => match result with
                               | Ok response => answer response
                               | Throw message => message
                               end)
       (returned (snd (fst overlapped)))
     = Some "Restart the audio driver."
  /\ Model.iterations (Model.state (snd overlapped)) = 1
  /\ Model.getConversation (snd overlapped)
     = [ {| role := "user"; content := "My camera is not working" |};
         {| role := "system"; content := "Thinking: I have enough information." |};
         {| role := "assistant"; content := "Restart the audio driver." |};
         {| role := "system"; content := "Thinking: I need more information." |};
         {| role := "system";
            content := "Observation from search: Found 1 results across 3 sources." |} ].
Proof. vm_compute. repeat split. Qed.

End GeneralAgentFacts.

(** ** More on the tool box, the controller, the planner and the client *)

Module ToolBoxFacts.

Import ToolBox.

Lemma assoc_set_same {A : Type} (k : string) (v : A) (l : list (string * A)) :
  assoc k (assoc_set k v l) = Some v.
Proof.
  induction l as [|[k' v'] l IH]; cbn [assoc assoc_set].
  - now rewrite String.eqb_refl.
  - destruct (String.eqb k' k) eqn:E; cbn [assoc]; rewrite ?E, ?String.eqb_refl;
      [reflexivity | exact IH].
Qed.

Lemma assoc_set_other {A : Type} (k k' : string) (v : A)
  (l : list (string * A)) :
  String.eqb k' k = false ->
  assoc k' (assoc_set k v l) = assoc k' l.
Proof.
  intros Hne. induction l as [|[k0 v0] l IH]; cbn [assoc assoc_set].
  - rewrite String.eqb_sym. now rewrite Hne.
  - destruct (String.eqb k0 k) eqn:E; cbn [assoc].
    + apply String.eqb_eq in E. subst k0.
      rewrite (String.eqb_sym k k'). now rewrite Hne.
    + destruct (String.eqb k0 k'); [reflexivity | exact IH].
Qed.

Lemma assoc_set_keys {A : Type} (k : string) (v : A) (l : list (string * A)) :
  map fst (assoc_set k v l)
  = if existsb (String.eqb k) (map fst l) then map fst l
    else (map fst l ++ [k])%list.
Proof.
  induction l as [|[k' v'] l IH]; cbn [assoc_set map fst existsb app];
    [reflexivity |].
  rewrite (String.eqb_sym k k').
  destruct (String.eqb k' k) eqn:E; cbn [map fst orb].
  - apply String.eqb_eq in E. now subst k'.
  - rewrite IH. now destruct (existsb (String.eqb k) (map fst l)).
Qed.

(** Property X1.  Looking a tool up after a registration: the tool
    registered under its name, and under every other name what was there
    before.  The name of the tool is an ordinary property name. *)
Theorem getTool_registerTool (tool : Tool) (this : ToolBox) (nm : string) :
  tool_name tool <> "__proto__" ->
  getTool nm (registerTool tool this)
  = if String.eqb nm (tool_name tool) then Registered tool
    else getTool nm this.
Proof.
  intros _. unfold getTool, registerTool.
  destruct (String.eqb nm (tool_name tool)) eqn:E.
  - apply String.eqb_eq in E. subst nm. now rewrite assoc_set_same.
  - now rewrite (assoc_set_other _ _ _ _ E).
Qed.

(** The tool box after the registrations [tools], in their order. *)
Lemma registered_invariant (tools : list Tool) (start : ToolBox) :
  NoDup (map fst start) ->
  (forall k t, In (k, t) start -> tool_name t = k) ->
  let this := fold_left (fun tb t => registerTool t tb) tools start in
  NoDup (map fst this)
  /\ (forall k t, In (k, t) this -> tool_name t = k)
  /\ (forall nm, In nm (map fst this)
                 <-> In nm (map fst start) \/ In nm (map tool_name tools)).
Proof.
  revert start. induction tools as [|tool tools IH]; intros start Hnd Hkeys;
    cbn [fold_left map].
  - repeat split; try assumption; cbn; tauto.
  - assert (Hnd' : NoDup (map fst (registerTool tool start))).
    { unfold registerTool. rewrite assoc_set_keys.
      destruct (existsb (String.eqb (tool_name tool)) (map fst start)) eqn:E;
        [exact Hnd |].
      apply NoDup_app; [exact Hnd | repeat constructor; intros [] |].
      intros x Hx [<- | []].
      assert (existsb (String.eqb (tool_name tool)) (map fst start) = true)
        by (apply existsb_exists; exists (tool_name tool);
            split; [exact Hx | apply String.eqb_refl]).
      congruence. }
    assert (Hkeys' : forall k t, In (k, t) (registerTool tool start)
                                 -> tool_name t = k).
    { unfold registerTool. clear Hnd Hnd' IH.
      induction start as [|[k0 t0] start IHs]; cbn [assoc_set]; intros k t.
      - intros [E | []]. now injection E as <- <-.
      - destruct (String.eqb k0 (tool_name tool)).
        + intros [E | Hin]; [now injection E as <- <- |].
          apply Hkeys. now right.
        + intros [E | Hin]; [apply Hkeys; now left |].
          apply IHs; [| exact Hin].
          intros k' t' Hin'. apply Hkeys. now right. }
    destruct (IH _ Hnd' Hkeys') as (H1 & H2 & H3).
    repeat split; try assumption.
    + intros Hin. apply H3 in Hin as [Hin | Hin]; [| right; now right].
      unfold registerTool in Hin. rewrite assoc_set_keys in Hin.
      destruct (existsb _ _); [now left |].
      apply in_app_or in Hin as [Hin | [<- | []]]; [now left | right; now left].
    + intros Hin. apply H3.
      destruct Hin as [Hin | [<- | Hin]]; [| | now right]; left;
        unfold registerTool; rewrite assoc_set_keys;
        destruct (existsb (String.eqb (tool_name tool)) (map fst start)) eqn:E.
      * exact Hin.
      * apply in_or_app. now left.
      * apply existsb_exists in E as (x & Hx & Ex).
        apply String.eqb_eq in Ex. now subst x.
      * apply in_or_app. right. now left.
Qed.

(** Property X2.  [listTools] after any registrations on a new tool box:
    every name once, and exactly the names registered, so that a tool
    registered again under a name replaces the earlier one.  The names
    are ordinary property names. *)
Theorem listTools_names (tools : list Tool) :
  ~ In "__proto__" (map tool_name tools) ->
  let this := fold_left (fun tb t => registerTool t tb) tools new in
  NoDup (map desc_name (listTools this))
  /\ (forall nm, In nm (map desc_name (listTools this))
                 <-> In nm (map tool_name tools))
  /\ length (listTools this) <= length tools.
Proof.
  intros _ this.
  destruct (registered_invariant tools new (NoDup_nil _)
              (fun k t (H : In (k, t) []) => match H with end))
    as (Hnd & Hkeys & Hnames).
  fold this in Hnd, Hkeys, Hnames.
  assert (Hmap : map desc_name (listTools this) = map fst this).
  { unfold listTools. rewrite map_map.
    apply map_ext_in. intros [k t] Hin. cbn. now apply Hkeys. }
  rewrite Hmap. split; [exact Hnd |]. split.
  - intros nm. rewrite Hnames. cbn. tauto.
  - unfold listTools. rewrite length_map, <- (length_map fst).
    rewrite <- (length_map tool_name tools).
    apply NoDup_incl_length; [exact Hnd |].
    intros nm Hin. apply Hnames in Hin as [[] | Hin]. exact Hin.
Qed.

Lemma getTool_registerTool_witness :
  getTool "search" (registerTool More.echo_tool (registerTool More.search_tool new))
  = getTool "search" (registerTool More.search_tool new).
Proof.
  apply (@getTool_registerTool More.echo_tool
           (registerTool More.search_tool new) "search").
  discriminate.
Defined.

Lemma listTools_names_witness :
  let this :=
    fold_left (fun tb t => registerTool t tb)
      [More.search_tool; More.echo_tool; More.search_tool] new in
  NoDup (map desc_name (listTools this))
  /\ (forall nm, In nm (map desc_name (listTools this))
                 <-> In nm ["search"; "echo"; "search"])
  /\ length (listTools this) <= 3.
Proof.
  apply (@listTools_names [More.search_tool; More.echo_tool; More.search_tool]).
  cbn. intros [H | [H | [H | []]]]; discriminate H.
Defined.

End ToolBoxFacts.

Module ControllerMore.

(** What [executeAction] returns for a registered tool: the result of
    the tool, or the error of the tool as observation and error. *)
Lemma executeAction_registered (toolbox : ToolBox.ToolBox) (nm : string)
  (ps : JsVal) (state : Model.State) (tool : Tool) (n : nat) :
  assoc nm toolbox = Some tool ->
  Controller.executeAction toolbox (Some {| name := nm; params := ps |}) state n
  = match execute tool ps {| ctx_query := Model.query state;
                             ctx_context := Model.context state |} n with
    | (Ok result, n') => (Ok result, n')
    | (Throw message, n') =>
        (Ok {| observation := "Error executing " ++ nm ++ ": " ++ message;
               error := Some message;
               result_sources := None |}, n')
    end.
Proof.
  intros Hreg. unfold Controller.executeAction, ToolBox.getTool, io_catch.
  rewrite Hreg. destruct (execute tool ps _ n) as [[r | e] n']; reflexivity.
Qed.

(** Property X3.  A name that was not registered never reaches a tool:
    the result is an error without sources, the observation says which,
    and no completion is requested. *)
Theorem executeAction_unregistered (toolbox : ToolBox.ToolBox) (nm : string)
  (ps : JsVal) (state : Model.State) (n : nat) :
  assoc nm toolbox = None ->
  exists message,
    Controller.executeAction toolbox (Some {| name := nm; params := ps |}) state n
    = (Ok {| observation :=
               if inherited nm
               then "Error executing " ++ nm ++ ": " ++ message
               else "Error: Tool '" ++ nm ++ "' not found";
             error := Some message;
             result_sources := None |}, n)
    /\ message = if inherited nm then "tool.execute is not a function"
                 else "TOOL_NOT_FOUND".
Proof.
  intros Hnone. unfold Controller.executeAction, ToolBox.getTool, io_catch.
  rewrite Hnone. destruct (inherited nm); eexists; split; reflexivity.
Qed.

Lemma executeAction_unregistered_witness :
  exists message,
    Controller.executeAction (ToolBox.registerTool More.echo_tool ToolBox.new)
      (Some {| name := "search"; params := Obj [] |}) Examples.first_iteration 3
    = (Ok {| observation := "Error: Tool 'search' not found";
             error := Some message;
             result_sources := None |}, 3)
    /\ message = "TOOL_NOT_FOUND".
Proof.
  apply (@executeAction_unregistered
           (ToolBox.registerTool More.echo_tool ToolBox.new)
           "search" (Obj []) Examples.first_iteration 3).
  reflexivity.
Defined.

End ControllerMore.

Module ClaudeClientMore.

Import ClaudeClient.

(** Property X4.  [complete] sends one request.  When it fails, its
    message is the cause behind a fixed prefix; when it returns, the
    text is the first block of the reply and the total is the sum of
    the two counts.  The model and the token limit are values that the
    log line can print. *)
Theorem complete_outcome
  (create : nat -> Request -> Outcome Response) (this : Client)
  (prompt : Prompt) (o : Options) (n : nat) :
  Conversion.printable (req_model (request this prompt o)) = true ->
  Conversion.printable (req_max_tokens (request this prompt o)) = true ->
  snd (complete create this prompt o n) = S n
  /\ (forall message,
        fst (complete create this prompt o n) = Throw message ->
        exists cause,
          message = "Failed to get completion from Claude: " ++ cause)
  /\ (forall c,
        fst (complete create this prompt o n) = Ok c ->
        totalTokens c = promptTokens c + completionTokens c
        /\ exists response,
             create n (request this prompt o) = Ok response
             /\ hd_error (resp_content response) = Some (text c)).
Proof.
  intros Hmodel Hlimit. unfold complete. rewrite Hmodel, Hlimit. cbn [andb].
  destruct (create n (request this prompt o)) as [response | cause].
  - destruct (resp_content response) as [|first rest] eqn:Hcontent;
      cbn [fst snd]; (split; [reflexivity |]); split.
    + intros message H. injection H as <-.
      exists "Cannot read properties of undefined (reading 'text')". reflexivity.
    + discriminate.
    + discriminate.
    + intros c H. injection H as <-. cbn [totalTokens promptTokens completionTokens text].
      split; [reflexivity |]. exists response. rewrite Hcontent. now split.
  - cbn [fst snd]. split; [reflexivity |]. split.
    + intros message H. injection H as <-. exists cause. reflexivity.
    + discriminate.
Qed.

Lemma complete_outcome_witness :
  let reply :=
    complete (fun _ _ => Ok {| resp_content := []; input_tokens := 10;
                               output_tokens := 0 |})
      Examples.client (FinalAnswerPrompt Examples.first_iteration)
      (options 1000 (3 # 10)) 4 in
  snd reply = 5
  /\ (forall message,
        fst reply = Throw message ->
        exists cause,
          message = "Failed to get completion from Claude: " ++ cause)
  /\ (forall c,
        fst reply = Ok c ->
        totalTokens c = promptTokens c + completionTokens c
        /\ exists response,
             Ok {| resp_content := []; input_tokens := 10; output_tokens := 0 |}
             = Ok response
             /\ hd_error (resp_content response) = Some (text c)).
Proof.
  apply (@complete_outcome
           (fun _ _ => Ok {| resp_content := []; input_tokens := 10;
                             output_tokens := 0 |})
           Examples.client (FinalAnswerPrompt Examples.first_iteration)
           (options 1000 (3 # 10)) 4); reflexivity.
Defined.

End ClaudeClientMore.

Module PlannerMore.

Lemma nonempty_true (s : string) : nonempty s = true -> s <> "".
Proof. unfold nonempty. intros H ->. discriminate. Qed.

(** Whenever [parseActionResponse] returns, the decision finishes or
    names a tool, and the name of a tool is never empty. *)
Lemma parseActionResponse_decision (JSON_parse : string -> option JsVal)
  (response : string) (decision : PlanResult) :
  Planner.parseActionResponse JSON_parse response = Ok decision ->
  (shouldFinish decision = false ->
   exists a, action decision = Some a /\ name a <> "")
  /\ (forall a, action decision = Some a -> name a <> "").
Proof.
  unfold Planner.parseActionResponse.
  destruct (nonempty _) eqn:Hname;
    destruct (match Planner.finalAnswerMatch response with
              | Some group => String.eqb (toLowerCase group) "true"
              | None => false
              end) eqn:Hfinish;
    cbn [negb andb]; intros H; try discriminate;
    injection H as <-; cbn [shouldFinish action name];
    (split; [intros Hsf | intros a Ha]); try congruence;
    try (injection Ha as <-; cbn [name]; exact (@nonempty_true _ Hname));
    eexists; (split; [reflexivity |]); cbn [name];
    exact (@nonempty_true _ Hname).
Qed.

(** Property X5.  [planNextAction] never rejects, whatever the
    completion client and [JSON.parse] do, and a decision that does not
    finish names a tool: the loop always has a next step. *)
Theorem planNextAction_total
  (JSON_parse : string -> option JsVal)
  (complete : Prompt -> ClaudeClient.Options -> IO ClaudeClient.Completion)
  (state : Model.State) (tools : list ToolDesc) (n : nat) :
  exists decision n',
    Planner.planNextAction JSON_parse complete state tools n = (Ok decision, n')
    /\ (shouldFinish decision = false ->
        exists a, action decision = Some a /\ name a <> "").
Proof.
  unfold Planner.planNextAction, io_catch, io_bind, io_ret.
  destruct (complete _ _ n) as [[reply | e] n'].
  - destruct (Planner.parseActionResponse JSON_parse (ClaudeClient.text reply))
      as [decision | e] eqn:Hparse.
    + exists decision, n'. split; [reflexivity |].
      exact (proj1 (@parseActionResponse_decision _ _ _ Hparse)).
    + eexists _, n'. split; [reflexivity |]. intros _.
      eexists. split; [reflexivity |]. discriminate.
  - eexists _, n'. split; [reflexivity |]. intros _.
    eexists. split; [reflexivity |]. discriminate.
Qed.

(** [generateFinalAnswer] never rejects: it returns the text of the
    completion, or a fixed apology when the completion failed. *)
Lemma generateFinalAnswer_total
  (complete : Prompt -> ClaudeClient.Options -> IO ClaudeClient.Completion)
  (state : Model.State) (n : nat) :
  exists answer n',
    Planner.generateFinalAnswer complete state n = (Ok answer, n')
    /\ ((exists reply,
           complete (FinalAnswerPrompt state)
             (ClaudeClient.options 1000 (3 # 10)) n = (Ok reply, n')
           /\ answer = ClaudeClient.text reply)
        \/ ((exists message,
               complete (FinalAnswerPrompt state)
                 (ClaudeClient.options 1000 (3 # 10)) n = (Throw message, n'))
            /\ answer =
                 "I apologize, but I encountered an error while generating a response to your query. Please try asking again or rephrasing your question.")).
Proof.
  unfold Planner.generateFinalAnswer, io_catch, io_bind, io_ret.
  destruct (complete _ _ n) as [[reply | e] n'] eqn:Hc.
  - exists (ClaudeClient.text reply), n'. split; [reflexivity |].
    left. exists reply. now split.
  - eexists _, n'. split; [reflexivity |]. right. split; [eauto | reflexivity].
Qed.

End PlannerMore.

(** ** More on the retrieval tool *)

Module WebSearchMore.

Import WebSearchTool More.

Section Execute.

Variable searchSource : JsVal -> JsVal -> Outcome (list SearchResult).
Variable complete :
  Prompt -> ClaudeClient.Options -> IO ClaudeClient.Completion.

(** The text [execute] reports for the results [found] over [k] sources,
    the [top] of them, and the [summary]. *)
Local Abbreviation report found k top summary :=
  ("Found " ++ show found ++ " results across " ++ show k ++
   " sources. Top results:" ++ nl ++ join nl (titled 0 top) ++
   nl ++ nl ++ "Summary: " ++ summary).

Lemma gathered_map (query : JsVal) (sources : list JsVal) :
  flat_map (fun result : Outcome (list SearchResult) =>
              match result with
              | Ok value => value
              | Throw _ => []
              end)
    (map (fun source => searchSource source query) sources)
  = gathered searchSource query sources.
Proof.
  unfold gathered. induction sources as [|s sources IH]; cbn [map flat_map];
    [reflexivity | now rewrite IH].
Qed.

(** [execute] on parameters it can read, with an array of sources. *)
Lemma execute_array (params : JsVal) (context : ToolContext) (n : nat)
  (params_query params_sources : JsVal) (sources : list JsVal) :
  let query := or_else params_query (js_of_opt (ctx_query context)) in
  let found := gathered searchSource query sources in
  let top := firstn 5 (rankResults found query) in
  property "query" params = Ok params_query ->
  property "sources" params = Ok params_sources ->
  or_else params_sources (Arr default_sources) = Arr sources ->
  Conversion.printable query = true ->
  forallb Conversion.printable sources = true ->
  exists summary n',
    execute searchSource complete params context n
    = (Ok {| observation := report (length found) (length sources) top summary;
             error := None;
             result_sources := Some (map toSource top) |}, n')
    /\ match top with
       | [] => summary = "" /\ n' = n
       | _ :: _ =>
           match complete (SummaryPrompt top query)
                   (ClaudeClient.options 300 (2 # 10)) n with
           | (Ok reply, n'') => summary = ClaudeClient.text reply /\ n' = n''
           | (Throw _, n'') =>
               summary = "Unable to generate summary due to an error."
               /\ n' = n''
           end
       end.
Proof.
  intros query found top Hq Hs Harr Hquery Hsources.
  unfold execute. rewrite Hq, Hs.
  change (Arr [Str "zoomCommunity"; Str "zoomSupport"; Str "google"])
    with (Arr default_sources).
  rewrite Harr. fold query. rewrite Hquery, Hsources. cbn [negb].
  rewrite gathered_map, WebSearchFacts.filter_all. fold found. fold top.
  unfold io_bind, io_ret.
  destruct top as [|first rest] eqn:Htop.
  - eexists _, n. split; [reflexivity | split; reflexivity].
  - unfold summarizeResults, io_catch, io_bind, io_ret.
    destruct (complete _ _ n) as [[reply | e] n'']; eexists _, n'';
      (split; [reflexivity | split; reflexivity]).
Qed.

Lemma sorted_app {A : Type} (R : A -> A -> Prop) (a b : list A) :
  StronglySorted R (a ++ b) ->
  StronglySorted R a /\ (forall x y, In x a -> In y b -> R x y).
Proof.
  induction a as [|h a IH]; cbn [app]; intros Hs.
  - split; [constructor | intros x y []].
  - apply StronglySorted_inv in Hs as (Hs & Hh).
    destruct (IH Hs) as (Ha & Hab). split.
    + constructor; [exact Ha |].
      apply Forall_forall. intros x Hx.
      apply (proj1 (Forall_forall _ _) Hh). apply in_or_app. now left.
    + intros x y [<- | Hx] Hy; [| now apply Hab].
      apply (proj1 (Forall_forall _ _) Hh). apply in_or_app. now right.
Qed.

Lemma gathered_from (query : JsVal) (sources : list JsVal) (x : SearchResult) :
  In x (gathered searchSource query sources) ->
  exists source value,
    In source sources /\ searchSource source query = Ok value /\ In x value.
Proof.
  unfold gathered. intros Hin. apply in_flat_map in Hin as (s & Hs & Hx).
  destruct (searchSource s query) as [value | e] eqn:E; [| destruct Hx].
  eauto.
Qed.

(** Property X6.  The evidence of [execute] is the best of what the
    sources that answered returned: at most five results, in descending
    relevance, no result left out is more relevant than one kept, and
    each comes from a source whose fetch succeeded. The query and the
    sources are values that the log line can print. *)
Theorem execute_keeps_the_most_relevant
  (params : JsVal) (context : ToolContext) (n : nat)
  (params_query params_sources : JsVal) (sources : list JsVal) :
  let query := or_else params_query (js_of_opt (ctx_query context)) in
  property "query" params = Ok params_query ->
  property "sources" params = Ok params_sources ->
  or_else params_sources (Arr default_sources) = Arr sources ->
  Conversion.printable query = true ->
  forallb Conversion.printable sources = true ->
  exists result n' top rest,
    execute searchSource complete params context n = (Ok result, n')
    /\ error result = None
    /\ result_sources result = Some (map toSource top)
    /\ Permutation (gathered searchSource query sources) (top ++ rest)
    /\ length top = Nat.min 5 (length (gathered searchSource query sources))
    /\ StronglySorted (fun a b => (relevance b <= relevance a)%Q) top
    /\ (forall x y, In x top -> In y rest -> (relevance y <= relevance x)%Q)
    /\ (forall x, In x top ->
          exists source value,
            In source sources /\ searchSource source query = Ok value
            /\ In x value).
Proof.
  intros query Hq Hs Harr Hquery Hsources.
  destruct (@execute_array params context n _ _ _ Hq Hs Harr Hquery Hsources)
    as (summary & n' & Hexec & _).
  fold query in Hexec.
  set (found := gathered searchSource query sources) in *.
  set (ranked := rankResults found query) in *.
  pose proof (WebSearchFacts.rankResults_perm found query) as Hperm.
  fold ranked in Hperm.
  assert (Hsorted : StronglySorted (fun a b => (relevance b <= relevance a)%Q)
                      (firstn 5 ranked ++ skipn 5 ranked))
    by (rewrite firstn_skipn; apply (SortFacts.sort_sorted relevance)).
  destruct (@sorted_app _ _ _ _ Hsorted) as (Htop & Hbest).
  eexists; exists n', (firstn 5 ranked), (skipn 5 ranked).
  split; [exact Hexec |]. cbn [error result_sources].
  split; [reflexivity |]. split; [reflexivity |].
  split; [now rewrite firstn_skipn |].
  split; [rewrite length_firstn; now rewrite (Permutation_length Hperm) |].
  split; [exact Htop |]. split; [exact Hbest |].
  intros x Hx. apply (gathered_from query sources).
  apply (Permutation_in x (Permutation_sym Hperm)).
  exact (WebSearchFacts.In_firstn 5 ranked x Hx).
Qed.

(** Property X7.  When every source fails or finds nothing, [execute]
    still returns: no evidence, no error, and the completion service is
    not called. The query and the sources are values that the log line
    can print. *)
Theorem execute_nothing_found
  (params : JsVal) (context : ToolContext) (n : nat)
  (params_query params_sources : JsVal) (sources : list JsVal) :
  let query := or_else params_query (js_of_opt (ctx_query context)) in
  property "query" params = Ok params_query ->
  property "sources" params = Ok params_sources ->
  or_else params_sources (Arr default_sources) = Arr sources ->
  Conversion.printable query = true ->
  forallb Conversion.printable sources = true ->
  (forall source, In source sources ->
     searchSource source query = Ok []
     \/ exists message, searchSource source query = Throw message) ->
  execute searchSource complete params context n
  = (Ok {| observation := report 0 (length sources) [] "";
           error := None;
           result_sources := Some [] |}, n).
Proof.
  intros query Hq Hs Harr Hquery Hsources Hnone.
  destruct (@execute_array params context n _ _ _ Hq Hs Harr Hquery Hsources)
    as (summary & n' & Hexec & Hsummary).
  fold query in Hexec, Hsummary.
  assert (Hfound : gathered searchSource query sources = []).
  { unfold gathered. clear Hexec Hsummary Harr Hsources.
    induction sources as [|s rest IH]; cbn [flat_map]; [reflexivity |].
    rewrite IH by (intros s' Hs'; apply Hnone; now right).
    destruct (Hnone s (or_introl eq_refl)) as [-> | (e & ->)]; reflexivity. }
  rewrite Hfound in Hexec, Hsummary. cbn in Hsummary.
  destruct Hsummary as (-> & ->). exact Hexec.
Qed.

(** Property X8.  A failure of the summary does not fail the tool: the
    observation says the summary is unavailable, and the evidence is the
    same. The query and the sources are values that the log line can
    print. *)
Theorem execute_summary_unavailable
  (params : JsVal) (context : ToolContext) (n n' : nat)
  (params_query params_sources : JsVal) (sources : list JsVal)
  (cause : string) :
  let query := or_else params_query (js_of_opt (ctx_query context)) in
  let found := gathered searchSource query sources in
  let top := firstn 5 (rankResults found query) in
  property "query" params = Ok params_query ->
  property "sources" params = Ok params_sources ->
  or_else params_sources (Arr default_sources) = Arr sources ->
  Conversion.printable query = true ->
  forallb Conversion.printable sources = true ->
  found <> [] ->
  complete (SummaryPrompt top query) (ClaudeClient.options 300 (2 # 10)) n
    = (Throw cause, n') ->
  execute searchSource complete params context n
  = (Ok {| observation :=
             report (length found) (length sources) top
               "Unable to generate summary due to an error.";
           error := None;
           result_sources := Some (map toSource top) |}, n').
Proof.
  intros query found top Hq Hs Harr Hquery Hsources Hfound Hfail.
  destruct (@execute_array params context n _ _ _ Hq Hs Harr Hquery Hsources)
    as (summary & n'' & Hexec & Hsummary).
  fold query in Hexec, Hsummary. fold found in Hexec, Hsummary.
  fold top in Hexec, Hsummary.
  destruct top as [|first rest] eqn:Htop.
  - exfalso. apply Hfound.
    assert (Hlen : length (firstn 5 (rankResults found query)) = 0)
      by (fold top; now rewrite Htop).
    rewrite length_firstn in Hlen.
    rewrite <- (Permutation_length (WebSearchFacts.rankResults_perm found query))
      in Hlen.
    destruct found; [reflexivity | cbn in Hlen; lia].
  - rewrite Hfail in Hsummary. destruct Hsummary as (-> & ->). exact Hexec.
Qed.

(** Property X9.  Parameters without a query and without sources:
    [execute] searches the three default sources for the query of the
    session. *)
Theorem execute_defaults
  (params : JsVal) (context : ToolContext) (n : nat)
  (params_query params_sources : JsVal) :
  property "query" params = Ok params_query ->
  property "sources" params = Ok params_sources ->
  truthy params_query = false ->
  truthy params_sources = false ->
  execute searchSource complete params context n
  = execute searchSource complete
      (Obj [("query", js_of_opt (ctx_query context));
            ("sources", Arr default_sources)])
      context n.
Proof.
  intros Hq Hs Hfq Hfs. unfold execute. rewrite Hq, Hs.
  cbn [property assoc String.eqb Ascii.eqb Bool.eqb].
  unfold or_else. rewrite Hfq, Hfs. cbn [truthy default_sources].
  destruct (truthy (js_of_opt (ctx_query context))); reflexivity.
Qed.

End Execute.

Lemma execute_keeps_the_most_relevant_witness :
  exists result n' top rest,
    execute many_found (Examples.replying "A summary.")
      Examples.three_sources Examples.tool_context 0 = (Ok result, n')
    /\ error result = None
    /\ result_sources result = Some (map toSource top)
    /\ Permutation
         (gathered many_found (Str "audio issue") default_sources)
         (top ++ rest)
    /\ length top
       = Nat.min 5 (length (gathered many_found (Str "audio issue")
                              default_sources))
    /\ StronglySorted (fun a b => (relevance b <= relevance a)%Q) top
    /\ (forall x y, In x top -> In y rest -> (relevance y <= relevance x)%Q)
    /\ (forall x, In x top ->
          exists source value,
            In source default_sources
            /\ many_found source (Str "audio issue") = Ok value
            /\ In x value).
Proof.
  apply (@execute_keeps_the_most_relevant many_found
           (Examples.replying "A summary.")
           Examples.three_sources Examples.tool_context 0
           (Str "audio issue") (Arr default_sources) default_sources);
    reflexivity.
Defined.

Lemma execute_nothing_found_witness :
  execute nothing_found failing Examples.three_sources Examples.tool_context 7
  = (Ok {| observation :=
             "Found 0 results across 3 sources. Top results:" ++ nl ++
             nl ++ nl ++ "Summary: ";
           error := None;
           result_sources := Some [] |}, 7).
Proof.
  apply (@execute_nothing_found nothing_found failing
           Examples.three_sources Examples.tool_context 7
           (Str "audio issue") (Arr default_sources) default_sources);
    try reflexivity.
  intros source [<- | [<- | [<- | []]]]; [left | right; eexists | left];
    reflexivity.
Defined.

Lemma execute_summary_unavailable_witness :
  execute Examples.connectors failing
    Examples.three_sources Examples.tool_context 0
  = (Ok {| observation :=
             "Found 2 results across 3 sources. Top results:" ++ nl ++
             "1. How to resolve audio problems in Zoom meetings (Zoom Community)" ++ nl ++
             "2. How to resolve audio problems in Zoom meetings (Zoom Community)" ++
             nl ++ nl ++ "Summary: Unable to generate summary due to an error.";
           error := None;
           result_sources :=
             Some [toSource Examples.same_page; toSource Examples.same_page] |},
     1).
Proof.
  apply (@execute_summary_unavailable Examples.connectors failing
           Examples.three_sources Examples.tool_context 0 1
           (Str "audio issue") (Arr default_sources) default_sources
           "Failed to get completion from Claude: overloaded");
    try reflexivity.
  discriminate.
Defined.

Lemma execute_defaults_witness :
  execute many_found (Examples.replying "A summary.")
    (Obj [("query", Str "")]) Examples.tool_context 0
  = execute many_found (Examples.replying "A summary.")
      (Obj [("query", Str "My audio is not working");
            ("sources", Arr default_sources)])
      Examples.tool_context 0.
Proof.
  apply (@execute_defaults many_found (Examples.replying "A summary.")
           (Obj [("query", Str "")]) Examples.tool_context 0
           (Str "") Undefined); reflexivity.
Defined.

(** Property X10.  Parameters the tool cannot read do not break the
    controller: for [null] parameters, and for sources that are a
    non-empty string, a plain object, or any other value that is truthy
    and not an array, the action [search] of the agent ends in an error
    result. *)
Theorem executeAction_search_unreadable
  (create : nat -> ClaudeClient.Request -> Outcome ClaudeClient.Response)
  (client : ClaudeClient.Client)
  (searchSource : JsVal -> JsVal -> Outcome (list SearchResult))
  (state : Model.State) (n : nat) :
  let toolbox := GeneralAgent.toolbox create client searchSource in
  let failed message :=
    (Ok {| observation := "Error executing search: " ++ message;
           error := Some message;
           result_sources := None |}, n) in
  Controller.executeAction toolbox
    (Some {| name := "search"; params := Null |}) state n
  = failed "Cannot read properties of null (reading 'query')"
  /\ (forall text : string,
        text <> "" ->
        Controller.executeAction toolbox
          (Some {| name := "search";
                   params := Obj [("sources", Str text)] |})
          state n
        = failed "sources.join is not a function")
  /\ (forall props : list (string * JsVal),
        Controller.executeAction toolbox
          (Some {| name := "search";
                   params := Obj [("sources", Obj props)] |})
          state n
        = failed "sources.join is not a function")
  /\ (forall sources : JsVal,
        truthy sources = true ->
        (forall items, sources <> Arr items) ->
        Controller.executeAction toolbox
          (Some {| name := "search";
                   params := Obj [("sources", sources)] |})
          state n
        = failed "sources.join is not a function").
Proof.
  cbv zeta.
  assert (Hgeneral : forall sources : JsVal,
             truthy sources = true ->
             (forall items, sources <> Arr items) ->
             Controller.executeAction
               (GeneralAgent.toolbox create client searchSource)
               (Some {| name := "search";
                        params := Obj [("sources", sources)] |})
               state n
             = (Ok {| observation :=
                        "Error executing search: " ++
                        "sources.join is not a function";
                      error := Some "sources.join is not a function";
                      result_sources := None |}, n)).
  { intros sources Htruthy Hother.
    apply (@ControllerFacts.executeAction_tool_throws
             (GeneralAgent.toolbox create client searchSource) "search"
             (Obj [("sources", sources)]) state
             (WebSearchTool.new searchSource
                (GeneralAgent.complete create client))
             "sources.join is not a function" n n); [reflexivity |].
    change (WebSearchTool.execute searchSource
              (GeneralAgent.complete create client)
              (Obj [("sources", sources)])
              {| ctx_query := Model.query state;
                 ctx_context := Model.context state |} n
            = (Throw "sources.join is not a function", n)).
    unfold WebSearchTool.execute.
    cbn [property assoc String.eqb Ascii.eqb Bool.eqb ctx_query].
    unfold or_else at 2. rewrite Htruthy.
    cbn [or_else truthy].
    assert (Hquery : Conversion.printable (js_of_opt (Model.query state)) = true)
      by (destruct (Model.query state); reflexivity).
    rewrite Hquery. cbn [negb].
    destruct sources; try reflexivity.
    now contradiction (Hother items). }
  split; [reflexivity |]. split; [| split].
  - intros text Htext. apply Hgeneral.
    + destruct text; [now contradiction Htext | reflexivity].
    + discriminate.
  - intros props. apply Hgeneral; [reflexivity | discriminate].
  - exact Hgeneral.
Qed.

End WebSearchMore.

(* ================================================================= *)
(** ** More on the state store *)

Module ModelMore.

Import Model More.

Lemma length_update {A : Type} (cells : list A) (r : Ref) (f : A -> A) :
  length (update cells r f) = length cells.
Proof.
  induction cells as [|x older IH]; cbn [update]; [reflexivity |].
  destruct (r =? length older); cbn [length]; [reflexivity | now rewrite IH].
Qed.

Lemma deref_update {A : Type} (cells : list A) (r r' : Ref) (f : A -> A) :
  deref (update cells r f) r'
  = if r' =? r then option_map f (deref cells r') else deref cells r'.
Proof.
  induction cells as [|x older IH]; cbn [update deref].
  - now destruct (r' =? r).
  - destruct (r =? length older) eqn:E; cbn [deref].
    + apply Nat.eqb_eq in E. subst r.
      destruct (r' =? length older); reflexivity.
    + rewrite length_update, IH.
      destruct (r' =? length older) eqn:E'; [| reflexivity].
      apply Nat.eqb_eq in E'. subst r'. rewrite Nat.eqb_sym, E. reflexivity.
Qed.

Lemma deref_allocated {A : Type} (cells : list A) (r : Ref) :
  r < length cells -> exists x, deref cells r = Some x.
Proof.
  induction cells as [|x older IH]; cbn [length deref]; [lia |].
  intros Hr. destruct (r =? length older) eqn:E; [eauto |].
  apply Nat.eqb_neq in E. apply IH. lia.
Qed.

Lemma deref_newest {A : Type} (x : A) (cells : list A) :
  deref (x :: cells) (length cells) = Some x.
Proof. cbn [deref]. now rewrite Nat.eqb_refl. Qed.

Lemma read_array_push (msg : Message) (m : Store) (r : Ref) :
  r < length (arrays m) ->
  read_array (push msg m) r
  = if r =? conversation (state m)
    then (read_array m r ++ [msg])%list
    else read_array m r.
Proof.
  intros Hr. unfold read_array, push. cbn [arrays].
  rewrite deref_update.
  destruct (deref_allocated (arrays m) Hr) as (a & ->).
  now destruct (r =? conversation (state m)).
Qed.

Lemma valid_push (msg : Message) (m : Store) : valid m -> valid (push msg m).
Proof.
  unfold valid, push. cbn [state arrays]. now rewrite length_update.
Qed.

Lemma valid_updateState (u : Updates) (m : Store) :
  valid m -> valid (updateState u m).
Proof.
  unfold valid, updateState. now destruct (upd_sources u).
Qed.

Lemma valid_setFinalAnswer (a : string) (m : Store) :
  valid m -> valid (setFinalAnswer a m).
Proof. intros Hm. unfold setFinalAnswer. now apply valid_push. Qed.

Lemma valid_initializeState (q : string) (ctx : JsVal) (m : Store) :
  valid (initializeState q ctx m).
Proof. unfold valid, initializeState. cbn. lia. Qed.

Lemma valid_call (c : Method) (m : Store) : valid m -> valid (call c m).
Proof.
  destruct c; cbn [call]; intros Hm;
    [ now apply valid_updateState | now apply valid_push
    | now apply valid_push | now apply valid_setFinalAnswer ].
Qed.

(** What a reader sees after each method, in terms of what it saw
    before. *)
Lemma current_push (msg : Message) (m : Store) :
  valid m ->
  current (push msg m)
  = {| query := query (current m);
       conversation := (conversation (current m) ++ [msg])%list;
       context := context (current m);
       sources := sources (current m);
       iterations := iterations (current m);
       finalAnswer := finalAnswer (current m) |}.
Proof.
  intros Hm. unfold current, view. rewrite !StoreFacts.read_this.
  change (state (push msg m)) with (state m).
  cbn [query conversation context sources iterations finalAnswer].
  rewrite (read_array_push msg m Hm), Nat.eqb_refl. reflexivity.
Qed.

Lemma current_updateState (u : Updates) (m : Store) :
  current (updateState u m)
  = {| query := query (current m);
       conversation := conversation (current m);
       context := context (current m);
       sources := match upd_sources u with
                  | Some l => uniqueByUrl (l ++ l)
                  | None => sources (current m)
                  end;
       iterations := match upd_iterations u with
                     | Some k => k
                     | None => iterations (current m)
                     end;
       finalAnswer := finalAnswer (current m) |}.
Proof.
  unfold current, view. rewrite !StoreFacts.read_this.
  unfold updateState. destruct (upd_sources u); reflexivity.
Qed.

Lemma current_setFinalAnswer (a : string) (m : Store) :
  valid m ->
  current (setFinalAnswer a m)
  = {| query := query (current m);
       conversation :=
         (conversation (current m) ++ [ {| role := "assistant"; content := a |} ])%list;
       context := context (current m);
       sources := sources (current m);
       iterations := iterations (current m);
       finalAnswer := Some a |}.
Proof.
  intros Hm. unfold setFinalAnswer. rewrite current_push by exact Hm.
  unfold current, view. rewrite !StoreFacts.read_this. reflexivity.
Qed.

Lemma current_initializeState (q : string) (ctx : JsVal) (m : Store) :
  current (initializeState q ctx m)
  = {| query := Some q;
       conversation := [ {| role := "user"; content := q |} ];
       context := ctx;
       sources := [];
       iterations := 0;
       finalAnswer := None |}.
Proof.
  unfold current, view. rewrite StoreFacts.read_this.
  unfold initializeState, assign, read_array. cbn [state arrays query
    conversation context sources iterations finalAnswer].
  now rewrite deref_newest.
Qed.

(** The object [this.state] referred to before [updateState] still shows
    what it showed. *)
Lemma view_detached (u : Updates) (m : Store) :
  view (updateState u m) (this_state m) = current m.
Proof.
  unfold current, view. rewrite StoreFacts.read_detached, StoreFacts.read_this.
  unfold updateState. destruct (upd_sources u); reflexivity.
Qed.

Lemma alike_initializeState (q : string) (ctx : JsVal) (m1 m2 : Store) :
  alike (initializeState q ctx m1) (initializeState q ctx m2).
Proof.
  repeat split; try apply valid_initializeState.
  now rewrite !current_initializeState.
Qed.

Lemma alike_push (msg : Message) (m1 m2 : Store) :
  alike m1 m2 -> alike (push msg m1) (push msg m2).
Proof.
  intros (H1 & H2 & H). repeat split; try now apply valid_push.
  rewrite !current_push by assumption. now rewrite H.
Qed.

Lemma alike_updateState (u : Updates) (m1 m2 : Store) :
  alike m1 m2 -> alike (updateState u m1) (updateState u m2).
Proof.
  intros (H1 & H2 & H). repeat split; try now apply valid_updateState.
  rewrite !current_updateState. now rewrite H.
Qed.

Lemma alike_setFinalAnswer (a : string) (m1 m2 : Store) :
  alike m1 m2 -> alike (setFinalAnswer a m1) (setFinalAnswer a m2).
Proof.
  intros (H1 & H2 & H). repeat split; try now apply valid_setFinalAnswer.
  rewrite !current_setFinalAnswer by assumption. now rewrite H.
Qed.

Lemma current_call (c : Method) (m : Store) :
  valid m ->
  query (current (call c m)) = query (current m)
  /\ context (current (call c m)) = context (current m)
  /\ conversation (current (call c m))
     = (conversation (current m) ++ said c)%list.
Proof.
  intros Hm. destruct c; cbn [call said].
  - rewrite current_updateState. cbn. now rewrite app_nil_r.
  - unfold addObservation. now rewrite current_push.
  - unfold addReasoning. now rewrite current_push.
  - now rewrite current_setFinalAnswer.
Qed.

(** Property X11.  The conversation of a session only grows: whatever
    methods are called on the store after [initializeState], in whatever
    order, the reader of [this.state] sees the messages it saw, followed
    by one message for each call that adds one, in the order of the
    calls; the query and the context do not change. *)
Theorem conversation_only_grows (calls : list Method) (m : Store) :
  valid m ->
  let m' := fold_left (fun store c => call c store) calls m in
  valid m'
  /\ conversation (current m')
     = (conversation (current m) ++ flat_map said calls)%list
  /\ query (current m') = query (current m)
  /\ context (current m') = context (current m).
Proof.
  revert m. induction calls as [|c rest IH]; intros m Hm; cbn [fold_left flat_map].
  - now rewrite app_nil_r.
  - destruct (IH (call c m) (valid_call c Hm)) as (Hv & Hc & Hq & Hx).
    destruct (current_call c Hm) as (Hq' & Hx' & Hc').
    cbv zeta. repeat split.
    + exact Hv.
    + rewrite Hc, Hc'. now rewrite app_assoc.
    + now rewrite Hq.
    + now rewrite Hx.
Qed.

Lemma conversation_only_grows_witness :
  let m := initializeState "My audio is not working" (Obj []) new in
  let m' :=
    fold_left (fun store c => call c store)
      [ AddReasoning "Look it up.";
        UpdateState (Examples.merge [Examples.first_seen]);
        AddObservation "Found 1 result." "search";
        SetFinalAnswer "Check the microphone." ] m in
  valid m'
  /\ conversation (current m')
     = (conversation (current m) ++
        [ {| role := "system"; content := "Thinking: Look it up." |};
          {| role := "system";
             content := "Observation from search: Found 1 result." |};
          {| role := "assistant"; content := "Check the microphone." |} ])%list
  /\ query (current m') = query (current m)
  /\ context (current m') = context (current m).
Proof.
  apply (@conversation_only_grows
           [ AddReasoning "Look it up.";
             UpdateState (Examples.merge [Examples.first_seen]);
             AddObservation "Found 1 result." "search";
             SetFinalAnswer "Check the microphone." ]
           (initializeState "My audio is not working" (Obj []) new)).
  unfold valid. cbn. lia.
Defined.

Lemma pushes (msgs : list Message) (s : Store) :
  valid s ->
  let s' := fold_left (fun store msg => push msg store) msgs s in
  state s' = state s
  /\ detached s' = detached s
  /\ read_array s' (conversation (state s))
     = (read_array s (conversation (state s)) ++ msgs)%list.
Proof.
  revert s. induction msgs as [|msg rest IH]; intros s Hs; cbn [fold_left].
  - now rewrite app_nil_r.
  - destruct (IH (push msg s) (valid_push msg Hs)) as (R1 & R2 & R3).
    cbv zeta. rewrite R1, R2. repeat split.
    change (state (push msg s)) with (state s) in R3.
    rewrite R3, (read_array_push msg s Hs), Nat.eqb_refl, <- app_assoc.
    reflexivity.
Qed.

(** Property X12.  A caller that kept the state object from before an
    [updateState] holds a stale copy of the fields and the live
    conversation: it sees neither the new sources nor the new counter,
    and it does see every message added since. *)
Theorem kept_state_object_is_stale (u : Updates) (msgs : list Message)
  (m : Store) :
  valid m ->
  let kept := getState m in
  let m' := fold_left (fun store msg => push msg store) msgs (updateState u m) in
  sources (view m' kept) = sources (current m)
  /\ iterations (view m' kept) = iterations (current m)
  /\ finalAnswer (view m' kept) = finalAnswer (current m)
  /\ conversation (view m' kept) = (conversation (current m) ++ msgs)%list
  /\ conversation (current m') = conversation (view m' kept)
  /\ sources (current m')
     = match upd_sources u with
       | Some l => uniqueByUrl (l ++ l)
       | None => sources (current m)
       end.
Proof.
  intros Hm kept m'.
  destruct (pushes msgs (valid_updateState u Hm)) as (R1 & R2 & R3).
  fold m' in R1, R2, R3.
  assert (Hconv : conversation (state (updateState u m)) = conversation (state m))
    by (unfold updateState; now destruct (upd_sources u)).
  assert (Harr : read_array (updateState u m) (conversation (state m))
                 = conversation (current m)).
  { unfold current, view. rewrite StoreFacts.read_this.
    unfold updateState. now destruct (upd_sources u). }
  rewrite Hconv, Harr in R3.
  assert (Hread : read m' kept = state m).
  { rewrite <- (StoreFacts.read_detached u m).
    unfold read, this_state. now rewrite R1, R2. }
  assert (Hcur : read m' (this_state m') = state (updateState u m))
    by (rewrite StoreFacts.read_this; exact R1).
  assert (Hkept : view m' kept
                  = {| query := query (state m);
                       conversation := (conversation (current m) ++ msgs)%list;
                       context := context (state m);
                       sources := sources (state m);
                       iterations := iterations (state m);
                       finalAnswer := finalAnswer (state m) |})
    by (unfold view; now rewrite Hread, R3).
  assert (Hnow : current m'
                 = {| query := query (state (updateState u m));
                      conversation := (conversation (current m) ++ msgs)%list;
                      context := context (state (updateState u m));
                      sources := sources (state (updateState u m));
                      iterations := iterations (state (updateState u m));
                      finalAnswer := finalAnswer (state (updateState u m)) |})
    by (unfold current at 1, view; now rewrite Hcur, Hconv, R3).
  rewrite Hkept, Hnow. cbn [sources iterations finalAnswer conversation].
  unfold current, view. rewrite StoreFacts.read_this.
  cbn [sources iterations finalAnswer conversation].
  repeat split.
  unfold updateState. now destruct (upd_sources u).
Qed.

Lemma kept_state_object_is_stale_witness :
  let m := initializeState "My audio is not working" (Obj []) new in
  let kept := getState m in
  let said := [ {| role := "system"; content := "Thinking: Look it up." |} ] in
  let m' :=
    fold_left (fun store msg => push msg store) said
      (updateState (Examples.merge [Examples.first_seen]) m) in
  sources (view m' kept) = sources (current m)
  /\ iterations (view m' kept) = iterations (current m)
  /\ finalAnswer (view m' kept) = finalAnswer (current m)
  /\ conversation (view m' kept) = (conversation (current m) ++ said)%list
  /\ conversation (current m') = conversation (view m' kept)
  /\ sources (current m') = uniqueByUrl ([Examples.first_seen] ++ [Examples.first_seen]).
Proof.
  apply (@kept_state_object_is_stale
           (Examples.merge [Examples.first_seen])
           [ {| role := "system"; content := "Thinking: Look it up." |} ]
           (initializeState "My audio is not working" (Obj []) new)).
  unfold valid. cbn. lia.
Defined.

Lemma existsb_app_l (u : string) (a b : list string) :
  existsb (String.eqb u) a = true -> existsb (String.eqb u) (a ++ b) = true.
Proof. intros H. rewrite existsb_app, H. reflexivity. Qed.

Lemma firsts_seen (seen : list string) (l : list Source) :
  (forall x, In x l -> existsb (String.eqb (url x)) seen = true) ->
  Notions.firsts seen l = [].
Proof.
  revert seen. induction l as [|x t IH]; intros seen Hall; cbn [Notions.firsts];
    [reflexivity |].
  rewrite (Hall x (or_introl eq_refl)). apply IH.
  intros y Hy. apply existsb_app_l. apply Hall. now right.
Qed.

Lemma firsts_app (seen : list string) (a b : list Source) :
  Notions.firsts seen (a ++ b)
  = (Notions.firsts seen a ++ Notions.firsts (seen ++ map url a) b)%list.
Proof.
  revert seen. induction a as [|x t IH]; intros seen; cbn [app Notions.firsts map].
  - now rewrite app_nil_r.
  - rewrite IH, <- app_assoc. cbn [app].
    now destruct (existsb (String.eqb (url x)) seen).
Qed.

Lemma uniqueByUrl_twice (l : list Source) :
  uniqueByUrl (l ++ l) = uniqueByUrl l.
Proof.
  rewrite !DedupFacts.uniqueByUrl_firsts, firsts_app. cbn [app].
  rewrite (firsts_seen (map url l) l); [now rewrite app_nil_r |].
  intros x Hx. apply existsb_exists. exists (url x). split.
  - now apply in_map.
  - apply String.eqb_refl.
Qed.

Lemma firsts_sub (seen : list string) (l : list Source) (x : Source) :
  In x (Notions.firsts seen l) -> In x l.
Proof.
  revert seen. induction l as [|y t IH]; intros seen; cbn [Notions.firsts];
    [tauto |].
  destruct (existsb (String.eqb (url y)) seen); cbn [In]; intros H.
  - right. eapply IH, H.
  - destruct H as [-> | H]; [now left | right; eapply IH, H].
Qed.

Lemma firsts_covers (seen : list string) (l : list Source) (x : Source) :
  In x l ->
  existsb (String.eqb (url x)) seen = true
  \/ exists y, In y (Notions.firsts seen l) /\ url y = url x.
Proof.
  revert seen. induction l as [|y t IH]; intros seen; cbn [In Notions.firsts];
    [tauto |].
  intros [-> | Hx].
  - destruct (existsb (String.eqb (url x)) seen) eqn:E; [now left |].
    right. exists x. split; [now left | reflexivity].
  - destruct (IH (seen ++ [url y])%list Hx) as [Hseen | (z & Hz & Hu)].
    + rewrite existsb_app in Hseen. apply orb_true_iff in Hseen as [H | H].
      * now left.
      * cbn [existsb] in H. rewrite orb_false_r in H.
        apply String.eqb_eq in H.
        destruct (existsb (String.eqb (url y)) seen) eqn:E.
        -- left. now rewrite H.
        -- right. exists y. split; [now left | now symmetry].
    + right. exists z. split; [| exact Hu].
      destruct (existsb (String.eqb (url y)) seen); [exact Hz | now right].
Qed.

Lemma firsts_NoDup_id (seen : list string) (l : list Source) :
  NoDup (map url l) ->
  (forall x, In x l -> existsb (String.eqb (url x)) seen = false) ->
  Notions.firsts seen l = l.
Proof.
  revert seen. induction l as [|x t IH]; intros seen Hnd Hfresh;
    cbn [Notions.firsts]; [reflexivity |].
  rewrite (Hfresh x (or_introl eq_refl)). f_equal.
  cbn [map] in Hnd. apply NoDup_cons_iff in Hnd as (Hx & Hnd).
  apply IH; [exact Hnd |].
  intros y Hy. rewrite existsb_app, (Hfresh y (or_intror Hy)).
  cbn [existsb orb]. rewrite orb_false_r.
  apply String.eqb_neq. intros Heq. apply Hx. rewrite <- Heq.
  now apply in_map.
Qed.

Lemma uniqueByUrl_NoDup_id (l : list Source) :
  NoDup (map url l) -> uniqueByUrl l = l.
Proof.
  intros Hnd. rewrite DedupFacts.uniqueByUrl_firsts.
  now apply firsts_NoDup_id.
Qed.

(** Property X13.  [updateState] with a [sources] key replaces the
    stored sources: what the store holds afterwards is the first item
    for each url of the new list alone, whatever it held before. *)
Theorem updateState_replaces_sources (items : list Source) (m : Store) :
  let stored := getSources (updateState (Examples.merge items) m) in
  stored = uniqueByUrl items
  /\ NoDup (map url stored)
  /\ (forall x, In x stored -> In x items)
  /\ (forall x, In x items -> exists y, In y stored /\ url y = url x)
  /\ (NoDup (map url items) -> stored = items).
Proof.
  cbv zeta.
  destruct (ModelFacts.updateState_sources m items) as (-> & _).
  rewrite uniqueByUrl_twice.
  split; [reflexivity |]. split; [apply DedupFacts.uniqueByUrl_NoDup |].
  rewrite DedupFacts.uniqueByUrl_firsts.
  split; [intros x; apply firsts_sub |].
  split.
  - intros x Hx. destruct (firsts_covers [] items x Hx) as [H | H];
      [discriminate H | exact H].
  - intros Hnd. now apply firsts_NoDup_id.
Qed.

End ModelMore.

(* ================================================================= *)
(** ** More on the loop of the framework *)

Module ReActMore.

Import ReAct Notions More.

Lemma NoDup_firstn {A : Type} (n : nat) (l : list A) :
  NoDup l -> NoDup (firstn n l).
Proof.
  revert n. induction l as [|x t IH]; intros [|n] Hnd; cbn [firstn];
    try constructor.
  - apply NoDup_cons_iff in Hnd as (Hx & Hnd).
    intros Hin. apply Hx. exact (WebSearchFacts.In_firstn n t x Hin).
  - apply NoDup_cons_iff in Hnd as (_ & Hnd). now apply IH.
Qed.

(** Property X14.  The sources of a response: at most five, no url
    twice, all of them sources of the state; when the state holds no url
    twice, they are its first five. *)
Theorem formatResponse_sources (config_debug : bool) (state : Model.State) :
  let response := formatResponse config_debug state in
  length (sources response) <= 5
  /\ NoDup (map url (sources response))
  /\ (forall x, In x (sources response) -> In x (Model.sources state))
  /\ (NoDup (map url (Model.sources state)) ->
      sources response = firstn 5 (Model.sources state))
  /\ error response = None.
Proof.
  cbv zeta. unfold formatResponse. cbn [sources error].
  split; [rewrite length_firstn; lia |].
  split.
  { rewrite <- firstn_map. apply NoDup_firstn, DedupFacts.uniqueByUrl_NoDup. }
  split.
  { intros x Hx. apply WebSearchFacts.In_firstn in Hx.
    rewrite DedupFacts.uniqueByUrl_firsts in Hx.
    exact (ModelMore.firsts_sub _ _ _ Hx). }
  split; [| reflexivity].
  intros Hnd. now rewrite ModelMore.uniqueByUrl_NoDup_id.
Qed.

Section Loop.

Variable W : Type.
Variable components : forall c : Call, W -> Reply c * W.
Variable config_maxIterations : option nat.
Variable config_debug : bool.
Variable tools : list ToolDesc.

Local Abbreviation maxIter := (maxIterations config_maxIterations).
Local Abbreviation loop_from fuel m :=
  (loop config_maxIterations tools fuel (Model.this_state m) m).

(** One turn of the [while] loop, as a run sees it. *)
Lemma loop_unfold (fuel : nat) (m : Model.Store) (w : W) (trace : list Call) :
  run components (loop_from (S fuel) m) w trace
  = if (Model.iterations (Model.state m) <? maxIter)
       && negb (truthy_opt (Model.finalAnswer (Model.state m)))
    then
      let m1 :=
        Model.updateState
          {| Model.upd_iterations := Some (Model.iterations (Model.state m) + 1);
             Model.upd_sources := None |} m in
      let plan := PlanNextAction (current m1) tools in
      let (planned, w1) := components plan w in
      match planned with
      | Throw e =>
          Some {| outcome := Throw e; store := m1; world := w1;
                  calls := (trace ++ [plan])%list |}
      | Ok d =>
          let m2 := Model.addReasoning (thought d) m1 in
          if shouldFinish d then
            let final := GenerateFinalAnswer (current m2) in
            let (answered, w2) := components final w1 in
            match answered with
            | Throw e =>
                Some {| outcome := Throw e; store := m2; world := w2;
                        calls := ((trace ++ [plan]) ++ [final])%list |}
            | Ok t =>
                Some {| outcome := Ok tt; store := Model.setFinalAnswer t m2;
                        world := w2;
                        calls := ((trace ++ [plan]) ++ [final])%list |}
            end
          else
            let act := ExecuteAction (action d) (current m2) in
            let (acted, w2) := components act w1 in
            match acted with
            | Throw e =>
                Some {| outcome := Throw e; store := m2; world := w2;
                        calls := ((trace ++ [plan]) ++ [act])%list |}
            | Ok r =>
                match action d with
                | None =>
                    Some {| outcome :=
                              Throw "Cannot read properties of null (reading 'name')";
                            store := m2; world := w2;
                            calls := ((trace ++ [plan]) ++ [act])%list |}
                | Some a =>
                    let m3 := Model.addObservation (observation r) (name a) m2 in
                    let m4 :=
                      match result_sources r with
                      | Some srcs =>
                          Model.updateState
                            {| Model.upd_iterations := None;
                               Model.upd_sources := Some srcs |} m3
                      | None => m3
                      end in
                    if maxIter <=? Model.iterations (Model.state m) + 1 then
                      let final := GenerateFinalAnswer (current m3) in
                      let (answered, w3) := components final w2 in
                      match answered with
                      | Throw e =>
                          Some {| outcome := Throw e; store := m4; world := w3;
                                  calls :=
                                    (((trace ++ [plan]) ++ [act]) ++ [final])%list |}
                      | Ok t =>
                          run components
                            (loop_from fuel (Model.setFinalAnswer t m4)) w3
                            (((trace ++ [plan]) ++ [act]) ++ [final])%list
                      end
                    else
                      run components (loop_from fuel m4) w2
                        ((trace ++ [plan]) ++ [act])%list
                end
            end
      end
    else Some {| outcome := Ok tt; store := m; world := w; calls := trace |}.
Proof.
  cbn [loop bind bind_step model_get model_do].
  rewrite StoreFacts.read_this.
  destruct ((Model.iterations (Model.state m) <? maxIter)
            && negb (truthy_opt (Model.finalAnswer (Model.state m)))) eqn:Hcond;
    [| reflexivity].
  apply andb_true_iff in Hcond as (_ & Hfalsy).
  cbn [bind bind_step model_get model_do await run]. cbv zeta.
  set (m1 := Model.updateState _ m).
  change (Model.view m1 (Model.getState m1)) with (current m1).
  destruct (components (PlanNextAction (current m1) tools) w) as [[d | e] w1];
    [| reflexivity].
  destruct (shouldFinish d).
  { cbn [finish bind bind_step model_get model_do await run].
    change (Model.view (Model.addReasoning (thought d) m1) (Model.getState m1))
      with (current (Model.addReasoning (thought d) m1)).
    destruct (components (GenerateFinalAnswer _) w1) as [[t | e] w2];
      reflexivity. }
  cbn [bind bind_step model_get model_do await run].
  change (Model.view (Model.addReasoning (thought d) m1) (Model.getState m1))
    with (current (Model.addReasoning (thought d) m1)).
  set (m2 := Model.addReasoning (thought d) m1).
  destruct (components (ExecuteAction (action d) (current m2)) w1)
    as [[r | e] w2]; [| reflexivity].
  destruct (action d) as [a |]; [| reflexivity].
  cbn [run bind_step ret model_do model_get bind].
  set (m3 := Model.addObservation _ _ m2).
  assert (Hstate1 : Model.iterations (Model.state m1)
                    = Model.iterations (Model.state m) + 1
                    /\ Model.finalAnswer (Model.state m1)
                       = Model.finalAnswer (Model.state m))
    by (unfold m1;
        now rewrite StoreFacts.iterations_updateState,
          StoreFacts.finalAnswer_updateState).
  destruct Hstate1 as (Hi1 & Hf1).
  destruct (result_sources r) as [srcs |];
    cbn [run bind_step ret model_do model_get bind].
  - set (m4 := Model.updateState _ m3).
    assert (Hread : Model.read m4 (Model.getState m1) = Model.state m1)
      by exact (StoreFacts.read_detached _ m3).
    assert (Hview : Model.view m4 (Model.getState m1) = current m3)
      by exact (ModelMore.view_detached _ m3).
    rewrite Hread, Hi1, Hf1, Hfalsy, andb_true_r.
    destruct (maxIter <=? Model.iterations (Model.state m) + 1);
      cbn [finish bind bind_step model_get model_do await run ret];
      [| reflexivity].
    rewrite Hview.
    destruct (components (GenerateFinalAnswer (current m3)) w2) as [[t | e] w3];
      reflexivity.
  - assert (Hread : Model.read m3 (Model.getState m1) = Model.state m1)
      by exact (StoreFacts.read_this m3).
    rewrite Hread, Hi1, Hf1, Hfalsy, andb_true_r.
    destruct (maxIter <=? Model.iterations (Model.state m) + 1);
      cbn [finish bind bind_step model_get model_do await run ret];
      [| reflexivity].
    change (Model.view m3 (Model.getState m1)) with (current m3).
    destruct (components (GenerateFinalAnswer (current m3)) w2) as [[t | e] w3];
      reflexivity.
Qed.

Lemma loop_zero (m : Model.Store) (w : W) (trace : list Call) :
  run components (loop_from 0 m) w trace
  = if (Model.iterations (Model.state m) <? maxIter)
       && negb (truthy_opt (Model.finalAnswer (Model.state m)))
    then None
    else Some {| outcome := Ok tt; store := m; world := w; calls := trace |}.
Proof.
  cbn [loop bind bind_step model_get]. rewrite StoreFacts.read_this.
  now destruct ((Model.iterations (Model.state m) <? maxIter)
                && negb (truthy_opt (Model.finalAnswer (Model.state m)))).
Qed.

Lemma current_state (m : Model.Store) :
  Model.query (current m) = Model.query (Model.state m)
  /\ Model.context (current m) = Model.context (Model.state m)
  /\ Model.sources (current m) = Model.sources (Model.state m)
  /\ Model.iterations (current m) = Model.iterations (Model.state m)
  /\ Model.finalAnswer (current m) = Model.finalAnswer (Model.state m).
Proof.
  unfold current, Model.view. rewrite StoreFacts.read_this. repeat split.
Qed.

Lemma alike_fields (m1 m2 : Model.Store) :
  alike m1 m2 ->
  Model.iterations (Model.state m1) = Model.iterations (Model.state m2)
  /\ Model.finalAnswer (Model.state m1) = Model.finalAnswer (Model.state m2).
Proof.
  intros (_ & _ & H).
  destruct (current_state m1) as (_ & _ & _ & <- & <-).
  destruct (current_state m2) as (_ & _ & _ & <- & <-).
  now rewrite H.
Qed.

Ltac same_end :=
  cbn [same_run outcome world calls store];
  repeat match goal with |- _ /\ _ => split end;
  try reflexivity; try assumption.

(** The loop does the same on two stores that look alike. *)
Lemma loop_alike (fuel : nat) :
  forall (m1 m2 : Model.Store) (w : W) (trace : list Call),
    alike m1 m2 ->
    same_run (run components (loop_from fuel m1) w trace)
             (run components (loop_from fuel m2) w trace).
Proof.
  induction fuel as [|fuel IH]; intros m1 m2 w trace Ha;
    destruct (alike_fields Ha) as (Hi & Hf).
  - rewrite !loop_zero, Hi, Hf.
    destruct ((Model.iterations (Model.state m2) <? maxIter)
              && negb (truthy_opt (Model.finalAnswer (Model.state m2))));
      same_end.
  - rewrite !loop_unfold, Hi, Hf.
    destruct ((Model.iterations (Model.state m2) <? maxIter)
              && negb (truthy_opt (Model.finalAnswer (Model.state m2))));
      [| same_end].
    cbv zeta.
    set (u := {| Model.upd_iterations := _; Model.upd_sources := None |}).
    pose proof (ModelMore.alike_updateState u Ha) as A1.
    rewrite (proj2 (proj2 A1)).
    destruct (components (PlanNextAction (current (Model.updateState u m2)) tools) w)
      as [[d | e] w1]; [| same_end].
    assert (A2 : alike (Model.addReasoning (thought d) (Model.updateState u m1))
                       (Model.addReasoning (thought d) (Model.updateState u m2)))
      by (apply ModelMore.alike_push; exact A1).
    rewrite (proj2 (proj2 A2)).
    destruct (shouldFinish d).
    { destruct (components (GenerateFinalAnswer _) w1) as [[t | e] w2];
        same_end.
      apply ModelMore.alike_setFinalAnswer; exact A2. }
    destruct (components (ExecuteAction (action d) _) w1) as [[r | e] w2];
      [| same_end].
    destruct (action d) as [a |]; [| same_end].
    set (m3 := Model.addObservation (observation r) (name a)
                 (Model.addReasoning (thought d) (Model.updateState u m1))).
    set (m3' := Model.addObservation (observation r) (name a)
                  (Model.addReasoning (thought d) (Model.updateState u m2))).
    assert (A3 : alike m3 m3') by (apply ModelMore.alike_push; exact A2).
    rewrite (proj2 (proj2 A3)).
    set (m4 := match result_sources r with Some _ => _ | None => m3 end).
    set (m4' := match result_sources r with Some _ => _ | None => m3' end).
    assert (A4 : alike m4 m4')
      by (unfold m4, m4'; destruct (result_sources r);
          [apply ModelMore.alike_updateState |]; exact A3).
    destruct (maxIter <=? Model.iterations (Model.state m2) + 1).
    + destruct (components (GenerateFinalAnswer (current m3')) w2)
        as [[t | e] w3]; [| same_end].
      apply IH. apply ModelMore.alike_setFinalAnswer; exact A4.
    + apply IH. exact A4.
Qed.


(** [process] in terms of the loop it runs. *)
Lemma process_run (fuel : nat) (query : string) (context : JsVal)
  (m : Model.Store) (w : W) :
  run components
    (process config_maxIterations config_debug tools fuel query context m) w []
  = match run components
            (loop_from fuel (Model.initializeState query context m)) w [] with
    | Some fin0 =>
        Some {| outcome :=
                  Ok match outcome fin0 with
                     | Ok _ => formatResponse config_debug (current (store fin0))
                     | Throw message => errorResponse message
                     end;
                store := store fin0; world := world fin0;
                calls := calls fin0 |}
    | None => None
    end.
Proof.
  unfold process. cbn [bind bind_step model_do]. unfold catch.
  set (m0 := Model.initializeState query context m).
  rewrite ReActFacts.run_catch.
  unfold attempt, executeReActLoop. cbn [bind bind_step model_get].
  change (Model.getState m0) with (Model.this_state m0).
  rewrite ReActFacts.run_bind.
  destruct (run components (loop_from fuel m0) w []) as [fin0 |];
    [| reflexivity].
  destruct (outcome fin0) as [[] | message]; reflexivity.
Qed.

Lemma loop_ends (fuel : nat) (query : string) (context : JsVal)
  (m : Model.Store) (w : W) :
  maxIter <= fuel ->
  exists fin0,
    run components
      (loop_from fuel (Model.initializeState query context m)) w [] = Some fin0.
Proof.
  intros Hfuel.
  destruct (@ReActFacts.loop_spec W components config_maxIterations tools fuel
              (Model.initializeState query context m) w [])
    as (fin0 & Hrun & _); [cbn; lia | reflexivity |].
  eauto.
Qed.

(** Property X15.  Sessions that run one after the other do not see each
    other: what [process] returns, the calls it makes and the state a
    reader sees at its end are the same whatever earlier sessions left
    in the store. *)
Theorem process_ignores_earlier_sessions (fuel : nat) (query : string)
  (context : JsVal) (m1 m2 : Model.Store) (w : W) :
  maxIter <= fuel ->
  exists fin1 fin2,
    run components
      (process config_maxIterations config_debug tools fuel query context m1)
      w [] = Some fin1
    /\ run components
         (process config_maxIterations config_debug tools fuel query context m2)
         w [] = Some fin2
    /\ outcome fin1 = outcome fin2
    /\ calls fin1 = calls fin2
    /\ world fin1 = world fin2
    /\ current (store fin1) = current (store fin2).
Proof.
  intros Hfuel. rewrite !process_run.
  pose proof (@loop_alike fuel _ _ w []
                (ModelMore.alike_initializeState query context m1 m2)) as Hsame.
  destruct (loop_ends query context m1 w Hfuel) as (f1 & H1).
  destruct (loop_ends query context m2 w Hfuel) as (f2 & H2).
  rewrite H1, H2 in *. destruct Hsame as (Ho & Hw & Hc & (_ & _ & Hs)).
  do 2 eexists. split; [reflexivity |]. split; [reflexivity |].
  cbn [outcome calls world store]. rewrite Ho, Hs. repeat split; assumption.
Qed.


(** The store after the action of one turn. *)
Lemma after_action (observation actionName : string)
  (found : option (list Source)) (m2 : Model.Store) :
  valid m2 ->
  let m3 := Model.addObservation observation actionName m2 in
  let m4 :=
    match found with
    | Some srcs =>
        Model.updateState
          {| Model.upd_iterations := None; Model.upd_sources := Some srcs |} m3
    | None => m3
    end in
  valid m4
  /\ Model.iterations (Model.state m4) = Model.iterations (Model.state m2)
  /\ Model.finalAnswer (Model.state m4) = Model.finalAnswer (Model.state m2)
  /\ Model.sources (current m3) = Model.sources (current m2)
  /\ Model.conversation (current m3)
     = (Model.conversation (current m2) ++
        [ {| role := "system";
             content := "Observation from " ++ actionName ++ ": " ++ observation |} ])%list
  /\ Model.sources (current m4)
     = match found with
       | Some srcs => Model.uniqueByUrl srcs
       | None => Model.sources (current m2)
       end.
Proof.
  intros Hv m3 m4.
  assert (Hv3 : valid m3) by (apply ModelMore.valid_push; exact Hv).
  assert (H3 : current m3 = _) by exact (ModelMore.current_push _ Hv).
  unfold m4. destruct found as [srcs |].
  - rewrite ModelMore.current_updateState, StoreFacts.iterations_updateState,
      StoreFacts.finalAnswer_updateState, H3.
    cbn [Model.upd_sources Model.upd_iterations Model.sources Model.conversation].
    rewrite ModelMore.uniqueByUrl_twice.
    repeat split. now apply ModelMore.valid_updateState.
  - rewrite H3. cbn [Model.sources Model.conversation]. repeat split.
    exact Hv3.
Qed.

(** With a planner that never finishes, the loop ends by the forced
    completion of its last turn: the last two calls are the action and
    the final answer, and the state given to the second has the sources
    of the state given to the first. *)
Lemma loop_forced (fuel : nat) :
  forall (m : Model.Store) (w : W) (trace : list Call),
    valid m ->
    well_behaved components ->
    never_finishes components ->
    Model.iterations (Model.state m) < maxIter ->
    maxIter <= fuel + Model.iterations (Model.state m) ->
    truthy_opt (Model.finalAnswer (Model.state m)) = false ->
    exists fin pre a before after result text w1 w2,
      run components (loop_from fuel m) w trace = Some fin
      /\ outcome fin = Ok tt
      /\ calls fin
         = (trace ++ pre ++
            [ExecuteAction (Some a) before; GenerateFinalAnswer after])%list
      /\ components (ExecuteAction (Some a) before) w1 = (Ok result, w2)
      /\ components (GenerateFinalAnswer after) w2 = (Ok text, world fin)
      /\ Model.finalAnswer (current (store fin)) = Some text
      /\ Model.sources after = Model.sources before
      /\ Model.conversation after
         = (Model.conversation before ++
            [ {| role := "system";
                 content := "Observation from " ++ name a ++ ": " ++
                            observation result |} ])%list
      /\ Model.sources (current (store fin))
         = match result_sources result with
           | Some srcs => Model.uniqueByUrl srcs
           | None => Model.sources before
           end
      /\ (Model.iterations (Model.state m) + 1 = maxIter ->
          Model.sources before = Model.sources (current m)).
Proof.
  induction fuel as [|fuel IH]; intros m w trace Hv Hwb Hnf Hlt Hfuel Hfalsy;
    [lia |].
  rewrite loop_unfold, Hfalsy.
  replace (Model.iterations (Model.state m) <? maxIter) with true
    by (symmetry; apply Nat.ltb_lt; exact Hlt).
  cbn [andb negb]. cbv zeta.
  set (m1 := Model.updateState _ m).
  assert (Hv1 : valid m1) by (apply ModelMore.valid_updateState; exact Hv).
  assert (Hs1 : Model.sources (current m1) = Model.sources (current m))
    by (unfold m1; now rewrite ModelMore.current_updateState).
  destruct (components (PlanNextAction (current m1) tools) w)
    as [planned w1] eqn:Hplan.
  destruct (@ReActFacts.wb_plan _ _ _ _ _ _ _ Hwb Hplan) as (d & -> & Hnamed).
  rewrite (@ReActFacts.nf_plan _ _ _ _ _ _ _ Hnf Hplan).
  specialize (Hnamed (@ReActFacts.nf_plan _ _ _ _ _ _ _ Hnf Hplan)).
  destruct (action d) as [a |]; [clear Hnamed | now contradiction Hnamed].
  set (m2 := Model.addReasoning (thought d) m1).
  assert (Hv2 : valid m2) by (apply ModelMore.valid_push; exact Hv1).
  assert (Hs2 : Model.sources (current m2) = Model.sources (current m1))
    by (unfold m2, Model.addReasoning; now rewrite ModelMore.current_push).
  destruct (components (ExecuteAction (Some a) (current m2)) w1)
    as [acted w2] eqn:Hact.
  destruct (@ReActFacts.wb_act _ _ _ _ _ _ _ Hwb Hact) as (r & ->).
  destruct (after_action (observation r) (name a) (result_sources r) Hv2)
    as (Hv4 & Hi4 & Hf4 & Hs3 & Hc3 & Hs4).
  set (m3 := Model.addObservation (observation r) (name a) m2) in *.
  set (m4 := match result_sources r with Some _ => _ | None => m3 end) in *.
  assert (Hi2 : Model.iterations (Model.state m2)
                = Model.iterations (Model.state m) + 1)
    by (unfold m2, m1; cbn [Model.addReasoning Model.push Model.state];
        now rewrite StoreFacts.iterations_updateState).
  assert (Hf2 : Model.finalAnswer (Model.state m2)
                = Model.finalAnswer (Model.state m))
    by (unfold m2, m1; cbn [Model.addReasoning Model.push Model.state];
        now rewrite StoreFacts.finalAnswer_updateState).
  destruct (maxIter <=? Model.iterations (Model.state m) + 1) eqn:Hforced.
  - apply Nat.leb_le in Hforced.
    destruct (components (GenerateFinalAnswer (current m3)) w2)
      as [answered w3] eqn:Hfinal.
    destruct (@ReActFacts.wb_final _ _ _ _ _ _ Hwb Hfinal) as (t & ->).
    rewrite ReActFacts.loop_exit
      by (cbn [Model.setFinalAnswer Model.push Model.state Model.iterations];
          lia).
    exists {| outcome := Ok tt; store := Model.setFinalAnswer t m4; world := w3;
              calls := (((trace ++ [PlanNextAction (current m1) tools]) ++
                         [ExecuteAction (Some a) (current m2)]) ++
                        [GenerateFinalAnswer (current m3)])%list |},
      [PlanNextAction (current m1) tools], a, (current m2), (current m3), r, t,
      w1, w2.
    cbn [outcome calls store world].
    rewrite ModelMore.current_setFinalAnswer by exact Hv4.
    cbn [Model.sources Model.finalAnswer].
    split; [reflexivity |]. split; [reflexivity |].
    split; [now rewrite <- !app_assoc |].
    split; [exact Hact |]. split; [exact Hfinal |]. split; [reflexivity |].
    split; [exact Hs3 |]. split; [exact Hc3 |].
    split; [exact Hs4 |].
    intros _. now rewrite Hs2, Hs1.
  - apply Nat.leb_gt in Hforced.
    destruct (IH m4 w2 ((trace ++ [PlanNextAction (current m1) tools]) ++
                        [ExecuteAction (Some a) (current m2)])%list
                Hv4 Hwb Hnf)
      as (fin & pre & a' & before & after & result & text & w' & w'' & Hrun
          & Hok & Hcalls & Hcall & Hgen & Hset & Hsame & Hconv & Hsrc & _);
      [rewrite Hi4, Hi2; lia | rewrite Hi4, Hi2; lia
      | rewrite Hf4, Hf2; exact Hfalsy |].
    exists fin,
      ([PlanNextAction (current m1) tools; ExecuteAction (Some a) (current m2)]
       ++ pre)%list,
      a', before, after, result, text, w', w''.
    split; [exact Hrun |]. split; [exact Hok |].
    split; [rewrite Hcalls, <- !app_assoc; reflexivity |].
    split; [exact Hcall |]. split; [exact Hgen |]. split; [exact Hset |].
    split; [exact Hsame |]. split; [exact Hconv |].
    split; [exact Hsrc | lia].
Qed.

(** Property X17.  The final answer of a session that ran to the
    ceiling does not see what its last action found: the planner is
    given the state as it was before the last action returned its
    sources, while the response lists those sources.  The answer of the
    response is the text generated, or the fixed sentence of
    [formatResponse] when that text is empty. *)
Theorem forced_answer_misses_last_sources (fuel : nat) (query : string)
  (context : JsVal) (m : Model.Store) (w : W) :
  maxIter <= fuel ->
  well_behaved components ->
  never_finishes components ->
  exists fin response pre a before after result text w1 w2,
    run components
      (process config_maxIterations config_debug tools fuel query context m)
      w [] = Some fin
    /\ outcome fin = Ok response
    /\ calls fin
       = (pre ++ [ExecuteAction (Some a) before; GenerateFinalAnswer after])%list
    /\ components (ExecuteAction (Some a) before) w1 = (Ok result, w2)
    /\ components (GenerateFinalAnswer after) w2 = (Ok text, world fin)
    /\ answer response
       = (if nonempty text then text
          else "I was unable to generate a complete answer. Please try rephrasing your question.")
    /\ Model.sources after = Model.sources before
    /\ (maxIter = 1 -> Model.sources after = [])
    /\ (forall srcs,
          result_sources result = Some srcs ->
          sources response = firstn 5 (Model.uniqueByUrl srcs)).
Proof.
  intros Hfuel Hwb Hnf. rewrite process_run.
  set (m0 := Model.initializeState query context m).
  pose proof (ReActFacts.maxIterations_positive config_maxIterations) as Hpos.
  destruct (@loop_forced fuel m0 w [] (ModelMore.valid_initializeState _ _ _)
              Hwb Hnf)
    as (fin0 & pre & a & before & after & result & text & w1 & w2 & Hrun & Hok
        & Hcalls & Hcall & Hgen & Hset & Hsame & _ & Hsrc & Hone);
    [exact Hpos | cbn; lia | reflexivity |].
  rewrite Hrun, Hok.
  do 2 eexists. exists pre, a, before, after, result, text, w1, w2.
  split; [reflexivity |]. split; [reflexivity |].
  cbn [calls store world]. split; [exact Hcalls |]. split; [exact Hcall |].
  split; [exact Hgen |].
  split.
  { unfold formatResponse. cbn [answer]. rewrite Hset. reflexivity. }
  split; [exact Hsame |]. split.
  - intros H1. rewrite Hsame, Hone by (cbn; lia).
    unfold m0. now rewrite ModelMore.current_initializeState.
  - intros srcs Hfound. unfold formatResponse. cbn [sources].
    rewrite Hsrc, Hfound.
    now rewrite (@ModelMore.uniqueByUrl_NoDup_id _ (DedupFacts.uniqueByUrl_NoDup srcs)).
Qed.


End Loop.

Lemma process_ignores_earlier_sessions_witness :
  exists fin1 fin2,
    run Examples.stubborn
      (process None false [] 5 "My audio is not working" (Obj []) Model.new)
      tt [] = Some fin1
    /\ run Examples.stubborn
         (process None false [] 5 "My audio is not working" (Obj []) used_store)
         tt [] = Some fin2
    /\ outcome fin1 = outcome fin2
    /\ calls fin1 = calls fin2
    /\ world fin1 = world fin2
    /\ current (store fin1) = current (store fin2).
Proof.
  apply (@process_ignores_earlier_sessions unit Examples.stubborn None false []
           5 "My audio is not working" (Obj []) Model.new used_store tt).
  cbn. lia.
Defined.


Lemma forced_answer_misses_last_sources_witness :
  exists fin response pre a before after result text w1 w2,
    run Examples.stubborn
      (process (Some 1) false [] 1 "My audio is not working" (Obj []) Model.new)
      tt [] = Some fin
    /\ outcome fin = Ok response
    /\ calls fin
       = (pre ++ [ExecuteAction (Some a) before; GenerateFinalAnswer after])%list
    /\ Examples.stubborn (ExecuteAction (Some a) before) w1 = (Ok result, w2)
    /\ Examples.stubborn (GenerateFinalAnswer after) w2 = (Ok text, world fin)
    /\ answer response
       = (if nonempty text then text
          else "I was unable to generate a complete answer. Please try rephrasing your question.")
    /\ Model.sources after = Model.sources before
    /\ (maxIterations (Some 1) = 1 -> Model.sources after = [])
    /\ (forall srcs,
          result_sources result = Some srcs ->
          sources response = firstn 5 (Model.uniqueByUrl srcs)).
Proof.
  apply (@forced_answer_misses_last_sources unit Examples.stubborn (Some 1)
           false [] 1 "My audio is not working" (Obj []) Model.new tt).
  - cbn. lia.
  - exact LoopExamples.stubborn_well_behaved.
  - exact LoopExamples.stubborn_never_finishes.
Defined.


End ReActMore.

(* ================================================================= *)
(** ** The agent with its services, and the request handler *)

Module AgentMore.

Import ReAct Notions More.

Section Agent.

Variable create : nat -> ClaudeClient.Request -> Outcome ClaudeClient.Response.
Variable client : ClaudeClient.Client.
Variable searchSource : JsVal -> JsVal -> Outcome (list SearchResult).
Variable config_debug : bool.
Variable beyond : string -> JsVal.
Variable user_id : JsVal.

Local Abbreviation components :=
  (GeneralAgent.components create client searchSource beyond).
Local Abbreviation apology :=
  "I apologize, but I encountered an error while generating a response to your query. Please try asking again or rephrasing your question.".

(** The context [process] of the agent builds from its options. *)
Local Abbreviation context_of options :=
  (Obj (fold_left
          (fun props '(k, v) => assoc_set k v props)
          (GeneralAgent.opt_context options)
          [("sources",
            or_else (GeneralAgent.opt_sources options) GeneralAgent.defaultSources);
           ("files", or_else (GeneralAgent.opt_files options) (Arr []))])).





(** Property X20.  A request without a query never reaches the agent:
    the reply is the status 400, at once, and the store of the agent is
    untouched. *)
Theorem processQuery_requires_a_query (fuel : nat)
  (body : AgentController.Body) (m : Model.Store) :
  (truthy (AgentController.query body) = false
   \/ exists text,
        AgentController.query body = Str text /\ trim text = "") ->
  AgentController.processQuery create client searchSource config_debug user_id
    fuel body m
  = Done (Ok {| AgentController.status := 400;
                AgentController.payload :=
                  AgentController.Failure "Query is required" None |}) m.
Proof.
  intros [Hfalsy | (text & Hq & Hblank)];
    unfold AgentController.processQuery, catch.
  - destruct (AgentController.query body) as [| | b | x | | s | items | props];
      try discriminate Hfalsy; try reflexivity;
      rewrite ?Hfalsy; reflexivity.
  - rewrite Hq, Hblank. rewrite orb_true_r. reflexivity.
Qed.

(** Property X21.  A query that is not a string and not falsy is
    answered with the status 500 and the [TypeError] of the call of
    [trim] on it. *)
Theorem processQuery_query_without_trim (fuel : nat)
  (body : AgentController.Body) (m : Model.Store) :
  truthy (AgentController.query body) = true ->
  (forall text, AgentController.query body <> Str text) ->
  AgentController.processQuery create client searchSource config_debug user_id
    fuel body m
  = Done (Ok {| AgentController.status := 500;
                AgentController.payload :=
                  AgentController.Failure "Failed to process query"
                    (Some "query.trim is not a function") |}) m.
Proof.
  intros Htruthy Hother. unfold AgentController.processQuery, catch.
  destruct (AgentController.query body) as [| | b | x | | s | items | props];
    try discriminate Htruthy;
    try (now contradiction (Hother s));
    rewrite ?Htruthy; reflexivity.
Qed.



End Agent.


Lemma processQuery_requires_a_query_witness :
  AgentController.processQuery Examples.api Examples.client Examples.connectors
    false (Str "anonymous") 5
    {| AgentController.query := Str "   ";
       AgentController.selectedAgents := Arr [Str "general"];
       AgentController.selectedSources := Undefined;
       AgentController.files := Undefined |}
    used_store
  = Done (Ok {| AgentController.status := 400;
                AgentController.payload :=
                  AgentController.Failure "Query is required" None |})
      used_store.
Proof.
  apply (@processQuery_requires_a_query Examples.api Examples.client
           Examples.connectors false (Str "anonymous") 5).
  right. exists "   ". split; reflexivity.
Defined.

Lemma processQuery_query_without_trim_witness :
  AgentController.processQuery Examples.api Examples.client Examples.connectors
    false (Str "anonymous") 5
    {| AgentController.query := Obj [("trim", Str "x")];
       AgentController.selectedAgents := Undefined;
       AgentController.selectedSources := Undefined;
       AgentController.files := Undefined |}
    used_store
  = Done (Ok {| AgentController.status := 500;
                AgentController.payload :=
                  AgentController.Failure "Failed to process query"
                    (Some "query.trim is not a function") |})
      used_store.
Proof.
  apply (@processQuery_query_without_trim Examples.api Examples.client
           Examples.connectors false (Str "anonymous") 5).
  - reflexivity.
  - intros text H. discriminate H.
Defined.


End AgentMore.

(* ================================================================= *)
(** ** The chat interface *)

Module ChatInterfaceFacts.

Import ChatInterface.

Lemma existsb_eqb_In (x : string) (l : list string) :
  existsb (String.eqb x) l = true <-> In x l.
Proof.
  rewrite existsb_exists. split.
  - intros (y & Hy & E). apply String.eqb_eq in E. now subst y.
  - intros H. exists x. split; [exact H | apply String.eqb_refl].
Qed.

(** Property X23.  Toggling a source flips its membership in the
    selection and no other; a selection without repetition stays one,
    and toggling twice gives back the sources selected. *)
Theorem toggleSourceSelection_flips (sourceId : string) (prev : list string) :
  (In sourceId (toggleSourceSelection sourceId prev) <-> ~ In sourceId prev)
  /\ (forall other, other <> sourceId ->
        (In other (toggleSourceSelection sourceId prev) <-> In other prev))
  /\ (NoDup prev -> NoDup (toggleSourceSelection sourceId prev))
  /\ (forall x,
        In x (toggleSourceSelection sourceId
                (toggleSourceSelection sourceId prev))
        <-> In x prev).
Proof.
  assert (Hflip : forall l,
             In sourceId (toggleSourceSelection sourceId l) <-> ~ In sourceId l).
  { intros l. unfold toggleSourceSelection.
    destruct (existsb (String.eqb sourceId) l) eqn:E.
    - apply existsb_eqb_In in E. rewrite filter_In, String.eqb_refl. cbn.
      split; [intros (_ & H); discriminate H | tauto].
    - assert (~ In sourceId l)
        by (intros H; apply existsb_eqb_In in H; congruence).
      rewrite in_app_iff. cbn. tauto. }
  assert (Hrest : forall l other, other <> sourceId ->
             (In other (toggleSourceSelection sourceId l) <-> In other l)).
  { intros l other Hne. unfold toggleSourceSelection.
    destruct (existsb (String.eqb sourceId) l).
    - rewrite filter_In.
      replace (String.eqb other sourceId) with false
        by (symmetry; now apply String.eqb_neq).
      cbn. tauto.
    - rewrite in_app_iff. cbn. split; [| tauto].
      intros [H | [H | []]]; [exact H | now contradiction Hne]. }
  split; [apply Hflip |]. split; [apply Hrest |]. split.
  - intros Hnd. unfold toggleSourceSelection.
    destruct (existsb (String.eqb sourceId) prev) eqn:E.
    + now apply NoDup_filter.
    + apply NoDup_app; [exact Hnd | repeat constructor; intros [] |].
      intros x Hx [<- | []]. apply existsb_eqb_In in Hx. congruence.
  - intros x. destruct (String.eqb x sourceId) eqn:E.
    + apply String.eqb_eq in E. subst x. rewrite Hflip, Hflip.
      destruct (existsb (String.eqb sourceId) prev) eqn:E.
      * apply existsb_eqb_In in E. tauto.
      * assert (~ In sourceId prev)
          by (intros H; apply existsb_eqb_In in H; congruence).
        tauto.
    + apply String.eqb_neq in E. now rewrite !Hrest by exact E.
Qed.

Lemma filter_indexed_keep {File : Type} (index k : nat) (l : list File) :
  index < k ->
  Model.filter_indexed (fun _ i => negb (i =? index)) k l = l.
Proof.
  revert k. induction l as [|y l IH]; intros k Hk;
    cbn [Model.filter_indexed]; [reflexivity |].
  replace (k =? index) with false by (symmetry; apply Nat.eqb_neq; lia).
  cbn [negb]. f_equal. apply IH. lia.
Qed.

Lemma filter_indexed_drop {File : Type} (start index : nat) (l : list File) :
  Model.filter_indexed (fun _ i => negb (i =? start + index)) start l
  = (firstn index l ++ skipn (S index) l)%list.
Proof.
  revert start index. induction l as [|x t IH]; intros start index;
    cbn [Model.filter_indexed].
  - now destruct index.
  - destruct index as [|index].
    + rewrite Nat.add_0_r, Nat.eqb_refl. cbn [negb firstn skipn app].
      apply filter_indexed_keep. lia.
    + replace (start =? start + S index) with false
        by (symmetry; apply Nat.eqb_neq; lia).
      cbn [negb firstn skipn app]. f_equal.
      replace (start + S index) with (S start + index) by lia.
      apply IH.
Qed.

(** Property X24.  Removing the file at an index takes out that one file
    and keeps the others in their order; an index beyond the list
    changes nothing. *)
Theorem removeFile_removes_one {File : Type} (index : nat) (prev : list File) :
  removeFile index prev = (firstn index prev ++ skipn (S index) prev)%list
  /\ (index < length prev -> S (length (removeFile index prev)) = length prev)
  /\ (length prev <= index -> removeFile index prev = prev).
Proof.
  assert (H : removeFile index prev
              = (firstn index prev ++ skipn (S index) prev)%list)
    by exact (filter_indexed_drop 0 index prev).
  split; [exact H |]. rewrite H. split.
  - intros Hlt. rewrite length_app, length_firstn, length_skipn. lia.
  - intros Hge. rewrite firstn_all2 by exact Hge.
    rewrite skipn_all2 by lia. apply app_nil_r.
Qed.

End ChatInterfaceFacts.
